(** * Vision2AR: the adaptive diagnostic core and the hybrid tutorial search

    A shallow embedding of
      - [backend/diagnosis/belief_engine.py]   (class [BeliefEngine]),
      - [backend/analysis/tutorial_matcher.py] (class [TutorialMatcher]),
      - [backend/main.py]                      ([answer_diagnostic_question]),
    followed by the properties of the specification that concern them.

    Conventions of the embedding.
      - A Python [float] is an exact rational ([Q]); equalities between
        computed probabilities are stated with [==].  Rounding, [inf] and
        [nan] are outside the model.
      - A Python [dict] is an association list in insertion order
        ([PyDict.t]); [sorted] and [list.sort] are stable.
      - An exception is a [Raise] result; the [print] calls that carry a
        warning are kept as a list of [diag] events.
      - The PostgreSQL tables and the Weaviate class are lists of rows; a
        query without ORDER BY returns rows in table order.  A JSON column
        is the text of its document or the decoded object, depending on
        the pool ([json_column]).
      - A dict that the code updates in place and reaches under two names
        is followed as one object: [InPlace] gives the dict a caller
        passed as the call left it, and a session records whether its two
        belief keys hold the same dict. *)

From Stdlib Require Import String Ascii List Bool Arith ZArith QArith Lia Permutation.
From Stdlib Require Import DecimalString Qabs Lqa.
Import ListNotations.
Local Open Scope string_scope.
Local Open Scope Q_scope.

(** ** Python values used by the code *)

Module PyDict.
Section Dict.
Context {V : Type}.

Definition t : Type := list (string * V).

(** [d.get(k)] *)
Fixpoint get (d : t) (k : string) : option V :=
  match d with
  | [] => None
  | (k', v) :: d' => if String.eqb k' k then Some v else get d' k
  end.

(** [k in d] *)
Definition mem (k : string) (d : t) : bool :=
  match get d k with Some _ => true | None => false end.

(** [d[k] = v]: an existing key keeps its position, a new key goes last. *)
Fixpoint set (d : t) (k : string) (v : V) : t :=
  match d with
  | [] => [(k, v)]
  | (k', v') :: d' =>
      if String.eqb k' k then (k', v) :: d' else (k', v') :: set d' k v
  end.

Definition keys (d : t) : list string := map fst d.
Definition values (d : t) : list V := map snd d.
End Dict.
Arguments t V : clear implicits.
End PyDict.

Inductive exn : Type :=
| ValueError
| AttributeError
| HTTPException (status : nat).

Inductive result (A : Type) : Type :=
| Ok (a : A)
| Raise (e : exn).
Arguments Ok {A} a.
Arguments Raise {A} e.

Definition bind {A B : Type} (r : result A) (k : A -> result B) : result B :=
  match r with
  | Ok a => k a
  | Raise e => Raise e
  end.

Notation "x <- r ;; k" := (bind r (fun x => k))
  (at level 61, r at next level, right associativity).

(** [x < y] on floats, as a boolean. *)
Definition Qlt_bool (x y : Q) : bool := negb (Qle_bool y x).

(** [sum(xs)]: starts from 0 and adds from the left. *)
Definition py_sum (xs : list Q) : Q := fold_left Qplus xs 0.

(** [k in xs] for a list of strings. *)
Definition str_in (k : string) (xs : list string) : bool :=
  existsb (String.eqb k) xs.

(** [set(xs)], kept as a duplicate-free list; [len] of it is [length]. *)
Definition py_set (xs : list string) : list string := nodup string_dec xs.

(** [a & b] on sets. *)
Definition set_inter (a b : list string) : list string :=
  filter (fun x => str_in x b) a.

(** [a | b] on sets. *)
Definition set_union (a b : list string) : list string :=
  (a ++ filter (fun x => negb (str_in x a)) b)%list.

Definition len_nat (n : nat) : Q := inject_Z (Z.of_nat n).
Definition len {A : Type} (xs : list A) : Q := len_nat (length xs).

Section Sorting.
Context {A : Type} (key : A -> Q).

(** Insertion below every element with a strictly greater key: an element
    stays in front of the later elements that have the same key. *)
Fixpoint insert_desc (x : A) (l : list A) : list A :=
  match l with
  | [] => [x]
  | y :: l' =>
      if Qlt_bool (key x) (key y) then y :: insert_desc x l' else x :: l
  end.

(** [sorted(l, key=key, reverse=True)]: descending and stable. *)
Fixpoint sorted_desc (l : list A) : list A :=
  match l with
  | [] => []
  | x :: l' => insert_desc x (sorted_desc l')
  end.

(** The loop of [max(l, key=key)] after its first element: a later
    element replaces the best one only when its key is strictly greater. *)
Fixpoint max_from (best : A) (l : list A) : A :=
  match l with
  | [] => best
  | x :: l' => max_from (if Qlt_bool (key best) (key x) then x else best) l'
  end.

(** [max(l, key=key)] on a non-empty list; [None] stands for the empty
    list, which the callers exclude before the call. *)
Definition py_max_by (l : list A) : option A :=
  match l with
  | [] => None
  | x :: l' => Some (max_from x l')
  end.
End Sorting.

(** [s.startswith("*")] *)
Definition startswith_star (s : string) : bool := String.prefix "*" s.

(** [s[1:]] *)
Definition drop_first (s : string) : string :=
  match s with
  | EmptyString => EmptyString
  | String _ rest => rest
  end.

(** [c in s] for a one-character string [c]. *)
Fixpoint has_char (c : ascii) (s : string) : bool :=
  match s with
  | EmptyString => false
  | String a rest => Ascii.eqb a c || has_char c rest
  end.

(** [s.replace(c, "")] for a one-character string [c]. *)
Fixpoint remove_char (c : ascii) (s : string) : string :=
  match s with
  | EmptyString => EmptyString
  | String a rest =>
      if Ascii.eqb a c then remove_char c rest else String a (remove_char c rest)
  end.

(** [s.lower()] on ASCII text. *)
Definition lower_char (c : ascii) : ascii :=
  let n := nat_of_ascii c in
  if (65 <=? n)%nat && (n <=? 90)%nat then ascii_of_nat (n + 32) else c.

Fixpoint lower (s : string) : string :=
  match s with
  | EmptyString => EmptyString
  | String c rest => String (lower_char c) (lower rest)
  end.

(** [needle in hay] on strings. *)
Fixpoint contains (needle hay : string) : bool :=
  String.prefix needle hay
  || match hay with
     | EmptyString => false
     | String _ rest => contains needle rest
     end.

(** [str(n)] for a length. *)
Definition str_of_nat (n : nat) : string :=
  NilEmpty.string_of_uint (Nat.to_uint n).

(** A decimal reader used to instantiate the builtin [float] on concrete
    data: an optional sign, digits, and an optional fraction part.  On such
    a literal it gives the value Python gives; on every other string it
    gives [None], also on those Python reads (exponents, "inf", blanks), and
    it is applied to plain decimals only. *)
Definition digit_of (c : ascii) : option Z :=
  let n := nat_of_ascii c in
  if (48 <=? n)%nat && (n <=? 57)%nat then Some (Z.of_nat (n - 48)) else None.

Fixpoint read_digits (s : string) (acc : Z) (count : nat) : Z * nat * string :=
  match s with
  | EmptyString => (acc, count, s)
  | String c rest =>
      match digit_of c with
      | Some d => read_digits rest (10 * acc + d)%Z (S count)
      | None => (acc, count, s)
      end
  end.

Definition read_unsigned (s : string) : option Q :=
  let '(ip, n1, rest) := read_digits s 0%Z 0%nat in
  match rest with
  | EmptyString => if (0 <? n1)%nat then Some (inject_Z ip) else None
  | String "." rest' =>
      let '(num, n2, rest'') := read_digits rest' ip 0%nat in
      match rest'' with
      | EmptyString =>
          if (0 <? n1 + n2)%nat
          then Some (if (0 <? n2)%nat
                     then Qmake num (Pos.pow 10 (Pos.of_nat n2))
                     else inject_Z num)
          else None
      | _ => None
      end
  | _ => None
  end.

Definition decimal_float (s : string) : option Q :=
  match s with
  | String "-" rest => option_map Qopp (read_unsigned rest)
  | String "+" rest => read_unsigned rest
  | _ => read_unsigned s
  end.

(** ** Data: questions, patterns, the session input and the database *)

(** A probability distribution over causes: [Dict[str, float]]. *)
Definition beliefs : Type := PyDict.t Q.

(** The value stored under a cause in [belief_updates] (a JSON value). *)
Inductive multiplier : Type :=
| MStr (s : string)
| MNum (x : Q)
| MBool (b : bool)
| MNull.

(** [belief_updates]: answer -> (cause -> multiplier). *)
Definition belief_updates_t : Type := PyDict.t (PyDict.t multiplier).

(** The [skip_if] object of a question; [None] is an absent key. *)
Record skip_if_t : Type := {
  brand_confidence_rule : option string;
  symptom_present : option (list string);
  symptom_not_present : option (list string);
  visual_symptoms_detected : option (list string)
}.

Definition no_skip : skip_if_t :=
  {| brand_confidence_rule := None; symptom_present := None;
     symptom_not_present := None; visual_symptoms_detected := None |}.

(** A question dict.  An [option] field that is [None] is an absent key. *)
Record question : Type := {
  id : string;
  text : option string;
  category : option string;
  skip_if : skip_if_t;
  information_gain_estimate : option Q;
  belief_updates : belief_updates_t;
  expected_signal : option string;
  cost_level : option string;
  source : option string
}.

(** An entry of [symptom_mappings.json]. *)
Record pattern : Type := {
  p_category : option string;
  p_symptoms : list string;
  p_causes : PyDict.t Q;
  p_confidence : option Q
}.

(** The processed user input the engine reads. *)
Record processed_input_t : Type := {
  pi_brand_confidence : option Q;
  pi_symptoms : list string;
  pi_visual_symptoms : list string;
  pi_keywords : list string;
  pi_category : string;
  pi_brand : option string
}.

(** Rows of the tables the code queries. *)
Record learned_pattern_row : Type := {
  lp_symptom_combination : list string;
  lp_cause : string;
  lp_success_rate : Q;
  lp_support_count : Z;
  lp_category : string;
  lp_approved : bool
}.

(** The value asyncpg hands over for a JSON column: the text of the
    document on a pool without a codec for the type, which is how
    [main.py] creates its pool, and the decoded object on a pool that has
    one. *)
Inductive json_column : Type :=
| JsonText (raw : string)
| JsonObject (o : belief_updates_t).

(** [None] in [lq_belief_updates_json] is SQL NULL. *)
Record learned_question_row : Type := {
  lq_question_id : string;
  lq_question_text : string;
  lq_category : string;
  lq_information_gain_avg : Q;
  lq_belief_updates_json : option json_column;
  lq_approved : bool
}.

Record tutorial_row : Type := {
  t_id : Z;
  t_brand : string;
  t_model : string;
  t_issue_type : string;
  t_title : string;
  t_keywords : list string;
  t_source : string;
  t_difficulty : string;
  t_category : string
}.

Record feedback_row : Type := {
  f_tutorial_id : Z;
  f_solved_problem : bool;
  f_clarity_rating : Q;
  f_accuracy_rating : Q
}.

Record Database : Type := {
  learned_patterns : list learned_pattern_row;
  learned_questions : list learned_question_row;
  tutorials : list tutorial_row;
  user_feedback : list feedback_row
}.

(** The warnings the engine prints. *)
Inductive diag : Type :=
| WarnQuestionNotInBase (question_id : string)
| InfoFoundAsLearned
| WarnNotLearnedEither
| WarnNoBeliefUpdates (answer question_id : string).

(** The reason returned by [should_ask_question] with [False]. *)
Inductive skip_reason : Type :=
| QuestionNotFound
| AlreadyAsked
| BrandAlreadyKnown (brand_conf : Q)
| SymptomAlreadyDetected
| NotRelevantToSymptoms
| VisualAlreadyProvided
| LowInformationGain (ig : Q)
| NotDistinguishing
| VeryHighConfidence (p : Q).

(** ** [BeliefEngine] *)

Module BeliefEngine.

(** The state of an instance: what [_load_base_knowledge] stored. *)
Record self_t : Type := {
  base_patterns : list pattern;
  base_questions : PyDict.t question
}.

(** [{q["id"]: q for q in data["questions"]}] *)
Definition load_base_questions (qs : list question) : PyDict.t question :=
  fold_left (fun d q => PyDict.set d (id q) q) qs [].

(** Steps 3 and 4 of [initialize_beliefs], and the end of [update_beliefs]:
    divide by the total when it is positive, then sort by probability. *)
Definition normalize (b : beliefs) : beliefs :=
  let total := py_sum (PyDict.values b) in
  if Qlt_bool 0 total then map (fun kv => (fst kv, snd kv / total)) b else b.

Definition sort_by_confidence (b : beliefs) : beliefs :=
  sorted_desc snd b.

(** [if cause not in beliefs: beliefs[cause] = 0.0; beliefs[cause] += x] *)
Definition add_to (b : beliefs) (cause : string) (x : Q) : beliefs :=
  match PyDict.get b cause with
  | Some v => PyDict.set b cause (v + x)
  | None => PyDict.set b cause (0 + x)
  end.

Section Builtins.
(** The builtins [float] (on strings; [None] is ValueError) and
    [math.exp]. *)
Variable py_float : string -> option Q.
Variable math_exp : Q -> Q.

Definition alpha : Q := 0.7.

(** The body of the loop over [self.base_patterns]. *)
Definition add_base_pattern (all_symptoms : list string) (category : string)
    (b : beliefs) (p : pattern) : beliefs :=
  match p_category p with
  | Some c =>
      if String.eqb c category then
        let pattern_symptoms := py_set (p_symptoms p) in
        let overlap := set_inter pattern_symptoms all_symptoms in
        match overlap with
        | [] => b
        | _ :: _ =>
            let overlap_ratio := len overlap / len pattern_symptoms in
            let pattern_confidence :=
              match p_confidence p with Some c => c | None => 1 end in
            fold_left
              (fun acc cp =>
                 add_to acc (fst cp)
                   (alpha * snd cp * overlap_ratio * pattern_confidence))
              (p_causes p) b
        end
      else b
  | None => b
  end.

(** The body of the loop over the approved learned patterns. *)
Definition add_learned_pattern (all_symptoms : list string)
    (b : beliefs) (lp : learned_pattern_row) : beliefs :=
  let pattern_symptoms := py_set (lp_symptom_combination lp) in
  let overlap := set_inter pattern_symptoms all_symptoms in
  match overlap with
  | [] => b
  | _ :: _ =>
      let overlap_ratio := len overlap / len pattern_symptoms in
      let n := inject_Z (lp_support_count lp) in
      let r := lp_success_rate lp in
      let n0 := 5 in
      let w := r * (1 - math_exp (- n / n0)) in
      add_to b (lp_cause lp) ((1 - alpha) * w * overlap_ratio)
  end.

(** [SELECT ... FROM learned_patterns WHERE approved = true AND category = $1] *)
Definition fetch_learned_patterns (db : Database) (category : string)
    : list learned_pattern_row :=
  filter (fun lp => lp_approved lp && String.eqb (lp_category lp) category)
         (learned_patterns db).

Definition accumulate_beliefs (self : self_t) (db : Database)
    (symptoms visual_symptoms : list string) (category : string) : beliefs :=
  let all_symptoms := py_set (symptoms ++ visual_symptoms)%list in
  let b1 := fold_left (add_base_pattern all_symptoms category)
                      (base_patterns self) [] in
  fold_left (add_learned_pattern all_symptoms)
            (fetch_learned_patterns db category) b1.

Definition initialize_beliefs (self : self_t) (db : Database)
    (symptoms visual_symptoms : list string) (category : string)
    (brand : option string) : beliefs :=
  sort_by_confidence
    (normalize (accumulate_beliefs self db symptoms visual_symptoms category)).

(** The body of the loop [for cause, multiplier in updates.items()]. *)
Definition apply_update (current : beliefs) (cause : string)
    (m : multiplier) : result beliefs :=
  match PyDict.get current cause with
  | Some old =>
      match m with
      | MStr s =>
          if startswith_star s then
            match py_float (drop_first s) with
            | Some factor => Ok (PyDict.set current cause (old * factor))
            | None => Raise ValueError
            end
          else Ok current
      | _ => Ok current
      end
  | None => Ok current
  end.

Fixpoint apply_updates (current : beliefs) (updates : PyDict.t multiplier)
    : result beliefs :=
  match updates with
  | [] => Ok current
  | (cause, m) :: rest =>
      b <- apply_update current cause m ;; apply_updates b rest
  end.

(** [SELECT ... FROM learned_questions WHERE question_id = $1 AND approved = true] *)
Definition fetch_learned_question (db : Database) (question_id : string)
    : option learned_question_row :=
  find (fun lq => String.eqb (lq_question_id lq) question_id && lq_approved lq)
       (learned_questions db).

(** [d.get(answer, {})] *)
Definition updates_for (bu : belief_updates_t) (answer : string)
    : PyDict.t multiplier :=
  match PyDict.get bu answer with Some u => u | None => [] end.

(** Lines 233-251: apply, normalize, sort. *)
Definition apply_normalize_sort (current : beliefs)
    (updates : PyDict.t multiplier) : result beliefs :=
  b <- apply_updates current updates ;;
  Ok (sort_by_confidence (normalize b)).

(** [learned_q["belief_updates_json"].get(answer, {})] behind the test
    [learned_q["belief_updates_json"]] of line 219.  An empty text and an
    empty object are falsy, which is [Ok None]; a [str] has no [get], which
    is the AttributeError of line 221; an object is looked up whole. *)
Definition learned_updates (column : option json_column) (answer : string)
    : result (option (PyDict.t multiplier)) :=
  match column with
  | None => Ok None
  | Some (JsonText EmptyString) => Ok None
  | Some (JsonText (String _ _)) => Raise AttributeError
  | Some (JsonObject []) => Ok None
  | Some (JsonObject ((_ :: _) as bu)) => Ok (Some (updates_for bu answer))
  end.

(** Lines 207-227 of [update_beliefs]: the update table of the question
    for the answer, from the base questions or else from the approved
    learned questions, with the warnings printed on the way.  [Ok None] is
    the early return of line 224. *)
Definition find_updates (self : self_t) (db : Database)
    (question_id answer : string)
    : list diag * result (option (PyDict.t multiplier)) :=
  match PyDict.get (base_questions self) question_id with
  | None =>
      match fetch_learned_question db question_id with
      | Some lq =>
          match learned_updates (lq_belief_updates_json lq) answer with
          | Ok None =>
              ([WarnQuestionNotInBase question_id; WarnNotLearnedEither], Ok None)
          | found =>
              ([WarnQuestionNotInBase question_id; InfoFoundAsLearned], found)
          end
      | None => ([WarnQuestionNotInBase question_id; WarnNotLearnedEither], Ok None)
      end
  | Some q => ([], Ok (Some (updates_for (belief_updates q) answer)))
  end.

(** [update_beliefs]: the printed warnings and the returned vector.  The
    multiplications are done on the caller's dict; the returned vector is
    a new dict except on the two early returns, which return the caller's
    dict itself. *)
Definition update_beliefs (self : self_t) (db : Database)
    (current_beliefs : beliefs) (question_id answer : string)
    : list diag * result beliefs :=
  match find_updates self db question_id answer with
  | (log, Raise e) => (log, Raise e)
  | (log, Ok None) => (log, Ok current_beliefs)
  | (log, Ok (Some [])) =>
      ((log ++ [WarnNoBeliefUpdates answer question_id])%list, Ok current_beliefs)
  | (log, Ok (Some updates)) => (log, apply_normalize_sort current_beliefs updates)
  end.

(** [should_ask_question].  [py_any required detected] is
    [any(s in detected for s in required)]. *)
Definition py_any (required detected : list string) : bool :=
  existsb (fun s => str_in s detected) required.

Definition check_brand_confidence (sk : skip_if_t) (pin : processed_input_t)
    : result (option skip_reason) :=
  match brand_confidence_rule sk with
  | Some threshold_str =>
      match py_float (remove_char "<" (remove_char ">" threshold_str)) with
      | Some threshold =>
          let brand_conf :=
            match pi_brand_confidence pin with Some c => c | None => 0 end in
          if has_char ">" threshold_str && Qlt_bool threshold brand_conf
          then Ok (Some (BrandAlreadyKnown brand_conf))
          else Ok None
      | None => Raise ValueError
      end
  | None => Ok None
  end.

Definition check_symptoms (sk : skip_if_t) (pin : processed_input_t)
    : option skip_reason :=
  let detected := (pi_symptoms pin ++ pi_visual_symptoms pin)%list in
  match symptom_present sk with
  | Some required =>
      if py_any required detected then Some SymptomAlreadyDetected else None
  | None => None
  end.

Definition check_symptoms_absent (sk : skip_if_t) (pin : processed_input_t)
    : option skip_reason :=
  let detected := (pi_symptoms pin ++ pi_visual_symptoms pin)%list in
  match symptom_not_present sk with
  | Some required =>
      if negb (py_any required detected) then Some NotRelevantToSymptoms else None
  | None => None
  end.

Definition check_visual (sk : skip_if_t) (pin : processed_input_t)
    : option skip_reason :=
  match visual_symptoms_detected sk with
  | Some required =>
      if py_any required (pi_visual_symptoms pin)
      then Some VisualAlreadyProvided else None
  | None => None
  end.

Definition check_gain (q : question) : option skip_reason :=
  let ig_estimate :=
    match information_gain_estimate q with Some g => g | None => 0 end in
  if Qlt_bool ig_estimate 0.6 then Some (LowInformationGain ig_estimate) else None.

Definition affects_top_causes (q : question) (current_beliefs : beliefs) : bool :=
  let top_causes := firstn 3 (PyDict.keys current_beliefs) in
  existsb (fun au => existsb (fun cause => str_in cause top_causes)
                             (PyDict.keys (snd au)))
          (belief_updates q).

(** [max(beliefs.values()) if beliefs else 0.0] *)
Definition get_confidence (b : beliefs) : Q :=
  match py_max_by (fun x => x) (PyDict.values b) with
  | Some m => m
  | None => 0
  end.

Definition check_saturation (current_beliefs : beliefs) : option skip_reason :=
  let max_cause_prob := get_confidence current_beliefs in
  if Qlt_bool 0.9 max_cause_prob then Some (VeryHighConfidence max_cause_prob)
  else None.

(** The first check that fires decides, in the order of the source. *)
Definition first_reason (checks : list (option skip_reason)) : option skip_reason :=
  fold_right (fun c rest => match c with Some r => Some r | None => rest end)
             None checks.

Definition verdict (r : option skip_reason) : bool * option skip_reason :=
  match r with
  | Some reason => (false, Some reason)
  | None => (true, None)
  end.

Definition should_ask_question (self : self_t) (question_id : string)
    (current_beliefs : beliefs) (pin : processed_input_t)
    (asked_questions : list string) : result (bool * option skip_reason) :=
  match PyDict.get (base_questions self) question_id with
  | None => Ok (false, Some QuestionNotFound)
  | Some q =>
      if str_in question_id asked_questions then Ok (false, Some AlreadyAsked)
      else
        brand <- check_brand_confidence (skip_if q) pin ;;
        Ok (verdict (first_reason
              [ brand;
                check_symptoms (skip_if q) pin;
                check_symptoms_absent (skip_if q) pin;
                check_visual (skip_if q) pin;
                check_gain q;
                (if affects_top_causes q current_beliefs then None
                 else Some NotDistinguishing);
                check_saturation current_beliefs ]))
  end.

(** [SELECT ... FROM learned_questions WHERE approved = true AND category = $1] *)
Definition fetch_learned_questions (db : Database) (category : string)
    : list learned_question_row :=
  filter (fun lq => lq_approved lq && String.eqb (lq_category lq) category)
         (learned_questions db).

(** The dict appended to the candidates for a learned question. *)
Definition learned_candidate (lq : learned_question_row) : question :=
  {| id := lq_question_id lq;
     text := Some (lq_question_text lq);
     category := Some (lq_category lq);
     skip_if := no_skip;
     information_gain_estimate := Some (lq_information_gain_avg lq);
     belief_updates := [];
     expected_signal := None;
     cost_level := None;
     source := Some "learned" |}.

Definition category_is (q : question) (c : string) : bool :=
  match category q with Some c' => String.eqb c' c | None => false end.

Definition candidate_questions (self : self_t) (db : Database)
    (asked_questions : list string) (c : string) : list question :=
  (map snd
      (filter (fun kq => category_is (snd kq) c
                         && negb (str_in (fst kq) asked_questions))
              (base_questions self))
   ++ map learned_candidate
        (filter (fun lq => negb (str_in (lq_question_id lq) asked_questions))
                (fetch_learned_questions db c)))%list.

(** The loop that applies the skip logic. *)
Fixpoint valid_questions (self : self_t) (current_beliefs : beliefs)
    (pin : processed_input_t) (asked_questions : list string)
    (candidates : list question) : result (list question) :=
  match candidates with
  | [] => Ok []
  | q :: rest =>
      v <- should_ask_question self (id q) current_beliefs pin asked_questions ;;
      vs <- valid_questions self current_beliefs pin asked_questions rest ;;
      Ok (if fst v then q :: vs else vs)
  end.

(** [q.get("information_gain_estimate", 0.5)] *)
Definition gain_key (q : question) : Q :=
  match information_gain_estimate q with Some g => g | None => 0.5 end.

(** "Ensure all required fields are present". *)
Definition fill_required (self : self_t) (best : question) : question :=
  match expected_signal best, PyDict.get (base_questions self) (id best) with
  | None, Some base_q =>
      {| id := id best; text := text best; category := category best;
         skip_if := skip_if best;
         information_gain_estimate := information_gain_estimate best;
         belief_updates := belief_updates best;
         expected_signal :=
           Some (match expected_signal base_q with
                 | Some s => s | None => "behavioral" end);
         cost_level :=
           Some (match cost_level base_q with
                 | Some s => s | None => "safe" end);
         source := source best |}
  | _, _ => best
  end.

Definition select_next_question (self : self_t) (db : Database)
    (current_beliefs : beliefs) (pin : processed_input_t)
    (asked_questions : list string) (c : string) : result (option question) :=
  match candidate_questions self db asked_questions c with
  | [] => Ok None
  | candidates =>
      valid <- valid_questions self current_beliefs pin asked_questions candidates ;;
      match py_max_by gain_key valid with
      | None => Ok None
      | Some best => Ok (Some (fill_required self best))
      end
  end.

(** [max(beliefs, key=beliefs.get)] with the guard for the empty dict. *)
Definition get_diagnosis (b : beliefs) : string * Q :=
  match py_max_by snd b with
  | None => ("unknown", 0)
  | Some (top_cause, confidence) => (top_cause, confidence)
  end.
End Builtins.

(** The keyword table of [update_beliefs_semantic]. *)
Definition symptom_keywords : PyDict.t (list string) :=
  [ ("driver_issue", ["driver"; "software"; "update"; "install"]);
    ("malware", ["virus"; "malware"; "suspicious"; "popup"; "slow"]);
    ("hardware_failure", ["hardware"; "physical"; "damaged"; "broken"]);
    ("display_cable_loose", ["screen"; "display"; "flicker"; "blank"]);
    ("gpu_overheating", ["hot"; "overheat"; "thermal"; "fan loud"]);
    ("ram_failure", ["memory"; "ram"; "beep"]);
    ("power_supply_failure", ["power"; "won't turn on"; "dead"]);
    ("motherboard_dead", ["motherboard"; "no power"; "nothing happens"]);
    ("os_corruption", ["corrupt"; "boot loop"; "startup repair"]);
    ("thermal_throttling", ["slow"; "throttle"; "performance drop"; "overheat"]);
    ("disk_fragmentation", ["slow"; "lag"; "disk"; "storage"]);
    ("background_processes", ["background"; "startup"; "many programs"]) ].

Definition keyword_scores (answer_lower : string) : PyDict.t nat :=
  filter (fun cs => (0 <? snd cs)%nat)
         (map (fun ck => (fst ck,
                          length (filter (fun kw => contains kw answer_lower)
                                         (snd ck))))
              symptom_keywords).

Definition semantic_update (b : beliefs) (cs : string * nat) : beliefs :=
  let '(cause, score) := cs in
  match PyDict.get b cause with
  | Some old => PyDict.set b cause (old * (1 + len_nat score * 0.5))
  | None =>
      if (2 <=? score)%nat then PyDict.set b cause (0.1 * len_nat score) else b
  end.

Definition update_beliefs_semantic (current_beliefs : beliefs)
    (question_text answer_text : string) : beliefs :=
  match keyword_scores (lower answer_text) with
  | [] => current_beliefs
  | scores =>
      sort_by_confidence (normalize (fold_left semantic_update scores current_beliefs))
  end.

(** The question dict built by [generate_text_question]. *)
Definition text_question (qid qtext : string) (gain : Q) : question :=
  {| id := qid; text := Some qtext; category := None; skip_if := no_skip;
     information_gain_estimate := Some gain; belief_updates := [];
     expected_signal := Some "text"; cost_level := Some "safe";
     source := None |}.

Definition question_templates : list (string * string * string) :=
  [ ("driver_issue", "malware",
     "Have you recently installed any new software, drivers, or updates? Or have you noticed any suspicious behavior?");
    ("driver_issue", "hardware_failure",
     "Does the issue occur in Safe Mode? And have you checked if any hardware components are loose?");
    ("gpu_overheating", "display_cable_loose",
     "Is the screen issue constant or does it come and go? Does the laptop feel hot?");
    ("power_supply_failure", "motherboard_dead",
     "When you press the power button, do you see ANY lights or hear ANY sounds at all?");
    ("ram_failure", "os_corruption",
     "Do you hear any beeping sounds during startup? And does it show any error messages?");
    ("thermal_throttling", "background_processes",
     "Does the slowdown happen immediately or after a few minutes of use? Have you checked Task Manager?") ].

Definition general_question (asked_questions : list string) (qtext : string)
    (gain : Q) : option question :=
  let general_id := "text_general_" ++ str_of_nat (length asked_questions) in
  if str_in general_id asked_questions then None
  else Some (text_question general_id qtext gain).

Definition generate_text_question (current_beliefs : beliefs)
    (asked_questions : list string) : option question :=
  match sort_by_confidence current_beliefs with
  | (top_cause, top_prob) :: (second_cause, second_prob) :: _ =>
      if Qlt_bool 0.75 top_prob then None
      else
        match
          find (fun t =>
                  let '(cause1, cause2, _) := t in
                  ((String.eqb top_cause cause1 && String.eqb second_cause cause2)
                   || (String.eqb top_cause cause2 && String.eqb second_cause cause1))
                  && negb (str_in ("text_" ++ cause1 ++ "_" ++ cause2) asked_questions))
               question_templates
        with
        | Some (cause1, cause2, qtext) =>
            Some (text_question ("text_" ++ cause1 ++ "_" ++ cause2) qtext 0.85)
        | None =>
            general_question asked_questions
              "Can you describe in more detail what happens when the issue occurs? Any specific error messages or behaviors?"
              0.7
        end
  | _ =>
      general_question asked_questions
        "Can you describe in detail what's happening with your laptop? Include when the issue started, what you were doing, and any error messages or unusual behavior."
        0.9
  end.

End BeliefEngine.

(** ** [TutorialMatcher] *)

Module TutorialMatcher.

(** The columns both stores return for a tutorial. *)
Record tutorial_info : Type := {
  tutorial_id : Z;
  brand : string;
  model : string;
  issue_type : string;
  title : string;
  keywords : list string;
  source : string;
  difficulty : string
}.

(** An object of the Weaviate class [Tutorial]; its schema has a
    [category] property next to the ones the query asks for. *)
Record weaviate_object : Type := {
  w_info : tutorial_info;
  w_category : string
}.

(** The vector index: its objects and the distance of [near_text], which
    comes from the embedding model. *)
Record weaviate_client_t : Type := {
  objects : list weaviate_object;
  near_text_distance : string -> weaviate_object -> Q
}.

Record vector_result : Type := {
  v_info : tutorial_info;
  vector_score : Q
}.

Record keyword_result : Type := {
  k_info : tutorial_info;
  keyword_score : Q
}.

(** A result dict after [_hybrid_scoring]; the three feedback keys are
    absent until [_feedback_reranking] sets them. *)
Record ranked : Type := {
  r_info : tutorial_info;
  r_vector_score : Q;
  r_keyword_score : Q;
  hybrid_score : Q;
  feedback_score : option Q;
  final_score : option Q;
  feedback_count : option Z
}.

(** An instance.  [None] for a store means that its calls raise, which the
    [try]/[except] of each method catches. *)
Record self_t : Type := {
  db_pool : option Database;
  weaviate_client : option weaviate_client_t;
  beta : Q;
  gamma : Q
}.

(** [__init__] *)
Definition init (db_pool : option Database)
    (weaviate_client : option weaviate_client_t) : self_t :=
  {| db_pool := db_pool; weaviate_client := weaviate_client;
     beta := 0.6; gamma := 0.3 |}.

(** [if brand:] *)
Definition truthy_brand (b : option string) : option string :=
  match b with
  | Some EmptyString => None
  | other => other
  end.

(** The query sent to Weaviate: [near_text] on the search text, limit [k],
    and the [where] filter, which is on [brand] only. *)
Definition weaviate_query (w : weaviate_client_t) (search_text : string)
    (where_brand : option string) (k : nat) : list (weaviate_object * Q) :=
  let matching :=
    filter (fun o => match where_brand with
                     | Some b => String.eqb (brand (w_info o)) b
                     | None => true
                     end)
           (objects w) in
  let with_distance := map (fun o => (o, near_text_distance w search_text o)) matching in
  firstn k (sorted_desc (fun od => - snd od) with_distance).

(** [max(0.0, score)] *)
Definition clamp0 (score : Q) : Q := if Qlt_bool 0 score then score else 0.

Definition _vector_search (self : self_t) (search_text category : string)
    (brand : option string) (k : nat) : list vector_result :=
  match weaviate_client self with
  | Some w =>
      map (fun od => {| v_info := w_info (fst od);
                        vector_score := clamp0 (1 - snd od) |})
          (weaviate_query w search_text (truthy_brand brand) k)
  | None => []
  end.

Definition info_of_row (r : tutorial_row) : tutorial_info :=
  {| tutorial_id := t_id r; brand := t_brand r; model := t_model r;
     issue_type := t_issue_type r; title := t_title r;
     keywords := t_keywords r; source := t_source r;
     difficulty := t_difficulty r |}.

(** The SQL text built by [_keyword_search]: [WHERE 1=1], then
    [AND brand = $n] if a brand is given, then [AND keywords && $n] if the
    keyword list is not empty, then [LIMIT]. *)
Definition keyword_query (db : Database) (keywords : list string)
    (brand : option string) (limit : nat) : list tutorial_row :=
  firstn limit
    (filter (fun r =>
               (match truthy_brand brand with
                | Some b => String.eqb (t_brand r) b
                | None => true
                end)
               && (match keywords with
                   | [] => true
                   | _ :: _ => existsb (fun kw => str_in kw keywords) (t_keywords r)
                   end))
            (tutorials db)).

Definition jaccard (tutorial_keywords search_keywords : list string) : Q :=
  let a := py_set tutorial_keywords in
  let b := py_set search_keywords in
  let intersection := len (set_inter a b) in
  let union := len (set_union a b) in
  if Qlt_bool 0 union then intersection / union else 0.

Definition _keyword_search (self : self_t) (keywords : list string)
    (category : string) (brand : option string) (limit : nat)
    : list keyword_result :=
  match db_pool self with
  | Some db =>
      map (fun r => {| k_info := info_of_row r;
                       keyword_score := jaccard (t_keywords r) keywords |})
          (keyword_query db keywords brand limit)
  | None => []
  end.

(** [' '.join(xs)] *)
Fixpoint join_space (xs : list string) : string :=
  match xs with
  | [] => ""
  | [x] => x
  | x :: rest => x ++ " " ++ join_space rest
  end.

(** Stages 1 to 3 of [search_tutorials_hybrid]: the search text and the two
    retrieval calls. *)
Definition retrieval_stages (self : self_t) (diagnosis : string)
    (symptoms keywords : list string) (category : string)
    (brand : option string) : list vector_result * list keyword_result :=
  let search_text :=
    diagnosis ++ " " ++ join_space symptoms ++ " " ++ join_space keywords in
  let search_text :=
    match truthy_brand brand with
    | Some b => b ++ " " ++ search_text
    | None => search_text
    end in
  (_vector_search self search_text category brand 50,
   _keyword_search self keywords category brand 50).

(** The aggregate row of the feedback query: COUNT, and the two AVGs,
    which are NULL over no rows. *)
Definition feedback_query (db : Database) (tid : Z) : Z * option Q * option Q :=
  let rows := filter (fun f => Z.eqb (f_tutorial_id f) tid) (user_feedback db) in
  match rows with
  | [] => (0%Z, None, None)
  | _ :: _ =>
      (Z.of_nat (length rows),
       Some (py_sum (map (fun f => if f_solved_problem f then 1 else 0) rows)
             / len rows),
       Some (py_sum (map (fun f => (f_clarity_rating f + f_accuracy_rating f) / 10)
                         rows)
             / len rows))
  end.

(** [x or default] on a nullable number. *)
Definition py_or (x : option Q) (default : Q) : Q :=
  match x with
  | Some v => if Qeq_bool v 0 then default else v
  | None => default
  end.

(** The body of the loop of [_feedback_reranking]. *)
Definition rerank_one (self : self_t) (db : Database) (result : ranked) : ranked :=
  let '(count, success, rating) := feedback_query db (tutorial_id (r_info result)) in
  if (0 <? count)%Z then
    let success_rate := py_or success 0 in
    let avg_rating := py_or rating 0.5 in
    let fscore := (success_rate + avg_rating) / 2 in
    let original_score := hybrid_score result in
    {| r_info := r_info result;
       r_vector_score := r_vector_score result;
       r_keyword_score := r_keyword_score result;
       hybrid_score := hybrid_score result;
       feedback_score := Some fscore;
       final_score := Some (original_score * (1 + gamma self * fscore));
       feedback_count := Some count |}
  else
    {| r_info := r_info result;
       r_vector_score := r_vector_score result;
       r_keyword_score := r_keyword_score result;
       hybrid_score := hybrid_score result;
       feedback_score := Some 0.5;
       final_score := Some (hybrid_score result);
       feedback_count := Some 0%Z |}.

(** The [except] branch: the original scores. *)
Definition keep_original (result : ranked) : ranked :=
  {| r_info := r_info result;
     r_vector_score := r_vector_score result;
     r_keyword_score := r_keyword_score result;
     hybrid_score := hybrid_score result;
     feedback_score := feedback_score result;
     final_score := Some (hybrid_score result);
     feedback_count := feedback_count result |}.

(** The sort key [x["final_score"]]; the key is set on every result by the
    loop before the sort. *)
Definition final_key (r : ranked) : Q :=
  match final_score r with Some s => s | None => 0 end.

Definition _feedback_reranking (self : self_t) (results : list ranked)
    : list ranked :=
  match db_pool self with
  | Some db => sorted_desc final_key (map (rerank_one self db) results)
  | None => map keep_original results
  end.

End TutorialMatcher.

(** ** The caller's dict during the two updates

    [update_beliefs] and [update_beliefs_semantic] multiply the entries of
    the dict they are given ([current_beliefs[cause] *= ...], lines 240 and
    177) and build a new dict only for the normalized and sorted result.
    A caller that keeps the dict sees the products in it. *)

Module InPlace.

Section Store.
Variable py_float : string -> option Q.

(** The loop of [update_beliefs] on the dict it was given: the dict after
    the loop, and the exception that stopped it, if one did. *)
Fixpoint apply_updates_store (current : beliefs) (updates : PyDict.t multiplier)
    : beliefs * option exn :=
  match updates with
  | [] => (current, None)
  | (cause, m) :: rest =>
      match BeliefEngine.apply_update py_float current cause m with
      | Ok b => apply_updates_store b rest
      | Raise e => (current, Some e)
      end
  end.

(** [update_beliefs] with the caller's dict after the call in front of the
    returned value. *)
Definition update_beliefs_store (self : BeliefEngine.self_t) (db : Database)
    (current_beliefs : beliefs) (question_id answer : string)
    : beliefs * result beliefs :=
  match snd (BeliefEngine.find_updates self db question_id answer) with
  | Raise e => (current_beliefs, Raise e)
  | Ok None => (current_beliefs, Ok current_beliefs)
  | Ok (Some []) => (current_beliefs, Ok current_beliefs)
  | Ok (Some updates) =>
      match apply_updates_store current_beliefs updates with
      | (store, None) =>
          (store, Ok (BeliefEngine.sort_by_confidence (BeliefEngine.normalize store)))
      | (store, Some e) => (store, Raise e)
      end
  end.
End Store.

(** Whether [update_beliefs] returns the dict it was given: it does on its
    two early returns (lines 224 and 231) and nowhere else. *)
Definition update_beliefs_returns_argument (self : BeliefEngine.self_t)
    (db : Database) (question_id answer : string) : bool :=
  match snd (BeliefEngine.find_updates self db question_id answer) with
  | Ok None => true
  | Ok (Some []) => true
  | _ => false
  end.

(** The caller's dict after [update_beliefs_semantic]: boosted and extended
    by the loop of lines 173-181, untouched without keyword scores. *)
Definition update_beliefs_semantic_store (current_beliefs : beliefs)
    (answer_text : string) : beliefs :=
  fold_left BeliefEngine.semantic_update
    (BeliefEngine.keyword_scores (lower answer_text)) current_beliefs.

(** Whether [update_beliefs_semantic] returns the dict it was given: it
    does when no keyword matched. *)
Definition update_beliefs_semantic_returns_argument (answer_text : string) : bool :=
  match BeliefEngine.keyword_scores (lower answer_text) with
  | [] => true
  | _ :: _ => false
  end.

End InPlace.

(** ** The session orchestrator: [answer_diagnostic_question] *)

Module Orchestrator.

(** The values of [diagnosis_state] the handler returns. *)
Inductive diagnosis_state : Type :=
| Tutorials
| Uncertain
| Complete
| Questioning.

(** An entry of [active_sessions].  [confidence_history], [diagnosis] and
    [confidence] are keys that some sessions do not have.  [same_dict]
    is [session["current_belief"] is session["initial_belief"]]: the two
    keys hold one dict object, as they do in a session that has just been
    created, and then whatever is written into that dict shows under both
    keys. *)
Record session_t : Type := {
  processed_input : processed_input_t;
  initial_belief : beliefs;
  current_belief : beliefs;
  asked_questions : list string;
  last_question_text : option string;
  confidence_history : option (list Q);
  diagnosis : option string;
  confidence : option Q;
  same_dict : bool
}.

Record AnswerQuestionInput : Type := {
  session_id : string;
  question_id : string;
  answer : string;
  response_type : option string
}.

(** The response: its state, the [action] of its log entry, the belief
    vector, the next question, and the [limit] given to
    [search_tutorials_hybrid] when the tutorials are searched. *)
Record response : Type := {
  state : diagnosis_state;
  action : string;
  resp_belief : beliefs;
  next_question : option question;
  tutorial_limit : option nat
}.

Definition bypass_keywords : list string :=
  ["show tutorials"; "skip questions"; "just show me tutorials"; "show me solutions"].

Definition is_bypass (answer : string) : bool :=
  existsb (fun keyword => contains keyword (lower answer)) bypass_keywords.

(** The stagnation check on [session["confidence_history"]]. *)
Definition confidence_stagnating (history : list Q) : bool :=
  if (3 <=? length history)%nat then
    let last_3_confidences := skipn (length history - 3) history in
    let improvement :=
      last last_3_confidences 0 - hd 0 last_3_confidences in
    Qlt_bool improvement 0.05
  else false.

Section Handler.
Variable py_float : string -> option Q.
Variable engine : BeliefEngine.self_t.
Variable db : Database.

(** The belief update chosen by the response type. *)
Definition updated_belief_of (session : session_t) (a : AnswerQuestionInput)
    : result beliefs :=
  match response_type a with
  | Some rt =>
      if String.eqb rt "text" && (10 <? String.length (answer a))%nat then
        Ok (BeliefEngine.update_beliefs_semantic (current_belief session)
              match last_question_text session with Some t => t | None => "" end
              (answer a))
      else
        snd (BeliefEngine.update_beliefs py_float engine db
               (current_belief session) (question_id a) (answer a))
  | None =>
      snd (BeliefEngine.update_beliefs py_float engine db
             (current_belief session) (question_id a) (answer a))
  end.

(** The dict under [session["current_belief"]] when the update call has
    returned or raised: the call has written its products into it. *)
Definition update_store (session : session_t) (a : AnswerQuestionInput)
    : beliefs :=
  match response_type a with
  | Some rt =>
      if String.eqb rt "text" && (10 <? String.length (answer a))%nat then
        InPlace.update_beliefs_semantic_store (current_belief session) (answer a)
      else
        fst (InPlace.update_beliefs_store py_float engine db
               (current_belief session) (question_id a) (answer a))
  | None =>
      fst (InPlace.update_beliefs_store py_float engine db
             (current_belief session) (question_id a) (answer a))
  end.

(** Whether the update call returned the dict it was given. *)
Definition update_returns_argument (a : AnswerQuestionInput) : bool :=
  match response_type a with
  | Some rt =>
      if String.eqb rt "text" && (10 <? String.length (answer a))%nat then
        InPlace.update_beliefs_semantic_returns_argument (answer a)
      else
        InPlace.update_beliefs_returns_argument engine db (question_id a) (answer a)
  | None =>
      InPlace.update_beliefs_returns_argument engine db (question_id a) (answer a)
  end.

(** The session when the update call is over and nothing has been assigned
    yet: the dict under "current_belief" holds the products, and so does
    "initial_belief" when it is that dict. *)
Definition after_update_call (session : session_t) (a : AnswerQuestionInput)
    : session_t :=
  {| processed_input := processed_input session;
     initial_belief :=
       if same_dict session then update_store session a
       else initial_belief session;
     current_belief := update_store session a;
     asked_questions := asked_questions session;
     last_question_text := last_question_text session;
     confidence_history := confidence_history session;
     diagnosis := diagnosis session;
     confidence := confidence session;
     same_dict := same_dict session |}.

(** The assignments of lines 1124-1131: the returned vector becomes the
    current belief, the question and the confidence are appended. *)
Definition record_answer (session : session_t) (a : AnswerQuestionInput)
    (updated_belief : beliefs) : session_t :=
  {| processed_input := processed_input session;
     initial_belief := initial_belief session;
     current_belief := updated_belief;
     asked_questions := (asked_questions session ++ [question_id a])%list;
     last_question_text := last_question_text session;
     confidence_history :=
       Some ((match confidence_history session with
              | Some h => h | None => [] end)
             ++ [BeliefEngine.get_confidence updated_belief])%list;
     diagnosis := diagnosis session;
     confidence := confidence session;
     same_dict := same_dict session |}.

(** What line 1124 does to the identity of the two dicts: the dict now
    under "current_belief" is the one under "initial_belief" only if it
    was before and the call returned the dict it was given. *)
Definition with_same_dict (session : session_t) (same : bool) : session_t :=
  {| processed_input := processed_input session;
     initial_belief := initial_belief session;
     current_belief := current_belief session;
     asked_questions := asked_questions session;
     last_question_text := last_question_text session;
     confidence_history := confidence_history session;
     diagnosis := diagnosis session;
     confidence := confidence session;
     same_dict := same |}.

Definition with_diagnosis (session : session_t) (d : string * Q) : session_t :=
  {| processed_input := processed_input session;
     initial_belief := initial_belief session;
     current_belief := current_belief session;
     asked_questions := asked_questions session;
     last_question_text := last_question_text session;
     confidence_history := confidence_history session;
     diagnosis := Some (fst d);
     confidence := Some (snd d);
     same_dict := same_dict session |}.

Definition with_question_text (session : session_t) (t : string) : session_t :=
  {| processed_input := processed_input session;
     initial_belief := initial_belief session;
     current_belief := current_belief session;
     asked_questions := asked_questions session;
     last_question_text := Some t;
     confidence_history := confidence_history session;
     diagnosis := diagnosis session;
     confidence := confidence session;
     same_dict := same_dict session |}.

(** The text question first, the binary questions as fallback. *)
Definition choose_next (session : session_t) : result (option question) :=
  match BeliefEngine.generate_text_question (current_belief session)
          (asked_questions session) with
  | Some q => Ok (Some q)
  | None =>
      BeliefEngine.select_next_question py_float engine db
        (current_belief session) (processed_input session)
        (asked_questions session) (pi_category (processed_input session))
  end.

(** The handler after the session lookup.  Every exception other than an
    HTTPException becomes status 500; the writes to the log tables and
    the tutorial search are taken to succeed.  The stored session is the
    dict the handler works on, so what the update call wrote into the
    belief dict stays there also when the call raised. *)
Definition handle_answer (session : session_t) (a : AnswerQuestionInput)
    : session_t * result response :=
  if is_bypass (answer a) then
    match py_max_by snd (current_belief session) with
    | None => (session, Raise (HTTPException 500))
    | Some _ =>
        (session,
         Ok {| state := Tutorials; action := "user_requested_tutorials";
               resp_belief := current_belief session;
               next_question := None; tutorial_limit := None |})
    end
  else
    match updated_belief_of session a with
    | Raise _ => (after_update_call session a, Raise (HTTPException 500))
    | Ok updated_belief =>
        let session :=
          with_same_dict
            (record_answer (after_update_call session a) a updated_belief)
            (same_dict session && update_returns_argument a) in
        let history :=
          match confidence_history session with Some h => h | None => [] end in
        let stagnating := confidence_stagnating history in
        let max_confidence := BeliefEngine.get_confidence updated_belief in
        if stagnating && (2 <=? length (asked_questions session))%nat then
          (with_diagnosis session (BeliefEngine.get_diagnosis updated_belief),
           Ok {| state := Uncertain; action := "confidence_stagnating_escape";
                 resp_belief := updated_belief;
                 next_question := None; tutorial_limit := Some 8%nat |})
        else if Qle_bool 0.75 max_confidence then
          (with_diagnosis session (BeliefEngine.get_diagnosis updated_belief),
           Ok {| state := Complete; action := "confidence_threshold_reached";
                 resp_belief := updated_belief;
                 next_question := None; tutorial_limit := Some 5%nat |})
        else
          match choose_next session with
          | Raise _ => (session, Raise (HTTPException 500))
          | Ok None =>
              (session,
               Ok {| state := Uncertain; action := "no_more_questions";
                     resp_belief := updated_belief;
                     next_question := None; tutorial_limit := Some 5%nat |})
          | Ok (Some q) =>
              (with_question_text session
                 match text q with Some t => t | None => "" end,
               Ok {| state := Questioning; action := "next_question_selected";
                     resp_belief := updated_belief;
                     next_question := Some q; tutorial_limit := None |})
          end
    end.

(** The route: 404 for an unknown session, else the handler on the
    stored session, which it updates in place. *)
Definition answer_diagnostic_question (active_sessions : PyDict.t session_t)
    (a : AnswerQuestionInput) : PyDict.t session_t * result response :=
  match PyDict.get active_sessions (session_id a) with
  | None => (active_sessions, Raise (HTTPException 404))
  | Some session =>
      let '(session', r) := handle_answer session a in
      (PyDict.set active_sessions (session_id a) session', r)
  end.
End Handler.

End Orchestrator.

(** ** Predicates of the specification and concrete data *)

(** Two belief vectors with the same causes in the same order and equal
    probabilities. *)
Definition beliefs_eq (b1 b2 : beliefs) : Prop :=
  Forall2 (fun x y => fst x = fst y /\ snd x == snd y) b1 b2.

(** Probabilities in descending order. *)
Fixpoint sorted_descending (b : beliefs) : Prop :=
  match b with
  | [] => True
  | x :: rest =>
      (forall y, In y rest -> snd y <= snd x) /\ sorted_descending rest
  end.

(** [|sum(p) - 1.0| < 1e-6] *)
Definition is_normalized (b : beliefs) : Prop :=
  Qabs (py_sum (PyDict.values b) - 1) < 0.000001.

(** A multiplier of another form than a string that begins with a star. *)
Definition not_star_string (m : multiplier) : Prop :=
  match m with
  | MStr s => startswith_star s = false
  | _ => True
  end.

(** The value [v] a cause has after the update loop, given its value [old]
    before and its entry [m] in the update table: multiplied by the stored
    factor when the entry is a string that begins with a star, the same
    otherwise. *)
Definition updated_value (py_float : string -> option Q) (old : Q)
    (m : option multiplier) (v : Q) : Prop :=
  match m with
  | Some (MStr s) =>
      if startswith_star s
      then exists factor, py_float (drop_first s) = Some factor /\ v = old * factor
      else v = old
  | _ => v = old
  end.

(** [float] accepts the factor of every star-string entry of the update
    table whose cause is in the vector, so that the loop raises nowhere. *)
Definition float_accepts (py_float : string -> option Q) (current : beliefs)
    (updates : PyDict.t multiplier) : Prop :=
  forall cause s,
    In (cause, MStr s) updates ->
    In cause (PyDict.keys current) ->
    startswith_star s = true ->
    py_float (drop_first s) <> None.

(** The vector with every probability divided by [total]. *)
Definition divided_by (total : Q) (b : beliefs) : beliefs :=
  map (fun kv => (fst kv, snd kv / total)) b.

Module Examples.

Definition mk_question (qid cat : string) (gain : Q) (bu : belief_updates_t)
    : question :=
  {| id := qid; text := Some qid; category := Some cat; skip_if := no_skip;
     information_gain_estimate := Some gain; belief_updates := bu;
     expected_signal := Some "behavioral"; cost_level := Some "safe";
     source := None |}.

Definition empty_db : Database :=
  {| learned_patterns := []; learned_questions := [];
     tutorials := []; user_feedback := [] |}.

Definition no_input : processed_input_t :=
  {| pi_brand_confidence := None; pi_symptoms := []; pi_visual_symptoms := [];
     pi_keywords := []; pi_category := "laptop"; pi_brand := None |}.

(** Scenario B of the specification. *)
Definition battery_led : question :=
  mk_question "battery_led" "laptop" 0.8
    [ ("no", [("power_supply", MStr "*1.8"); ("battery", MStr "*0.6")]) ].

Definition engine_b : BeliefEngine.self_t :=
  {| BeliefEngine.base_patterns := [];
     BeliefEngine.base_questions := BeliefEngine.load_base_questions [battery_led] |}.

Definition beliefs_b : beliefs := [("battery", 0.5); ("power_supply", 0.5)].

(** Scenario A of the specification. *)
Definition engine_a : BeliefEngine.self_t :=
  {| BeliefEngine.base_patterns :=
       [ {| p_category := Some "laptop";
            p_symptoms := ["no_power"; "led_off"];
            p_causes := [("power_supply", 0.8); ("battery", 0.2)];
            p_confidence := Some 1 |} ];
     BeliefEngine.base_questions := [] |}.

(** A question whose answer rules its only cause out. *)
Definition rule_out : question :=
  mk_question "battery_removed" "laptop" 0.8
    [ ("yes", [("battery", MStr "*0")]) ].

Definition engine_zero : BeliefEngine.self_t :=
  {| BeliefEngine.base_patterns := [];
     BeliefEngine.base_questions := BeliefEngine.load_base_questions [rule_out] |}.

(** A question whose answer rules both causes of scenario B out. *)
Definition charger_swap : question :=
  mk_question "charger_swap" "laptop" 0.8
    [ ("works_on_another_laptop",
       [("power_supply", MStr "*0"); ("battery", MStr "*0")]) ].

Definition engine_swap : BeliefEngine.self_t :=
  {| BeliefEngine.base_patterns := [];
     BeliefEngine.base_questions :=
       BeliefEngine.load_base_questions [battery_led; charger_swap] |}.

(** An approved learned question and an engine that has no base question
    of that name. *)
Definition fan_noise_row : learned_question_row :=
  {| lq_question_id := "lq_fan_noise";
     lq_question_text := "Is the fan louder than usual?";
     lq_category := "laptop";
     lq_information_gain_avg := 0.9;
     lq_belief_updates_json :=
       Some (JsonObject [("yes", [("fan_failure", MStr "*2.0")])]);
     lq_approved := true |}.

Definition db_learned : Database :=
  {| learned_patterns := []; learned_questions := [fan_noise_row];
     tutorials := []; user_feedback := [] |}.

Definition engine_empty : BeliefEngine.self_t :=
  {| BeliefEngine.base_patterns := []; BeliefEngine.base_questions := [] |}.

Definition beliefs_fan : beliefs := [("fan_failure", 0.6); ("dust_buildup", 0.4)].

(** The same question, stored as a base question. *)
Definition fan_noise_base : question :=
  mk_question "lq_fan_noise" "laptop" 0.9 [("yes", [("fan_failure", MStr "*2.0")])].

Definition engine_fan : BeliefEngine.self_t :=
  {| BeliefEngine.base_patterns := [];
     BeliefEngine.base_questions := BeliefEngine.load_base_questions [fan_noise_base] |}.



(** A tutorial of category Phone, in both stores. *)
Definition phone_info : TutorialMatcher.tutorial_info :=
  {| TutorialMatcher.tutorial_id := 7;
     TutorialMatcher.brand := "apple";
     TutorialMatcher.model := "iphone";
     TutorialMatcher.issue_type := "screen";
     TutorialMatcher.title := "Screen replacement";
     TutorialMatcher.keywords := ["screen"; "cracked"];
     TutorialMatcher.source := "ifixit";
     TutorialMatcher.difficulty := "moderate" |}.

Definition phone_row : tutorial_row :=
  {| t_id := 7; t_brand := "apple"; t_model := "iphone";
     t_issue_type := "screen"; t_title := "Screen replacement";
     t_keywords := ["screen"; "cracked"]; t_source := "ifixit";
     t_difficulty := "moderate"; t_category := "Phone" |}.

Definition db_phone : Database :=
  {| learned_patterns := []; learned_questions := [];
     tutorials := [phone_row]; user_feedback := [] |}.

Definition index_phone : TutorialMatcher.weaviate_client_t :=
  {| TutorialMatcher.objects :=
       [ {| TutorialMatcher.w_info := phone_info;
            TutorialMatcher.w_category := "Phone" |} ];
     TutorialMatcher.near_text_distance := fun _ _ => 0.2 |}.

Definition matcher_phone : TutorialMatcher.self_t :=
  TutorialMatcher.init (Some db_phone) (Some index_phone).

(** Scenario C of the specification after hybrid scoring. *)
Definition candidate_c : TutorialMatcher.ranked :=
  {| TutorialMatcher.r_info := phone_info;
     TutorialMatcher.r_vector_score := 0.8;
     TutorialMatcher.r_keyword_score := 0.4;
     TutorialMatcher.hybrid_score := 0.64;
     TutorialMatcher.feedback_score := None;
     TutorialMatcher.final_score := None;
     TutorialMatcher.feedback_count := None |}.

(** Scenario D of the specification: two answers recorded, the third
    arrives.  The current belief is the dict an earlier update returned. *)
Definition session_d : Orchestrator.session_t :=
  {| Orchestrator.processed_input := no_input;
     Orchestrator.initial_belief := [("a", 0.40); ("b", 0.32); ("c", 0.28)];
     Orchestrator.current_belief := [("a", 0.44); ("b", 0.30); ("c", 0.26)];
     Orchestrator.asked_questions := ["q1"; "q2"];
     Orchestrator.last_question_text := Some "q3";
     Orchestrator.confidence_history := Some [0.40; 0.42];
     Orchestrator.diagnosis := None;
     Orchestrator.confidence := None;
     Orchestrator.same_dict := false |}.

Definition answer_d : Orchestrator.AnswerQuestionInput :=
  {| Orchestrator.session_id := "s1"; Orchestrator.question_id := "q3";
     Orchestrator.answer := "yes"; Orchestrator.response_type := Some "binary" |}.

End Examples.

(** ** More of the code: hybrid scoring and the whole search *)

Module HybridSearch.

Section SetOrder.
(** The order in which Python iterates over [set(ids)]; the language
    leaves it open. *)
Variable set_iter : list Z -> list Z.

(** [{r["tutorial_id"]: r for r in results}.get(tid)]: of two results with
    the same id the later one is kept. *)
Definition vector_lookup (vector_results : list TutorialMatcher.vector_result)
    (tid : Z) : option TutorialMatcher.vector_result :=
  find (fun r => Z.eqb (TutorialMatcher.tutorial_id (TutorialMatcher.v_info r)) tid)
       (rev vector_results).

Definition keyword_lookup (keyword_results : list TutorialMatcher.keyword_result)
    (tid : Z) : option TutorialMatcher.keyword_result :=
  find (fun r => Z.eqb (TutorialMatcher.tutorial_id (TutorialMatcher.k_info r)) tid)
       (rev keyword_results).

(** [set(vector_lookup.keys()) | set(keyword_lookup.keys())] *)
Definition all_ids (vector_results : list TutorialMatcher.vector_result)
    (keyword_results : list TutorialMatcher.keyword_result) : list Z :=
  set_iter
    (map (fun r => TutorialMatcher.tutorial_id (TutorialMatcher.v_info r))
         vector_results
     ++ map (fun r => TutorialMatcher.tutorial_id (TutorialMatcher.k_info r))
            keyword_results)%list.

Definition mk_ranked (self : TutorialMatcher.self_t)
    (info : TutorialMatcher.tutorial_info) (vec_score kw_score : Q)
    : TutorialMatcher.ranked :=
  {| TutorialMatcher.r_info := info;
     TutorialMatcher.r_vector_score := vec_score;
     TutorialMatcher.r_keyword_score := kw_score;
     TutorialMatcher.hybrid_score :=
       TutorialMatcher.beta self * vec_score
       + (1 - TutorialMatcher.beta self) * kw_score;
     TutorialMatcher.feedback_score := None;
     TutorialMatcher.final_score := None;
     TutorialMatcher.feedback_count := None |}.

(** The body of the loop over [all_ids].  An id found in neither lookup
    has no data to build a result from; no id of [all_ids] is one. *)
Definition hybrid_one (self : TutorialMatcher.self_t)
    (vector_results : list TutorialMatcher.vector_result)
    (keyword_results : list TutorialMatcher.keyword_result) (tid : Z)
    : option TutorialMatcher.ranked :=
  let vec := vector_lookup vector_results tid in
  let kw := keyword_lookup keyword_results tid in
  let vec_score :=
    match vec with Some v => TutorialMatcher.vector_score v | None => 0 end in
  let kw_score :=
    match kw with Some k => TutorialMatcher.keyword_score k | None => 0 end in
  match vec, kw with
  | Some v, _ => Some (mk_ranked self (TutorialMatcher.v_info v) vec_score kw_score)
  | None, Some k => Some (mk_ranked self (TutorialMatcher.k_info k) vec_score kw_score)
  | None, None => None
  end.

Definition _hybrid_scoring (self : TutorialMatcher.self_t)
    (vector_results : list TutorialMatcher.vector_result)
    (keyword_results : list TutorialMatcher.keyword_result)
    : list TutorialMatcher.ranked :=
  sorted_desc TutorialMatcher.hybrid_score
    (flat_map (fun tid =>
                 match hybrid_one self vector_results keyword_results tid with
                 | Some r => [r]
                 | None => []
                 end)
              (all_ids vector_results keyword_results)).

(** The five stages, then [final_results[:limit]]. *)
Definition search_tutorials_hybrid (self : TutorialMatcher.self_t)
    (diagnosis : string) (symptoms keywords : list string) (category : string)
    (brand : option string) (limit : nat) : list TutorialMatcher.ranked :=
  let stages :=
    TutorialMatcher.retrieval_stages self diagnosis symptoms keywords category brand in
  firstn limit
    (TutorialMatcher._feedback_reranking self
       (_hybrid_scoring self (fst stages) (snd stages))).
End SetOrder.

End HybridSearch.

(** ** More of the code: [start_enhanced_diagnosis] *)

Module StartSession.

Section Handler.
Variable py_float : string -> option Q.
Variable math_exp : Q -> Q.
Variable engine : BeliefEngine.self_t.
Variable db : Database.

(** The session dict the handler stores: the vector is stored under both
    belief keys, as one object. *)
Definition new_session (pin : processed_input_t) (initial_belief : beliefs)
    (question_text : option string) (history : option (list Q))
    (d : option (string * Q)) : Orchestrator.session_t :=
  {| Orchestrator.processed_input := pin;
     Orchestrator.initial_belief := initial_belief;
     Orchestrator.current_belief := initial_belief;
     Orchestrator.asked_questions := [];
     Orchestrator.last_question_text := question_text;
     Orchestrator.confidence_history := history;
     Orchestrator.diagnosis := option_map fst d;
     Orchestrator.confidence := option_map snd d;
     Orchestrator.same_dict := true |}.

(** The handler after the input is processed: the session it stores, if
    it stores one, and its response.  The inserts into the log tables and
    the tutorial search are taken to succeed. *)
Definition start_enhanced_diagnosis (pin : processed_input_t)
    : option Orchestrator.session_t * result Orchestrator.response :=
  let initial_belief :=
    BeliefEngine.initialize_beliefs math_exp engine db
      (pi_symptoms pin) (pi_visual_symptoms pin) (pi_category pin) (pi_brand pin) in
  let max_confidence := BeliefEngine.get_confidence initial_belief in
  if Qle_bool 0.75 max_confidence then
    (Some (new_session pin initial_belief None None
             (Some (BeliefEngine.get_diagnosis initial_belief))),
     Ok {| Orchestrator.state := Orchestrator.Complete;
           Orchestrator.action := "high_confidence_match";
           Orchestrator.resp_belief := initial_belief;
           Orchestrator.next_question := None;
           Orchestrator.tutorial_limit := Some 5%nat |})
  else
    let next :=
      match BeliefEngine.generate_text_question initial_belief [] with
      | Some q => Ok (Some q)
      | None =>
          BeliefEngine.select_next_question py_float engine db initial_belief
            pin [] (pi_category pin)
      end in
    match next with
    | Raise _ => (None, Raise (HTTPException 500))
    | Ok None =>
        (Some (new_session pin initial_belief None None
                 (Some (BeliefEngine.get_diagnosis initial_belief))),
         Ok {| Orchestrator.state := Orchestrator.Uncertain;
               Orchestrator.action := "no_questions_available";
               Orchestrator.resp_belief := initial_belief;
               Orchestrator.next_question := None;
               Orchestrator.tutorial_limit := Some 5%nat |})
    | Ok (Some q) =>
        (Some (new_session pin initial_belief
                 (Some match text q with Some t => t | None => "" end)
                 (Some [max_confidence]) None),
         Ok {| Orchestrator.state := Orchestrator.Questioning;
               Orchestrator.action := "first_question_selected";
               Orchestrator.resp_belief := initial_belief;
               Orchestrator.next_question := Some q;
               Orchestrator.tutorial_limit := None |})
    end.
End Handler.

End StartSession.

(** ** More predicates *)

(** The base questions that have not been asked. *)
Definition unasked_base (self : BeliefEngine.self_t) (asked : list string)
    : list string :=
  filter (fun k => negb (str_in k asked))
         (PyDict.keys (BeliefEngine.base_questions self)).

(** A score or a probability between 0 and 1. *)
Definition in_unit (x : Q) : Prop := 0 <= x /\ x <= 1.

(** Non-increasing keys along a list. *)
Fixpoint descending_by {A : Type} (key : A -> Q) (l : list A) : Prop :=
  match l with
  | [] => True
  | x :: rest => (forall y, In y rest -> key y <= key x) /\ descending_by key rest
  end.

(** Ratings as the feedback form takes them, from 1 to 5; 0 is let in. *)
Definition ratings_in_range (db : Database) : Prop :=
  forall f, In f (user_feedback db) ->
    (0 <= f_clarity_rating f /\ f_clarity_rating f <= 5)
    /\ (0 <= f_accuracy_rating f /\ f_accuracy_rating f <= 5).

(** What backs a cause: a base pattern or an approved learned pattern of
    the category that shares a symptom with the input. *)
Definition backed_by (self : BeliefEngine.self_t) (db : Database)
    (input_symptoms : list string) (c : string) (cause : string) : Prop :=
  (exists p, In p (BeliefEngine.base_patterns self)
             /\ p_category p = Some c
             /\ In cause (PyDict.keys (p_causes p))
             /\ exists s, In s (p_symptoms p) /\ In s input_symptoms)
  \/ (exists lp, In lp (learned_patterns db)
                 /\ lp_approved lp = true /\ lp_category lp = c
                 /\ lp_cause lp = cause
                 /\ exists s, In s (lp_symptom_combination lp) /\ In s input_symptoms).

(** The tutorial a result is about. *)
Definition tid_of (r : TutorialMatcher.ranked) : Z :=
  TutorialMatcher.tutorial_id (TutorialMatcher.r_info r).

(** ** More concrete data *)

Module MoreExamples.

(** A question whose second multiplier [float] rejects. *)
Definition q_bad : question :=
  Examples.mk_question "q_bad" "laptop" 0.8
    [ ("yes", [("a", MStr "*2"); ("b", MStr "*oops"); ("c", MStr "*3")]) ].

Definition engine_bad : BeliefEngine.self_t :=
  {| BeliefEngine.base_patterns := [];
     BeliefEngine.base_questions := BeliefEngine.load_base_questions [q_bad] |}.

Definition beliefs_abc : beliefs := [("a", 0.5); ("b", 0.3); ("c", 0.2)].

(** The general text question for a session without asked questions. *)
Definition text_general_0 : question :=
  BeliefEngine.text_question "text_general_0"
    "Can you describe in more detail what happens when the issue occurs? Any specific error messages or behaviors?"
    0.7.

Definition beliefs_confident : beliefs := [("a", 0.8); ("b", 0.2)].

(** [s] between double quotes. *)
Definition quoted (s : string) : string :=
  String "034"%char (s ++ String "034"%char EmptyString).

(** The learned question of [Examples.fan_noise_row] as a pool without a
    JSON codec returns it: the column is the text of the document. *)
Definition fan_noise_text_row : learned_question_row :=
  {| lq_question_id := "lq_fan_noise";
     lq_question_text := "Is the fan louder than usual?";
     lq_category := "laptop";
     lq_information_gain_avg := 0.9;
     lq_belief_updates_json :=
       Some (JsonText ("{" ++ quoted "yes" ++ ": {" ++ quoted "fan_failure"
                       ++ ": " ++ quoted "*2.0" ++ "}}"));
     lq_approved := true |}.

Definition db_learned_text : Database :=
  {| learned_patterns := []; learned_questions := [fan_noise_text_row];
     tutorials := []; user_feedback := [] |}.

(** A session that has just been created on the vector of scenario B, and
    the answer "no" to its question. *)
Definition session_b : Orchestrator.session_t :=
  StartSession.new_session Examples.no_input Examples.beliefs_b
    (Some "battery_led") (Some [0.5]) None.

Definition answer_b : Orchestrator.AnswerQuestionInput :=
  {| Orchestrator.session_id := "s1"; Orchestrator.question_id := "battery_led";
     Orchestrator.answer := "no"; Orchestrator.response_type := Some "binary" |}.

(** One feedback row for tutorial 7. *)
Definition db_feedback : Database :=
  {| learned_patterns := []; learned_questions := [];
     tutorials := [Examples.phone_row];
     user_feedback :=
       [ {| f_tutorial_id := 7; f_solved_problem := true;
            f_clarity_rating := 4; f_accuracy_rating := 5 |} ] |}.

Definition matcher_feedback : TutorialMatcher.self_t :=
  TutorialMatcher.init (Some db_feedback) (Some Examples.index_phone).

(** A matcher whose stores both fail. *)
Definition matcher_offline : TutorialMatcher.self_t :=
  TutorialMatcher.init None None.

Definition keyword_hit : TutorialMatcher.keyword_result :=
  {| TutorialMatcher.k_info := Examples.phone_info;
     TutorialMatcher.keyword_score :=
       TutorialMatcher.jaccard ["screen"; "cracked"] ["screen"] |}.

Definition vector_hit : TutorialMatcher.vector_result :=
  {| TutorialMatcher.v_info := Examples.phone_info;
     TutorialMatcher.vector_score := TutorialMatcher.clamp0 (1 - 0.2) |}.

(** A base question whose brand rule [float] rejects, after a sound one. *)
Definition q_rule : question :=
  {| id := "q_rule"; text := Some "Which brand is it?"; category := Some "laptop";
     skip_if := {| brand_confidence_rule := Some ">high";
                   symptom_present := None; symptom_not_present := None;
                   visual_symptoms_detected := None |};
     information_gain_estimate := Some 0.7; belief_updates := [];
     expected_signal := None; cost_level := None; source := None |}.

Definition engine_rule : BeliefEngine.self_t :=
  {| BeliefEngine.base_patterns := [];
     BeliefEngine.base_questions :=
       BeliefEngine.load_base_questions [Examples.fan_noise_base; q_rule] |}.

(** An iteration order for a set of IDs: the list without its repeated
    elements. *)
Definition ids_in_order (l : list Z) : list Z := nodup Z.eq_dec l.

End MoreExamples.

(** * Properties *)

Local Open Scope list_scope.

(** ** Comparisons and sums on floats *)

Lemma Qlt_bool_iff (x y : Q) : Qlt_bool x y = true <-> x < y.
Proof.
  unfold Qlt_bool. rewrite negb_true_iff.
  split; intro H.
  - apply Qnot_le_lt. intro Hle.
    apply Qle_bool_iff in Hle. congruence.
  - destruct (Qle_bool y x) eqn:E; [|reflexivity].
    apply Qle_bool_iff in E. exfalso. exact (Qlt_not_le _ _ H E).
Qed.

Lemma Qlt_bool_false_iff (x y : Q) : Qlt_bool x y = false <-> y <= x.
Proof.
  unfold Qlt_bool. rewrite negb_false_iff. apply Qle_bool_iff.
Qed.

Lemma fold_left_Qplus_acc (xs : list Q) (a : Q) :
  fold_left Qplus xs a == a + fold_left Qplus xs 0.
Proof.
  revert a. induction xs as [|x xs IH]; intro a; simpl.
  - ring.
  - rewrite (IH (a + x)), (IH (0 + x)). ring.
Qed.

Lemma py_sum_cons (x : Q) (xs : list Q) : py_sum (x :: xs) == x + py_sum xs.
Proof.
  unfold py_sum. simpl. rewrite fold_left_Qplus_acc. ring.
Qed.

Lemma py_sum_nil : py_sum [] == 0.
Proof. reflexivity. Qed.

(** ** [TopDiagnosis] and [Confidence] on the empty vector *)

(** C9: on the empty belief vector [get_diagnosis] returns the pair
    ("unknown", 0.0) and [get_confidence] returns 0.0; neither fails. *)
Theorem empty_beliefs_sentinel :
  BeliefEngine.get_diagnosis [] = ("unknown", 0)
  /\ BeliefEngine.get_confidence [] = 0.
Proof. split; reflexivity. Qed.

(** ** The no-op update *)

(** C3: for a question that is neither a base question nor an approved
    learned question, [update_beliefs] returns the vector it was given,
    whatever the answer, as an [Ok] result with two printed warnings. *)
Theorem update_beliefs_unknown_question :
  forall (py_float : string -> option Q) (self : BeliefEngine.self_t)
         (db : Database) (b : beliefs) (unknownQ anyAnswer : string),
    PyDict.get (BeliefEngine.base_questions self) unknownQ = None ->
    BeliefEngine.fetch_learned_question db unknownQ = None ->
    BeliefEngine.update_beliefs py_float self db b unknownQ anyAnswer
    = ([WarnQuestionNotInBase unknownQ; WarnNotLearnedEither], Ok b).
Proof.
  intros py_float self db b q a Hbase Hlearned.
  unfold BeliefEngine.update_beliefs, BeliefEngine.find_updates.
  rewrite Hbase, Hlearned. reflexivity.
Qed.

Lemma update_beliefs_unknown_question_witness :
  BeliefEngine.update_beliefs decimal_float Examples.engine_b Examples.db_learned
    Examples.beliefs_b "no_such_question" "yes"
  = ([WarnQuestionNotInBase "no_such_question"; WarnNotLearnedEither],
     Ok Examples.beliefs_b).
Proof.
  apply (update_beliefs_unknown_question decimal_float Examples.engine_b
           Examples.db_learned Examples.beliefs_b "no_such_question" "yes");
    reflexivity.
Defined.

(** A known question with no update table for the answer is a no-op too. *)
Lemma update_beliefs_unknown_answer :
  forall py_float self db b qid q answer,
    PyDict.get (BeliefEngine.base_questions self) qid = Some q ->
    PyDict.get (belief_updates q) answer = None ->
    BeliefEngine.update_beliefs py_float self db b qid answer
    = ([WarnNoBeliefUpdates answer qid], Ok b).
Proof.
  intros py_float self db b qid q answer Hq Ha.
  unfold BeliefEngine.update_beliefs, BeliefEngine.find_updates,
    BeliefEngine.updates_for.
  rewrite Hq, Ha. reflexivity.
Qed.

(** ** Multipliers of another form *)

Lemma apply_update_not_star :
  forall py_float current cause m,
    not_star_string m ->
    BeliefEngine.apply_update py_float current cause m = Ok current.
Proof.
  intros py_float current cause m Hm.
  unfold BeliefEngine.apply_update.
  destruct (PyDict.get current cause); [|reflexivity].
  destruct m; simpl in Hm; try reflexivity.
  rewrite Hm. reflexivity.
Qed.

Lemma apply_updates_app :
  forall py_float pre post current,
    BeliefEngine.apply_updates py_float current (pre ++ post)
    = bind (BeliefEngine.apply_updates py_float current pre)
           (fun b => BeliefEngine.apply_updates py_float b post).
Proof.
  intros py_float pre post. induction pre as [|[c m] pre IH]; intro current; simpl.
  - reflexivity.
  - destruct (BeliefEngine.apply_update py_float current c m); simpl; auto.
Qed.

(** C10: an entry of the update table whose multiplier is not a string
    that begins with a star changes nothing and raises nothing: the loop
    body returns the vector it was given, and the whole loop gives what it
    gives without that entry. *)
Theorem update_ignores_other_multipliers :
  forall (py_float : string -> option Q) (current : beliefs)
         (cause : string) (m : multiplier),
    not_star_string m ->
    BeliefEngine.apply_update py_float current cause m = Ok current
    /\ forall pre post b,
         BeliefEngine.apply_updates py_float b (pre ++ (cause, m) :: post)
         = BeliefEngine.apply_updates py_float b (pre ++ post).
Proof.
  intros py_float current cause m Hm. split.
  - apply apply_update_not_star; assumption.
  - intros pre post b.
    rewrite !apply_updates_app.
    destruct (BeliefEngine.apply_updates py_float b pre) as [b'|e]; simpl; auto.
    rewrite apply_update_not_star by assumption. reflexivity.
Qed.

Lemma update_ignores_other_multipliers_witness :
  BeliefEngine.apply_update decimal_float Examples.beliefs_b "battery" (MNum 0.6)
  = Ok Examples.beliefs_b
  /\ forall pre post b,
       BeliefEngine.apply_updates decimal_float b (pre ++ ("battery", MNum 0.6) :: post)
       = BeliefEngine.apply_updates decimal_float b (pre ++ post).
Proof.
  apply (update_ignores_other_multipliers decimal_float Examples.beliefs_b
           "battery" (MNum 0.6)).
  simpl. exact I.
Defined.

(** The other direction: a vector that the loop body changes was given a string that
    begins with a star. *)
Lemma apply_update_changes_only_star :
  forall py_float current cause m b,
    BeliefEngine.apply_update py_float current cause m = Ok b ->
    b <> current ->
    exists s, m = MStr s /\ startswith_star s = true.
Proof.
  intros py_float current cause m b H Hne.
  destruct m as [s| | |].
  - exists s. split; [reflexivity|].
    destruct (startswith_star s) eqn:E; [reflexivity|].
    rewrite apply_update_not_star in H by (simpl; assumption).
    congruence.
  - rewrite apply_update_not_star in H by exact I. congruence.
  - rewrite apply_update_not_star in H by exact I. congruence.
  - rewrite apply_update_not_star in H by exact I. congruence.
Qed.

(** ** Category routing in the two retrieval stages *)

(** Neither stage reads its [category] argument. *)
Lemma retrieval_independent_of_category :
  forall self diagnosis symptoms keywords brand (c1 c2 : string),
    TutorialMatcher.retrieval_stages self diagnosis symptoms keywords c1 brand
    = TutorialMatcher.retrieval_stages self diagnosis symptoms keywords c2 brand.
Proof. reflexivity. Qed.

(** C1: a query of category PC over stores that hold one tutorial, of
    category Phone, gets that tutorial from the vector stage and from the
    keyword stage. *)
Theorem retrieval_returns_other_category :
  let stages :=
    TutorialMatcher.retrieval_stages Examples.matcher_phone
      "screen_broken" ["cracked_screen"] ["screen"] "PC" None in
  map (fun r => TutorialMatcher.tutorial_id (TutorialMatcher.v_info r)) (fst stages)
  = [7%Z]
  /\ map (fun r => TutorialMatcher.tutorial_id (TutorialMatcher.k_info r)) (snd stages)
     = [7%Z]
  /\ map t_category (tutorials Examples.db_phone) = ["Phone"]
  /\ map TutorialMatcher.w_category (TutorialMatcher.objects Examples.index_phone)
     = ["Phone"]
  /\ "Phone" <> "PC".
Proof.
  cbv zeta. repeat split; try reflexivity. discriminate.
Qed.

(** ** Feedback re-ranking without feedback *)

Lemma feedback_query_no_rows :
  forall db tid,
    filter (fun f => Z.eqb (f_tutorial_id f) tid) (user_feedback db) = [] ->
    TutorialMatcher.feedback_query db tid = (0%Z, None, None).
Proof.
  intros db tid H. unfold TutorialMatcher.feedback_query. rewrite H. reflexivity.
Qed.

(** Whatever the weight gamma, a result without feedback rows keeps its
    hybrid score as final score and gets the feedback score 0.5. *)
Lemma rerank_one_no_feedback :
  forall self db r,
    filter (fun f => Z.eqb (f_tutorial_id f)
                           (TutorialMatcher.tutorial_id (TutorialMatcher.r_info r)))
           (user_feedback db) = [] ->
    TutorialMatcher.final_score (TutorialMatcher.rerank_one self db r)
    = Some (TutorialMatcher.hybrid_score r)
    /\ TutorialMatcher.feedback_score (TutorialMatcher.rerank_one self db r)
       = Some 0.5.
Proof.
  intros self db r H. unfold TutorialMatcher.rerank_one.
  rewrite (feedback_query_no_rows _ _ H). simpl. split; reflexivity.
Qed.

(** C2: the candidate of scenario C (hybrid score 0.64, no feedback, gamma
    0.3) leaves [_feedback_reranking] with feedback score 0.5 and final
    score 0.64, which is not 0.64 * (1 + 0.3 * 0.5) = 0.736. *)
Theorem no_feedback_final_score_is_hybrid :
  exists r,
    TutorialMatcher._feedback_reranking Examples.matcher_phone [Examples.candidate_c]
    = [r]
    /\ TutorialMatcher.gamma Examples.matcher_phone = 0.3
    /\ TutorialMatcher.feedback_count r = Some 0%Z
    /\ TutorialMatcher.feedback_score r = Some 0.5
    /\ TutorialMatcher.final_score r = Some 0.64
    /\ 0.64 * (1 + 0.3 * 0.5) == 0.736
    /\ ~ 0.64 == 0.736.
Proof.
  eexists. split; [reflexivity|].
  repeat split; try reflexivity.
  intro H. discriminate H.
Qed.

(** ** Learned questions in [select_next_question] *)

Lemma should_ask_true_reason :
  forall py_float self qid b pin asked reason,
    BeliefEngine.should_ask_question py_float self qid b pin asked = Ok (true, reason) ->
    reason = None.
Proof.
  intros py_float self qid b pin asked reason H.
  unfold BeliefEngine.should_ask_question in H.
  destruct (PyDict.get (BeliefEngine.base_questions self) qid) as [q|]; [|discriminate].
  destruct (str_in qid asked); [discriminate|].
  destruct (BeliefEngine.check_brand_confidence py_float (skip_if q) pin) as [br|e];
    cbn [bind] in H; [|discriminate].
  match type of H with
  | Ok (BeliefEngine.verdict ?r) = _ => destruct r; cbn [BeliefEngine.verdict] in H
  end; inversion H; reflexivity.
Qed.

Lemma valid_questions_in :
  forall py_float self b pin asked cands valid,
    BeliefEngine.valid_questions py_float self b pin asked cands = Ok valid ->
    forall q, In q valid ->
      In q cands
      /\ BeliefEngine.should_ask_question py_float self (id q) b pin asked
         = Ok (true, None).
Proof.
  intros py_float self b pin asked cands.
  induction cands as [|c cands IH]; intros valid H q Hq;
    cbn [BeliefEngine.valid_questions] in H.
  - inversion H; subst. contradiction.
  - destruct (BeliefEngine.should_ask_question py_float self (id c) b pin asked)
      as [[ask reason]|e] eqn:Hc; cbn [bind] in H; [|discriminate].
    destruct (BeliefEngine.valid_questions py_float self b pin asked cands)
      as [vs|e] eqn:Hvs; cbn [bind] in H; [|discriminate].
    inversion H; subst; clear H.
    destruct ask; cbn [fst] in Hq.
    + destruct Hq as [Hq|Hq].
      * subst q. split; [left; reflexivity|].
        rewrite Hc. rewrite (should_ask_true_reason _ _ _ _ _ _ _ Hc). reflexivity.
      * destruct (IH vs eq_refl q Hq) as [Hin Hask]. split; [right|]; assumption.
    + destruct (IH vs eq_refl q Hq) as [Hin Hask]. split; [right|]; assumption.
Qed.

Lemma should_ask_needs_base :
  forall py_float self qid b pin asked,
    BeliefEngine.should_ask_question py_float self qid b pin asked = Ok (true, None) ->
    PyDict.get (BeliefEngine.base_questions self) qid <> None.
Proof.
  intros py_float self qid b pin asked H Hnone.
  unfold BeliefEngine.should_ask_question in H. rewrite Hnone in H. discriminate.
Qed.

Lemma str_in_true_iff (k : string) (xs : list string) :
  str_in k xs = true <-> In k xs.
Proof.
  unfold str_in. rewrite existsb_exists. split.
  - intros (x & Hin & Heq). apply String.eqb_eq in Heq. subst. assumption.
  - intro Hin. exists k. split; [assumption|apply String.eqb_refl].
Qed.

(** The candidate list is the base questions of the category that were
    not asked, followed by the approved learned questions of the category
    that were not asked. *)
Lemma candidate_questions_union :
  forall self db asked c q,
    In q (BeliefEngine.candidate_questions self db asked c)
    <-> (exists k, In (k, q) (BeliefEngine.base_questions self)
                   /\ category q = Some c /\ ~ In k asked)
        \/ (exists lq, In lq (learned_questions db)
                       /\ lq_approved lq = true /\ lq_category lq = c
                       /\ ~ In (lq_question_id lq) asked
                       /\ q = BeliefEngine.learned_candidate lq).
Proof.
  intros self db asked c q.
  unfold BeliefEngine.candidate_questions, BeliefEngine.fetch_learned_questions,
    BeliefEngine.category_is.
  rewrite in_app_iff, !in_map_iff.
  split.
  - intros [([k q'] & Hq & Hin)|(lq & Hq & Hin)].
    + left. cbn [snd] in Hq. subst q'. exists k.
      apply filter_In in Hin. destruct Hin as [Hin Hf].
      cbn [fst snd] in Hf. apply andb_true_iff in Hf. destruct Hf as [Hc Ha].
      destruct (category q) as [c'|]; [|discriminate].
      apply String.eqb_eq in Hc. subst c'.
      apply negb_true_iff in Ha.
      repeat split; auto.
      intro Hk. apply str_in_true_iff in Hk. congruence.
    + right. exists lq.
      apply filter_In in Hin. destruct Hin as [Hin Ha].
      apply filter_In in Hin. destruct Hin as [Hin Hf].
      apply andb_true_iff in Hf. destruct Hf as [Happ Hc].
      apply String.eqb_eq in Hc. apply negb_true_iff in Ha.
      repeat split; auto.
      intro Hk. apply str_in_true_iff in Hk. congruence.
  - intros [(k & Hin & Hc & Ha)|(lq & Hin & Happ & Hc & Ha & Hq)].
    + left. exists (k, q). split; [reflexivity|].
      apply filter_In. split; [assumption|].
      cbn [fst snd]. rewrite Hc, String.eqb_refl. cbn [andb].
      apply negb_true_iff.
      destruct (str_in k asked) eqn:E; [|reflexivity].
      apply str_in_true_iff in E. contradiction.
    + right. exists lq. split; [auto|].
      apply filter_In. split.
      * apply filter_In. split; [assumption|].
        rewrite Happ, Hc, String.eqb_refl. reflexivity.
      * apply negb_true_iff.
        destruct (str_in (lq_question_id lq) asked) eqn:E; [|reflexivity].
        apply str_in_true_iff in E. contradiction.
Qed.

(** C6: with an approved learned question of the session's category that
    has not been asked, the candidate list holds it, but
    [should_ask_question] answers "Question not found" for it and
    [select_next_question] returns None; stored as a base question, the
    same question passes every filter and is the one selected. *)
Theorem learned_question_never_selected :
  map id (BeliefEngine.candidate_questions Examples.engine_empty Examples.db_learned
            [] "laptop") = ["lq_fan_noise"]
  /\ BeliefEngine.should_ask_question decimal_float Examples.engine_empty
       "lq_fan_noise" Examples.beliefs_fan Examples.no_input []
     = Ok (false, Some QuestionNotFound)
  /\ BeliefEngine.select_next_question decimal_float Examples.engine_empty
       Examples.db_learned Examples.beliefs_fan Examples.no_input [] "laptop"
     = Ok None
  /\ BeliefEngine.should_ask_question decimal_float Examples.engine_fan
       "lq_fan_noise" Examples.beliefs_fan Examples.no_input []
     = Ok (true, None)
  /\ BeliefEngine.select_next_question decimal_float Examples.engine_fan
       Examples.empty_db Examples.beliefs_fan Examples.no_input [] "laptop"
     = Ok (Some Examples.fan_noise_base).
Proof.
  repeat split; vm_compute; reflexivity.
Qed.

(** Every question [select_next_question] returns is a base question. *)
Lemma fill_required_id :
  forall self q, id (BeliefEngine.fill_required self q) = id q.
Proof.
  intros self q. unfold BeliefEngine.fill_required.
  destruct (expected_signal q); [reflexivity|].
  destruct (PyDict.get (BeliefEngine.base_questions self) (id q)); reflexivity.
Qed.

Lemma fill_required_gain :
  forall self q,
    BeliefEngine.gain_key (BeliefEngine.fill_required self q) = BeliefEngine.gain_key q.
Proof.
  intros self q. unfold BeliefEngine.fill_required.
  destruct (expected_signal q); [reflexivity|].
  destruct (PyDict.get (BeliefEngine.base_questions self) (id q)); reflexivity.
Qed.

(** ** [max] with a key: the first of the greatest *)

Section MaxBy.
Context {A : Type} (key : A -> Q).

Lemma max_from_first_greatest :
  forall (l : list A) (best : A),
  exists pre post,
    best :: l = pre ++ max_from key best l :: post
    /\ (forall q, In q pre -> key q < key (max_from key best l))
    /\ (forall q, In q post -> key q <= key (max_from key best l)).
Proof.
  induction l as [|x l IH]; intro best; cbn [max_from].
  - exists [], []. repeat split; intros q [].
  - destruct (Qlt_bool (key best) (key x)) eqn:E.
    + apply Qlt_bool_iff in E.
      destruct (IH x) as (pre & post & Heq & Hpre & Hpost).
      exists (best :: pre), post. rewrite Heq. repeat split; auto.
      intros q [Hq|Hq]; [subst q|auto].
      apply Qlt_le_trans with (key x); [assumption|].
      assert (Hx : In x (pre ++ max_from key x l :: post))
        by (rewrite <- Heq; left; reflexivity).
      apply in_app_or in Hx. destruct Hx as [Hx|[Hx|Hx]].
      * apply Qlt_le_weak. auto.
      * rewrite Hx. apply Qle_refl.
      * auto.
    + apply Qlt_bool_false_iff in E.
      destruct (IH best) as (pre & post & Heq & Hpre & Hpost).
      remember (max_from key best l) as m eqn:Hm.
      destruct pre as [|p pre]; cbn [app] in Heq;
        injection Heq as Hb Hl.
      * exists [], (x :: post). cbn [app]. rewrite <- Hb, <- Hl.
        repeat split.
        -- intros q [].
        -- intros q [Hq|Hq]; [subst q; assumption|].
           rewrite Hb. apply Hpost. rewrite <- Hl. assumption.
      * subst p.
        exists (best :: x :: pre), post. cbn [app]. rewrite Hl.
        repeat split; auto.
        intros q [Hq|[Hq|Hq]].
        -- subst q. apply Hpre. left; reflexivity.
        -- subst q. apply Qle_lt_trans with (key best); [assumption|].
           apply Hpre. left; reflexivity.
        -- apply Hpre. right; assumption.
Qed.

End MaxBy.

(** ** The question [select_next_question] returns *)




Lemma selected_question_is_base :
  forall py_float self db b pin asked c q,
    BeliefEngine.select_next_question py_float self db b pin asked c = Ok (Some q) ->
    PyDict.get (BeliefEngine.base_questions self) (id q) <> None.
Proof.
  intros py_float self db b pin asked c q H.
  unfold BeliefEngine.select_next_question in H.
  destruct (BeliefEngine.candidate_questions self db asked c) as [|q0 cands];
    [discriminate|].
  destruct (BeliefEngine.valid_questions py_float self b pin asked (q0 :: cands))
    as [valid|e] eqn:Hv; cbn [bind] in H; [|discriminate].
  destruct valid as [|v valid]; cbn [py_max_by] in H; [discriminate|].
  inversion H as [Hq]. rewrite fill_required_id.
  destruct (max_from_first_greatest BeliefEngine.gain_key valid v)
    as (pre & post & Heq & _ & _).
  assert (Hin : In (max_from BeliefEngine.gain_key v valid) (v :: valid)).
  { rewrite Heq. apply in_or_app. right. left. reflexivity. }
  destruct (valid_questions_in _ _ _ _ _ _ _ Hv _ Hin) as [_ Hask].
  exact (should_ask_needs_base _ _ _ _ _ _ Hask).
Qed.

(** ** The stagnation escape *)





(** In scenario D the confidence 0.44 is below the completion threshold. *)
Lemma scenario_d_below_threshold :
  BeliefEngine.get_confidence (Orchestrator.current_belief Examples.session_d) == 0.44
  /\ 0.44 < 0.75.
Proof. split; reflexivity. Qed.

(** ** Ordered dicts *)

Section DictFacts.
Context {V : Type}.
Implicit Types (d : PyDict.t V) (k : string) (v : V).

Lemma get_set_same d k v old :
  PyDict.get d k = Some old -> PyDict.get (PyDict.set d k v) k = Some v.
Proof.
  induction d as [|[k' v'] d IH]; cbn [PyDict.get PyDict.set]; [discriminate|].
  destruct (String.eqb k' k) eqn:E; cbn [PyDict.get]; rewrite E; auto.
Qed.

Lemma get_set_other d k k' v :
  k' <> k -> PyDict.get (PyDict.set d k v) k' = PyDict.get d k'.
Proof.
  intro Hne.
  induction d as [|[k0 v0] d IH]; cbn [PyDict.get PyDict.set].
  - destruct (String.eqb k k') eqn:E; [|reflexivity].
    apply String.eqb_eq in E. congruence.
  - destruct (String.eqb k0 k) eqn:E; cbn [PyDict.get].
    + apply String.eqb_eq in E. subst k0.
      destruct (String.eqb k k') eqn:E'; [|reflexivity].
      apply String.eqb_eq in E'. congruence.
    + rewrite IH. reflexivity.
Qed.

Lemma keys_set_present d k v old :
  PyDict.get d k = Some old -> PyDict.keys (PyDict.set d k v) = PyDict.keys d.
Proof.
  unfold PyDict.keys.
  induction d as [|[k' v'] d IH]; cbn [PyDict.get PyDict.set map]; [discriminate|].
  destruct (String.eqb k' k) eqn:E; cbn [map fst]; [reflexivity|].
  intro H. rewrite (IH H). reflexivity.
Qed.

Lemma get_not_in_keys d k :
  ~ In k (PyDict.keys d) -> PyDict.get d k = None.
Proof.
  unfold PyDict.keys.
  induction d as [|[k' v'] d IH]; cbn [PyDict.get map fst In]; [reflexivity|].
  intro H. destruct (String.eqb k' k) eqn:E.
  - apply String.eqb_eq in E. tauto.
  - apply IH. tauto.
Qed.
End DictFacts.

(** ** Stable descending sort *)

Section SortFacts.
Context {A : Type} (key : A -> Q).

Lemma insert_desc_perm (x : A) (l : list A) :
  Permutation (insert_desc key x l) (x :: l).
Proof.
  induction l as [|y l IH]; cbn [insert_desc]; [reflexivity|].
  destruct (Qlt_bool (key x) (key y)); [|reflexivity].
  rewrite IH. apply perm_swap.
Qed.

Lemma sorted_desc_perm (l : list A) : Permutation (sorted_desc key l) l.
Proof.
  induction l as [|x l IH]; cbn [sorted_desc]; [reflexivity|].
  rewrite insert_desc_perm. constructor. exact IH.
Qed.
End SortFacts.

Lemma insert_desc_sorted (x : string * Q) (b : beliefs) :
  sorted_descending b -> sorted_descending (insert_desc snd x b).
Proof.
  induction b as [|y b IH]; cbn [insert_desc sorted_descending].
  - intros _. split; [intros z []|exact I].
  - intros [Hy Hb].
    destruct (Qlt_bool (snd x) (snd y)) eqn:E; cbn [sorted_descending].
    + apply Qlt_bool_iff in E. split; [|auto].
      intros z Hz.
      apply (Permutation_in _ (insert_desc_perm snd x b)) in Hz.
      destruct Hz as [Hz|Hz]; [subst z; apply Qlt_le_weak; assumption|auto].
    + apply Qlt_bool_false_iff in E. repeat split; auto.
      intros z [Hz|Hz]; [subst z; assumption|].
      apply Qle_trans with (snd y); auto.
Qed.

Lemma sort_by_confidence_sorted (b : beliefs) :
  sorted_descending (BeliefEngine.sort_by_confidence b).
Proof.
  unfold BeliefEngine.sort_by_confidence.
  induction b as [|x b IH]; cbn [sorted_desc]; [exact I|].
  apply insert_desc_sorted. exact IH.
Qed.

Lemma py_sum_insert_desc (x : string * Q) (b : beliefs) :
  py_sum (PyDict.values (insert_desc snd x b)) == snd x + py_sum (PyDict.values b).
Proof.
  unfold PyDict.values.
  induction b as [|y b IH]; cbn [insert_desc map].
  - apply py_sum_cons.
  - destruct (Qlt_bool (snd x) (snd y)); cbn [map].
    + rewrite !py_sum_cons, IH. ring.
    + rewrite !py_sum_cons. reflexivity.
Qed.

Lemma py_sum_sort_by_confidence (b : beliefs) :
  py_sum (PyDict.values (BeliefEngine.sort_by_confidence b))
  == py_sum (PyDict.values b).
Proof.
  unfold BeliefEngine.sort_by_confidence.
  induction b as [|x b IH]; cbn [sorted_desc]; [reflexivity|].
  rewrite py_sum_insert_desc, IH.
  unfold PyDict.values. cbn [map]. rewrite py_sum_cons. reflexivity.
Qed.

(** ** Normalization *)

Lemma py_sum_map_div (xs : list Q) (t : Q) :
  py_sum (map (fun v => v / t) xs) == py_sum xs / t.
Proof.
  induction xs as [|x xs IH]; cbn [map].
  - unfold py_sum. cbn [fold_left]. unfold Qdiv. ring.
  - rewrite !py_sum_cons, IH. unfold Qdiv. ring.
Qed.

Lemma normalize_keys (b : beliefs) :
  PyDict.keys (BeliefEngine.normalize b) = PyDict.keys b.
Proof.
  unfold BeliefEngine.normalize, PyDict.keys.
  destruct (Qlt_bool 0 _); [|reflexivity].
  rewrite map_map. reflexivity.
Qed.

Lemma normalize_sum (b : beliefs) :
  0 < py_sum (PyDict.values b) ->
  py_sum (PyDict.values (BeliefEngine.normalize b)) == 1.
Proof.
  intro Hpos. unfold BeliefEngine.normalize.
  rewrite (proj2 (Qlt_bool_iff _ _) Hpos).
  unfold PyDict.values. rewrite map_map. cbn [snd].
  rewrite <- (map_map snd (fun v => v / py_sum (map snd b))).
  rewrite py_sum_map_div.
  unfold PyDict.values in Hpos.
  field. intro H0. rewrite H0 in Hpos. exact (Qlt_irrefl _ Hpos).
Qed.

Lemma normalize_sort_is_normalized (b : beliefs) :
  0 < py_sum (PyDict.values b) ->
  is_normalized (BeliefEngine.sort_by_confidence (BeliefEngine.normalize b)).
Proof.
  intro Hpos. unfold is_normalized.
  rewrite py_sum_sort_by_confidence, (normalize_sum b Hpos).
  reflexivity.
Qed.

Lemma sort_normalize_keys (b : beliefs) :
  Permutation
    (PyDict.keys (BeliefEngine.sort_by_confidence (BeliefEngine.normalize b)))
    (PyDict.keys b).
Proof.
  rewrite <- (normalize_keys b).
  unfold PyDict.keys, BeliefEngine.sort_by_confidence.
  apply Permutation_map. apply sorted_desc_perm.
Qed.

(** ** The update loop *)

Section UpdateLoop.
Variable py_float : string -> option Q.

Lemma apply_update_keys :
  forall current cause m b,
    BeliefEngine.apply_update py_float current cause m = Ok b ->
    PyDict.keys b = PyDict.keys current.
Proof.
  intros current cause m b H. unfold BeliefEngine.apply_update in H.
  destruct (PyDict.get current cause) as [old|] eqn:Hget;
    [|inversion H; reflexivity].
  destruct m as [s| | |]; try (inversion H; reflexivity).
  destruct (startswith_star s); [|inversion H; reflexivity].
  destruct (py_float (drop_first s)); inversion H.
  apply keys_set_present with old. exact Hget.
Qed.

Lemma apply_updates_keys :
  forall updates current b,
    BeliefEngine.apply_updates py_float current updates = Ok b ->
    PyDict.keys b = PyDict.keys current.
Proof.
  induction updates as [|[c m] updates IH]; intros current b H;
    cbn [BeliefEngine.apply_updates] in H.
  - inversion H. reflexivity.
  - destruct (BeliefEngine.apply_update py_float current c m) as [b0|e] eqn:H0;
      cbn [bind] in H; [|discriminate].
    rewrite (IH _ _ H). apply apply_update_keys with c m. exact H0.
Qed.

(** One step on its own cause. *)
Lemma apply_update_same :
  forall current cause m b old,
    BeliefEngine.apply_update py_float current cause m = Ok b ->
    PyDict.get current cause = Some old ->
    exists v, PyDict.get b cause = Some v
              /\ updated_value py_float old (Some m) v.
Proof.
  intros current cause m b old H Hget.
  unfold BeliefEngine.apply_update in H. rewrite Hget in H.
  unfold updated_value.
  destruct m as [s| | |];
    try solve [inversion H; subst; exists old; auto].
  destruct (startswith_star s);
    [|solve [inversion H; subst; exists old; auto]].
  destruct (py_float (drop_first s)) as [factor|]; inversion H.
  exists (old * factor). split.
  - apply get_set_same with old. exact Hget.
  - exists factor. auto.
Qed.

(** One step on another cause. *)
Lemma apply_update_other :
  forall current cause m b c,
    BeliefEngine.apply_update py_float current cause m = Ok b ->
    c <> cause ->
    PyDict.get b c = PyDict.get current c.
Proof.
  intros current cause m b c H Hne. unfold BeliefEngine.apply_update in H.
  destruct (PyDict.get current cause) as [old|]; [|inversion H; reflexivity].
  destruct m as [s| | |]; try (inversion H; reflexivity).
  destruct (startswith_star s); [|inversion H; reflexivity].
  destruct (py_float (drop_first s)); inversion H.
  apply get_set_other. exact Hne.
Qed.

Lemma apply_updates_untouched :
  forall updates current b c,
    BeliefEngine.apply_updates py_float current updates = Ok b ->
    ~ In c (PyDict.keys updates) ->
    PyDict.get b c = PyDict.get current c.
Proof.
  induction updates as [|[c0 m] updates IH]; intros current b c H Hnotin;
    cbn [BeliefEngine.apply_updates] in H.
  - inversion H. reflexivity.
  - destruct (BeliefEngine.apply_update py_float current c0 m) as [b0|e] eqn:H0;
      cbn [bind] in H; [|discriminate].
    unfold PyDict.keys in Hnotin. cbn [map fst In] in Hnotin.
    rewrite (IH _ _ c H) by tauto.
    apply apply_update_other with c0 m; [assumption|].
    intro Heq. subst c0. tauto.
Qed.

(** The whole loop, cause by cause. *)
Lemma apply_updates_value :
  forall updates current b,
    NoDup (PyDict.keys updates) ->
    BeliefEngine.apply_updates py_float current updates = Ok b ->
    forall cause old,
      PyDict.get current cause = Some old ->
      exists v, PyDict.get b cause = Some v
                /\ updated_value py_float old (PyDict.get updates cause) v.
Proof.
  induction updates as [|[c0 m] updates IH]; intros current b Hnodup H cause old Hget;
    cbn [BeliefEngine.apply_updates] in H.
  - inversion H; subst. exists old. split; [assumption|reflexivity].
  - destruct (BeliefEngine.apply_update py_float current c0 m) as [b0|e] eqn:H0;
      cbn [bind] in H; [|discriminate].
    unfold PyDict.keys in Hnodup. cbn [map fst] in Hnodup.
    inversion Hnodup as [|? ? Hnotin Hnodup']; subst.
    cbn [PyDict.get].
    destruct (String.eqb c0 cause) eqn:E.
    + apply String.eqb_eq in E. subst c0.
      destruct (apply_update_same _ _ _ _ _ H0 Hget) as (v & Hv & Hval).
      exists v. split; [|assumption].
      rewrite (apply_updates_untouched _ _ _ cause H Hnotin). exact Hv.
    + apply String.eqb_neq in E.
      apply (IH b0 b Hnodup' H).
      rewrite (apply_update_other _ _ _ _ cause H0) by congruence.
      exact Hget.
Qed.
End UpdateLoop.

(** ** The lookup of the update table *)

(** The table an approved learned question gives is the entry of the
    answer in the whole decoded document, the first answer included. *)
Lemma find_updates_learned_object :
  forall self db qid answer lq bu,
    PyDict.get (BeliefEngine.base_questions self) qid = None ->
    BeliefEngine.fetch_learned_question db qid = Some lq ->
    lq_belief_updates_json lq = Some (JsonObject bu) ->
    bu <> [] ->
    BeliefEngine.find_updates self db qid answer
    = ([WarnQuestionNotInBase qid; InfoFoundAsLearned],
       Ok (Some (BeliefEngine.updates_for bu answer))).
Proof.
  intros self db qid answer lq bu Hbase Hlq Hjson Hne.
  unfold BeliefEngine.find_updates. rewrite Hbase, Hlq, Hjson.
  destruct bu as [|x bu]; [congruence|reflexivity].
Qed.

(** The learned question of the examples, answered "yes": the table is
    the one stored under the first answer of its document. *)
Lemma find_updates_learned_first_answer :
  BeliefEngine.find_updates Examples.engine_empty Examples.db_learned
    "lq_fan_noise" "yes"
  = ([WarnQuestionNotInBase "lq_fan_noise"; InfoFoundAsLearned],
     Ok (Some [("fan_failure", MStr "*2.0")])).
Proof. reflexivity. Qed.

(** On a column that comes back as text the lookup raises. *)
Lemma find_updates_learned_text :
  forall self db qid answer lq c s,
    PyDict.get (BeliefEngine.base_questions self) qid = None ->
    BeliefEngine.fetch_learned_question db qid = Some lq ->
    lq_belief_updates_json lq = Some (JsonText (String c s)) ->
    BeliefEngine.find_updates self db qid answer
    = ([WarnQuestionNotInBase qid; InfoFoundAsLearned], Raise AttributeError).
Proof.
  intros self db qid answer lq c s Hbase Hlq Hjson.
  unfold BeliefEngine.find_updates. rewrite Hbase, Hlq, Hjson. reflexivity.
Qed.

Lemma find_updates_base :
  forall self db qid answer q,
    PyDict.get (BeliefEngine.base_questions self) qid = Some q ->
    BeliefEngine.find_updates self db qid answer
    = ([], Ok (Some (BeliefEngine.updates_for (belief_updates q) answer))).
Proof.
  intros self db qid answer q Hq. unfold BeliefEngine.find_updates.
  rewrite Hq. reflexivity.
Qed.

(** The only exception of the lookup is the AttributeError, and it is
    raised exactly for an approved learned question, not stored as a base
    question, whose column comes back as a non-empty text. *)
Lemma find_updates_raises :
  forall self db qid answer e,
    snd (BeliefEngine.find_updates self db qid answer) = Raise e <->
    e = AttributeError
    /\ PyDict.get (BeliefEngine.base_questions self) qid = None
    /\ exists lq c s,
         BeliefEngine.fetch_learned_question db qid = Some lq
         /\ lq_belief_updates_json lq = Some (JsonText (String c s)).
Proof.
  intros self db qid answer e. unfold BeliefEngine.find_updates. split.
  - destruct (PyDict.get (BeliefEngine.base_questions self) qid) as [q|];
      [discriminate|].
    destruct (BeliefEngine.fetch_learned_question db qid) as [lq|];
      [|discriminate].
    destruct (lq_belief_updates_json lq) as [[[|c s]|[|x bu]]|] eqn:Hjson;
      cbn [BeliefEngine.learned_updates snd]; try discriminate.
    intro H. inversion H. split; [reflexivity|]. split; [reflexivity|].
    exists lq, c, s. split; [reflexivity|exact Hjson].
  - intros (He & Hbase & lq & c & s & Hlq & Hjson).
    rewrite Hbase, Hlq, Hjson. subst e. reflexivity.
Qed.

Lemma update_beliefs_on_table :
  forall py_float self db current qid answer updates,
    snd (BeliefEngine.find_updates self db qid answer) = Ok (Some updates) ->
    updates <> [] ->
    snd (BeliefEngine.update_beliefs py_float self db current qid answer)
    = BeliefEngine.apply_normalize_sort py_float current updates.
Proof.
  intros py_float self db current qid answer updates Hfind Hne.
  unfold BeliefEngine.update_beliefs.
  destruct (BeliefEngine.find_updates self db qid answer) as [log o].
  cbn [snd] in Hfind. subst o.
  destruct updates; [congruence|reflexivity].
Qed.

Lemma update_beliefs_no_table :
  forall py_float self db current qid answer,
    snd (BeliefEngine.find_updates self db qid answer) = Ok None
    \/ snd (BeliefEngine.find_updates self db qid answer) = Ok (Some []) ->
    snd (BeliefEngine.update_beliefs py_float self db current qid answer)
    = Ok current.
Proof.
  intros py_float self db current qid answer H.
  unfold BeliefEngine.update_beliefs.
  destruct (BeliefEngine.find_updates self db qid answer) as [log o].
  cbn [snd] in H. destruct H as [H|H]; subst o; reflexivity.
Qed.

Lemma update_beliefs_raises :
  forall py_float self db current qid answer e,
    snd (BeliefEngine.find_updates self db qid answer) = Raise e ->
    snd (BeliefEngine.update_beliefs py_float self db current qid answer)
    = Raise e.
Proof.
  intros py_float self db current qid answer e H.
  unfold BeliefEngine.update_beliefs.
  destruct (BeliefEngine.find_updates self db qid answer) as [log o].
  cbn [snd] in H. subst o. reflexivity.
Qed.

Lemma update_beliefs_cases :
  forall py_float self db current qid answer,
    snd (BeliefEngine.update_beliefs py_float self db current qid answer) = Ok current
    \/ (exists e,
          snd (BeliefEngine.find_updates self db qid answer) = Raise e
          /\ snd (BeliefEngine.update_beliefs py_float self db current qid answer)
             = Raise e)
    \/ exists updates,
         snd (BeliefEngine.find_updates self db qid answer) = Ok (Some updates)
         /\ updates <> []
         /\ snd (BeliefEngine.update_beliefs py_float self db current qid answer)
            = BeliefEngine.apply_normalize_sort py_float current updates.
Proof.
  intros py_float self db current qid answer.
  unfold BeliefEngine.update_beliefs.
  destruct (BeliefEngine.find_updates self db qid answer)
    as [log [[[|u updates]|]|e]]; cbn [snd]; auto.
  - right. right. exists (u :: updates). repeat split. discriminate.
  - right. left. exists e. auto.
Qed.

(** ** With and without normalization *)

Lemma normalize_positive (b : beliefs) :
  0 < py_sum (PyDict.values b) ->
  BeliefEngine.normalize b = divided_by (py_sum (PyDict.values b)) b.
Proof.
  intro Hpos. unfold BeliefEngine.normalize.
  rewrite (proj2 (Qlt_bool_iff _ _) Hpos). reflexivity.
Qed.

Lemma normalize_not_positive (b : beliefs) :
  ~ 0 < py_sum (PyDict.values b) -> BeliefEngine.normalize b = b.
Proof.
  intro Hneg. unfold BeliefEngine.normalize.
  destruct (Qlt_bool 0 (py_sum (PyDict.values b))) eqn:E; [|reflexivity].
  apply Qlt_bool_iff in E. contradiction.
Qed.

(** A vector whose total is not positive is not normalized. *)
Lemma not_positive_not_normalized (b : beliefs) :
  ~ 0 < py_sum (PyDict.values b) -> ~ is_normalized b.
Proof.
  intros Hneg Hn. unfold is_normalized in Hn.
  apply Qabs_Qlt_condition in Hn. destruct Hn as [Hlo _].
  apply Hneg.
  apply Qlt_trans with (1 - 0.000001); [reflexivity|].
  lra.
Qed.

Lemma sort_not_positive_not_normalized (b : beliefs) :
  ~ 0 < py_sum (PyDict.values b) ->
  ~ is_normalized (BeliefEngine.sort_by_confidence b).
Proof.
  intro Hneg. apply not_positive_not_normalized.
  rewrite py_sum_sort_by_confidence. exact Hneg.
Qed.

(** [float] raises on no entry the loop reads: the loop completes. *)
Lemma apply_updates_total :
  forall py_float updates current,
    float_accepts py_float current updates ->
    exists b1, BeliefEngine.apply_updates py_float current updates = Ok b1.
Proof.
  intros py_float.
  induction updates as [|[c m] updates IH]; intros current Hacc;
    cbn [BeliefEngine.apply_updates].
  - exists current. reflexivity.
  - assert (H0 : exists b0, BeliefEngine.apply_update py_float current c m = Ok b0).
    { unfold BeliefEngine.apply_update.
      destruct (PyDict.get current c) as [old|] eqn:Hget; [|eauto].
      destruct m as [s| | |]; eauto.
      destruct (startswith_star s) eqn:Hstar; [|eauto].
      destruct (py_float (drop_first s)) as [f|] eqn:Hf; [eauto|].
      exfalso. apply (Hacc c s); [left; reflexivity| |exact Hstar|exact Hf].
      destruct (in_dec string_dec c (PyDict.keys current)) as [Hin|Hnin];
        [exact Hin|].
      rewrite (get_not_in_keys _ _ Hnin) in Hget. discriminate. }
    destruct H0 as [b0 H0]. rewrite H0. cbn [bind].
    apply IH. intros cause s Hin Hk.
    apply (Hacc cause s); [right; exact Hin|].
    rewrite <- (apply_update_keys py_float _ _ _ _ H0). exact Hk.
Qed.

(** ** C5 and C4 *)

(** C5 (as the code has it): when the question has a non-empty update
    table for the answer and [float] accepts the factors the loop reads,
    [update_beliefs] returns a vector.  The loop leaves a vector [b1] with
    the causes of [current] in the same order (none added), in which each
    cause has its old value times the stored factor if the table has a
    star-string for it and its old value otherwise.  The returned vector
    has the same causes in descending order of probability; when the total
    of [b1] is positive its probabilities are those of [b1] divided by
    that total and sum to 1, and when the total is not positive they are
    those of [b1] as they are, and the vector is not normalized.  On
    scenario B the result is {power_supply: 0.75, battery: 0.25}. *)
Theorem update_beliefs_multiplies_present_causes :
  (forall (py_float : string -> option Q) (self : BeliefEngine.self_t)
          (db : Database) (current : beliefs) (qid answer : string)
          (updates : PyDict.t multiplier),
      snd (BeliefEngine.find_updates self db qid answer) = Ok (Some updates) ->
      updates <> [] ->
      NoDup (PyDict.keys updates) ->
      float_accepts py_float current updates ->
      exists b1 b',
        BeliefEngine.apply_updates py_float current updates = Ok b1
        /\ snd (BeliefEngine.update_beliefs py_float self db current qid answer)
           = Ok b'
        /\ PyDict.keys b1 = PyDict.keys current
        /\ (forall cause old,
              PyDict.get current cause = Some old ->
              exists v, PyDict.get b1 cause = Some v
                        /\ updated_value py_float old (PyDict.get updates cause) v)
        /\ Permutation (PyDict.keys b') (PyDict.keys current)
        /\ sorted_descending b'
        /\ (0 < py_sum (PyDict.values b1) ->
            Permutation b' (divided_by (py_sum (PyDict.values b1)) b1)
            /\ py_sum (PyDict.values b') == 1
            /\ is_normalized b')
        /\ (~ 0 < py_sum (PyDict.values b1) ->
            Permutation b' b1
            /\ py_sum (PyDict.values b') == py_sum (PyDict.values b1)
            /\ ~ is_normalized b'))
  /\ exists b',
       snd (BeliefEngine.update_beliefs decimal_float Examples.engine_b
              Examples.empty_db Examples.beliefs_b "battery_led" "no") = Ok b'
       /\ beliefs_eq b' [("power_supply", 0.75); ("battery", 0.25)].
Proof.
  split.
  - intros py_float self db current qid answer updates Hfind Hne Hnodup Hacc.
    destruct (apply_updates_total py_float updates current Hacc) as [b1 Hloop].
    exists b1, (BeliefEngine.sort_by_confidence (BeliefEngine.normalize b1)).
    pose proof (apply_updates_keys _ _ _ _ Hloop) as Hkeys.
    split; [exact Hloop|].
    split.
    { rewrite (update_beliefs_on_table _ _ _ _ _ _ _ Hfind Hne).
      unfold BeliefEngine.apply_normalize_sort. rewrite Hloop. reflexivity. }
    split; [exact Hkeys|].
    split; [exact (apply_updates_value _ _ _ _ Hnodup Hloop)|].
    split; [rewrite <- Hkeys; apply sort_normalize_keys|].
    split; [apply sort_by_confidence_sorted|].
    split.
    + intro Hpos. split; [|split].
      * rewrite <- (normalize_positive b1 Hpos).
        apply sorted_desc_perm.
      * rewrite py_sum_sort_by_confidence. apply normalize_sum. exact Hpos.
      * apply normalize_sort_is_normalized. exact Hpos.
    + intro Hneg. rewrite (normalize_not_positive b1 Hneg). split; [|split].
      * apply sorted_desc_perm.
      * apply py_sum_sort_by_confidence.
      * apply sort_not_positive_not_normalized. exact Hneg.
  - eexists. split; [vm_compute; reflexivity|].
    repeat constructor.
Qed.

Lemma update_beliefs_multiplies_present_causes_witness :
  exists b1 b',
    BeliefEngine.apply_updates decimal_float Examples.beliefs_b
      [("power_supply", MStr "*1.8"); ("battery", MStr "*0.6")] = Ok b1
    /\ snd (BeliefEngine.update_beliefs decimal_float Examples.engine_b
              Examples.empty_db Examples.beliefs_b "battery_led" "no") = Ok b'
    /\ PyDict.keys b1 = PyDict.keys Examples.beliefs_b
    /\ (forall cause old,
          PyDict.get Examples.beliefs_b cause = Some old ->
          exists v, PyDict.get b1 cause = Some v
                    /\ updated_value decimal_float old
                         (PyDict.get [("power_supply", MStr "*1.8");
                                      ("battery", MStr "*0.6")] cause) v)
    /\ Permutation (PyDict.keys b') (PyDict.keys Examples.beliefs_b)
    /\ sorted_descending b'
    /\ (0 < py_sum (PyDict.values b1) ->
        Permutation b' (divided_by (py_sum (PyDict.values b1)) b1)
        /\ py_sum (PyDict.values b') == 1
        /\ is_normalized b')
    /\ (~ 0 < py_sum (PyDict.values b1) ->
        Permutation b' b1
        /\ py_sum (PyDict.values b') == py_sum (PyDict.values b1)
        /\ ~ is_normalized b').
Proof.
  apply (proj1 update_beliefs_multiplies_present_causes decimal_float
           Examples.engine_b Examples.empty_db Examples.beliefs_b
           "battery_led" "no").
  - reflexivity.
  - discriminate.
  - repeat constructor; simpl; intuition discriminate.
  - intros cause s [H|[H|[]]] _ _; inversion H; subst; vm_compute; discriminate.
Defined.

(** C5 (as the specification has it) fails: the answer that rules both
    causes of scenario B out leaves {battery: 0.0, power_supply: 0.0}; the
    vector is returned as multiplied, not renormalized. *)
Lemma ruled_out_vector_not_renormalized :
  exists b',
    snd (BeliefEngine.update_beliefs decimal_float Examples.engine_swap
           Examples.empty_db Examples.beliefs_b "charger_swap"
           "works_on_another_laptop") = Ok b'
    /\ beliefs_eq b' [("battery", 0); ("power_supply", 0)]
    /\ ~ py_sum (PyDict.values b') == 1
    /\ ~ is_normalized b'.
Proof.
  eexists. split; [vm_compute; reflexivity|].
  split; [repeat constructor|].
  split; [vm_compute; discriminate|].
  unfold is_normalized. vm_compute. discriminate.
Qed.

(** C4 (as the code has it).  [initialize_beliefs]: when the accumulated
    total is positive the returned vector is normalized; when it is not,
    the returned vector is the accumulated one, sorted and not divided, and
    it is not normalized.  [update_beliefs]: on its no-op paths (the
    question is unknown, or it has no update table for the answer) it
    returns the vector it was given; when it applies a table and the loop
    leaves [b1], it returns a normalized vector if the total of [b1] is
    positive, and [b1] sorted and not divided, which is not normalized, if
    that total is not positive. *)
Theorem normalized_when_total_positive :
  forall (py_float : string -> option Q) (math_exp : Q -> Q)
         (self : BeliefEngine.self_t) (db : Database),
    (forall symptoms visual_symptoms c brand,
        (0 < py_sum (PyDict.values
                       (BeliefEngine.accumulate_beliefs math_exp self db
                          symptoms visual_symptoms c)) ->
         is_normalized (BeliefEngine.initialize_beliefs math_exp self db
                          symptoms visual_symptoms c brand))
        /\ (~ 0 < py_sum (PyDict.values
                            (BeliefEngine.accumulate_beliefs math_exp self db
                               symptoms visual_symptoms c)) ->
            BeliefEngine.initialize_beliefs math_exp self db
              symptoms visual_symptoms c brand
            = BeliefEngine.sort_by_confidence
                (BeliefEngine.accumulate_beliefs math_exp self db
                   symptoms visual_symptoms c)
            /\ ~ is_normalized (BeliefEngine.initialize_beliefs math_exp self db
                                  symptoms visual_symptoms c brand)))
    /\ (forall current qid answer,
          (PyDict.get (BeliefEngine.base_questions self) qid = None ->
           BeliefEngine.fetch_learned_question db qid = None ->
           snd (BeliefEngine.update_beliefs py_float self db current qid answer)
           = Ok current)
          /\ (forall q,
                PyDict.get (BeliefEngine.base_questions self) qid = Some q ->
                PyDict.get (belief_updates q) answer = None ->
                snd (BeliefEngine.update_beliefs py_float self db current qid answer)
                = Ok current)
          /\ (snd (BeliefEngine.find_updates self db qid answer) = Ok None
              \/ snd (BeliefEngine.find_updates self db qid answer) = Ok (Some []) ->
              snd (BeliefEngine.update_beliefs py_float self db current qid answer)
              = Ok current))
    /\ (forall current qid answer updates b1,
          snd (BeliefEngine.find_updates self db qid answer) = Ok (Some updates) ->
          updates <> [] ->
          BeliefEngine.apply_updates py_float current updates = Ok b1 ->
          exists b',
            snd (BeliefEngine.update_beliefs py_float self db current qid answer)
            = Ok b'
            /\ (0 < py_sum (PyDict.values b1) -> is_normalized b')
            /\ (~ 0 < py_sum (PyDict.values b1) ->
                b' = BeliefEngine.sort_by_confidence b1
                /\ ~ is_normalized b')).
Proof.
  intros py_float math_exp self db. split; [|split].
  - intros symptoms visual_symptoms c brand.
    unfold BeliefEngine.initialize_beliefs. split.
    + apply normalize_sort_is_normalized.
    + intro Hneg. rewrite (normalize_not_positive _ Hneg).
      split; [reflexivity|].
      apply sort_not_positive_not_normalized. exact Hneg.
  - intros current qid answer. split; [|split].
    + intros Hbase Hlearned. apply update_beliefs_no_table. left.
      unfold BeliefEngine.find_updates. rewrite Hbase, Hlearned. reflexivity.
    + intros q Hq Ha. apply update_beliefs_no_table. right.
      rewrite (find_updates_base _ _ _ _ _ Hq).
      unfold BeliefEngine.updates_for. rewrite Ha. reflexivity.
    + apply update_beliefs_no_table.
  - intros current qid answer updates b1 Hfind Hne Hloop.
    exists (BeliefEngine.sort_by_confidence (BeliefEngine.normalize b1)).
    split; [|split].
    + rewrite (update_beliefs_on_table _ _ _ _ _ _ _ Hfind Hne).
      unfold BeliefEngine.apply_normalize_sort. rewrite Hloop. reflexivity.
    + apply normalize_sort_is_normalized.
    + intro Hneg. rewrite (normalize_not_positive _ Hneg).
      split; [reflexivity|].
      apply sort_not_positive_not_normalized. exact Hneg.
Qed.

Lemma normalized_when_total_positive_witness :
  (is_normalized
     (BeliefEngine.initialize_beliefs (fun _ => 0) Examples.engine_a Examples.empty_db
        ["no_power"; "led_off"] [] "laptop" None)
   /\ beliefs_eq
        (BeliefEngine.initialize_beliefs (fun _ => 0) Examples.engine_a
           Examples.empty_db ["no_power"; "led_off"] [] "laptop" None)
        [("power_supply", 0.8); ("battery", 0.2)])
  /\ (exists b',
        snd (BeliefEngine.update_beliefs decimal_float Examples.engine_b
               Examples.empty_db Examples.beliefs_b "battery_led" "no") = Ok b'
        /\ (0 < py_sum (PyDict.values [("battery", 0.5 * 0.6);
                                       ("power_supply", 0.5 * 1.8)]) ->
            is_normalized b')
        /\ (~ 0 < py_sum (PyDict.values [("battery", 0.5 * 0.6);
                                         ("power_supply", 0.5 * 1.8)]) ->
            b' = BeliefEngine.sort_by_confidence
                   [("battery", 0.5 * 0.6); ("power_supply", 0.5 * 1.8)]
            /\ ~ is_normalized b'))
  /\ snd (BeliefEngine.update_beliefs decimal_float Examples.engine_b
            Examples.empty_db Examples.beliefs_b "battery_led" "maybe")
     = Ok Examples.beliefs_b.
Proof.
  split; [split|split].
  - apply (proj1 (proj1 (normalized_when_total_positive decimal_float (fun _ => 0)
                           Examples.engine_a Examples.empty_db)
                    ["no_power"; "led_off"] [] "laptop" None)).
    vm_compute. reflexivity.
  - vm_compute. repeat constructor.
  - apply (proj2 (proj2 (normalized_when_total_positive decimal_float (fun _ => 0)
                           Examples.engine_b Examples.empty_db))
             Examples.beliefs_b "battery_led" "no"
             [("power_supply", MStr "*1.8"); ("battery", MStr "*0.6")]).
    + reflexivity.
    + discriminate.
    + reflexivity.
  - apply (proj1 (proj2 (proj1 (proj2 (normalized_when_total_positive decimal_float
                                         (fun _ => 0) Examples.engine_b
                                         Examples.empty_db))
                           Examples.beliefs_b "battery_led" "maybe"))
             Examples.battery_led).
    + reflexivity.
    + reflexivity.
Defined.

(** C4 (as the specification has it) fails: the answer that rules out the
    only cause leaves the non-empty vector {battery: 0.0}, whose sum is 0. *)
Lemma zeroed_vector_not_normalized :
  exists b',
    snd (BeliefEngine.update_beliefs decimal_float Examples.engine_zero
           Examples.empty_db [("battery", 1)] "battery_removed" "yes") = Ok b'
    /\ b' <> []
    /\ py_sum (PyDict.values b') == 0
    /\ ~ is_normalized b'.
Proof.
  eexists. split; [vm_compute; reflexivity|].
  split; [discriminate|].
  split; [reflexivity|].
  unfold is_normalized. vm_compute. discriminate.
Qed.

(** * More properties of the code *)

(** ** Ordered dicts, continued *)

Section DictMore.
Context {V : Type}.
Implicit Types (d : PyDict.t V) (k : string) (v : V).

Lemma get_set_eq d k v : PyDict.get (PyDict.set d k v) k = Some v.
Proof.
  induction d as [|[k' v'] d IH]; cbn [PyDict.get PyDict.set].
  - rewrite String.eqb_refl. reflexivity.
  - destruct (String.eqb k' k) eqn:E; cbn [PyDict.get]; rewrite E; auto.
Qed.

Lemma get_in_keys d k v : PyDict.get d k = Some v -> In k (PyDict.keys d).
Proof.
  unfold PyDict.keys.
  induction d as [|[k' v'] d IH]; cbn [PyDict.get map fst In]; [discriminate|].
  destruct (String.eqb k' k) eqn:E.
  - apply String.eqb_eq in E. auto.
  - auto.
Qed.

Lemma in_keys_get d k : In k (PyDict.keys d) -> exists v, PyDict.get d k = Some v.
Proof.
  intro Hin. destruct (PyDict.get d k) as [v|] eqn:E; [eauto|].
  exfalso. revert Hin E. unfold PyDict.keys.
  induction d as [|[k' v'] d IH]; cbn [PyDict.get map fst In]; [tauto|].
  destruct (String.eqb k' k) eqn:E'; [discriminate|].
  apply String.eqb_neq in E'. intros [H|H]; [congruence|auto].
Qed.

Lemma get_in d k v : PyDict.get d k = Some v -> In (k, v) d.
Proof.
  induction d as [|[k' v'] d IH]; cbn [PyDict.get In]; [discriminate|].
  destruct (String.eqb k' k) eqn:E.
  - apply String.eqb_eq in E. intro H. inversion H; subst. auto.
  - auto.
Qed.

Lemma keys_set_absent d k v :
  PyDict.get d k = None -> PyDict.keys (PyDict.set d k v) = PyDict.keys d ++ [k].
Proof.
  unfold PyDict.keys.
  induction d as [|[k' v'] d IH]; cbn [PyDict.get PyDict.set map fst app];
    [reflexivity|].
  destruct (String.eqb k' k) eqn:E; [discriminate|].
  intro H. cbn [map fst]. rewrite (IH H). reflexivity.
Qed.

Lemma keys_set_cases d k v :
  PyDict.keys (PyDict.set d k v) = PyDict.keys d
  \/ (~ In k (PyDict.keys d)
      /\ PyDict.keys (PyDict.set d k v) = PyDict.keys d ++ [k]).
Proof.
  destruct (PyDict.get d k) as [old|] eqn:E.
  - left. apply keys_set_present with old. exact E.
  - right. split; [|apply keys_set_absent; exact E].
    intro Hin. apply in_keys_get in Hin. destruct Hin as [x Hx]. congruence.
Qed.

Lemma set_keys_nodup d k v :
  NoDup (PyDict.keys d) -> NoDup (PyDict.keys (PyDict.set d k v)).
Proof.
  intro Hnd. destruct (keys_set_cases d k v) as [H|[Hnotin H]]; rewrite H.
  - exact Hnd.
  - apply NoDup_app; [exact Hnd|repeat constructor; intros []|].
    intros x Hx [Hk|[]]. subst. contradiction.
Qed.

Lemma in_set_keys d k v x :
  In x (PyDict.keys (PyDict.set d k v)) <-> In x (PyDict.keys d) \/ x = k.
Proof.
  destruct (keys_set_cases d k v) as [H|[Hnotin H]].
  - split.
    + intro Hx. left. rewrite <- H. exact Hx.
    + intros [Hx|Hx]; [rewrite H; exact Hx|].
      subst x. apply get_in_keys with v. apply get_set_eq.
  - rewrite H, in_app_iff. cbn [In]. intuition.
Qed.
End DictMore.

(** ** Loading the base questions *)

Lemma find_app {A : Type} (p : A -> bool) (l1 l2 : list A) :
  find p (l1 ++ l2)
  = match find p l1 with Some x => Some x | None => find p l2 end.
Proof.
  induction l1 as [|x l1 IH]; cbn [app find]; [reflexivity|].
  destruct (p x); [reflexivity|exact IH].
Qed.

Lemma load_fold_get :
  forall (qs : list question) (d : PyDict.t question) (k : string),
    PyDict.get (fold_left (fun d q => PyDict.set d (id q) q) qs d) k
    = match find (fun q => String.eqb (id q) k) (rev qs) with
      | Some q => Some q
      | None => PyDict.get d k
      end.
Proof.
  induction qs as [|q qs IH]; intros d k; cbn [fold_left rev find].
  - reflexivity.
  - rewrite IH, find_app. cbn [find].
    destruct (find (fun q0 => String.eqb (id q0) k) (rev qs)); [reflexivity|].
    destruct (String.eqb (id q) k) eqn:E.
    + apply String.eqb_eq in E. subst k. apply get_set_eq.
    + apply get_set_other. apply String.eqb_neq in E. congruence.
Qed.

Lemma load_fold_nodup :
  forall (qs : list question) (d : PyDict.t question),
    NoDup (PyDict.keys d) ->
    NoDup (PyDict.keys (fold_left (fun d q => PyDict.set d (id q) q) qs d)).
Proof.
  induction qs as [|q qs IH]; intros d Hd; cbn [fold_left]; [exact Hd|].
  apply IH. apply set_keys_nodup. exact Hd.
Qed.

(** X1: in the dict built from the questions file, the lookup of an id
    gives the last question of the file that has this id (none if there
    is none), and no id is stored twice. *)
Theorem load_base_questions_lookup :
  forall (qs : list question) (k : string),
    PyDict.get (BeliefEngine.load_base_questions qs) k
    = find (fun q => String.eqb (id q) k) (rev qs)
    /\ NoDup (PyDict.keys (BeliefEngine.load_base_questions qs)).
Proof.
  intros qs k. unfold BeliefEngine.load_base_questions. split.
  - rewrite load_fold_get. cbn [PyDict.get].
    destruct (find _ (rev qs)); reflexivity.
  - apply load_fold_nodup. constructor.
Qed.

(** ** [initialize_beliefs]: where the causes come from *)

Lemma str_in_nil (k : string) : str_in k [] = false.
Proof. reflexivity. Qed.

Lemma set_inter_in (a b : list string) (s : string) :
  In s (set_inter a b) <-> In s a /\ In s b.
Proof.
  unfold set_inter. rewrite filter_In, str_in_true_iff. tauto.
Qed.

Lemma py_set_in (xs : list string) (s : string) : In s (py_set xs) <-> In s xs.
Proof. unfold py_set. apply nodup_In. Qed.

(** A pattern and an input that share a symptom. *)
Lemma overlap_shared (pattern_symptoms input_symptoms : list string) :
  set_inter (py_set pattern_symptoms) (py_set input_symptoms) <> [] ->
  exists s, In s pattern_symptoms /\ In s input_symptoms.
Proof.
  destruct (set_inter _ _) as [|s rest] eqn:E; [congruence|]. intros _.
  assert (Hs : In s (set_inter (py_set pattern_symptoms) (py_set input_symptoms)))
    by (rewrite E; left; reflexivity).
  apply set_inter_in in Hs. rewrite !py_set_in in Hs. eauto.
Qed.

Lemma add_to_keys (b : beliefs) (c : string) (x : Q) (k : string) :
  In k (PyDict.keys (BeliefEngine.add_to b c x)) <-> In k (PyDict.keys b) \/ k = c.
Proof.
  unfold BeliefEngine.add_to.
  destruct (PyDict.get b c); apply in_set_keys.
Qed.

Lemma add_to_nodup (b : beliefs) (c : string) (x : Q) :
  NoDup (PyDict.keys b) -> NoDup (PyDict.keys (BeliefEngine.add_to b c x)).
Proof.
  unfold BeliefEngine.add_to.
  destruct (PyDict.get b c); apply set_keys_nodup.
Qed.

Lemma fold_add_to_keys (g : string * Q -> Q) :
  forall (causes : PyDict.t Q) (b : beliefs) (k : string),
    In k (PyDict.keys
            (fold_left (fun acc cp => BeliefEngine.add_to acc (fst cp) (g cp))
                       causes b))
    -> In k (PyDict.keys b) \/ In k (PyDict.keys causes).
Proof.
  induction causes as [|cp causes IH]; intros b k H; cbn [fold_left] in H.
  - left. exact H.
  - apply IH in H. destruct H as [H|H].
    + apply add_to_keys in H. destruct H as [H|H]; [left; exact H|].
      right. left. symmetry. exact H.
    + right. right. exact H.
Qed.

Lemma fold_add_to_nodup (g : string * Q -> Q) :
  forall (causes : PyDict.t Q) (b : beliefs),
    NoDup (PyDict.keys b) ->
    NoDup (PyDict.keys
             (fold_left (fun acc cp => BeliefEngine.add_to acc (fst cp) (g cp))
                        causes b)).
Proof.
  induction causes as [|cp causes IH]; intros b Hb; cbn [fold_left]; [exact Hb|].
  apply IH. apply add_to_nodup. exact Hb.
Qed.


Lemma add_base_pattern_keys :
  forall self db all_input c b p k,
    In p (BeliefEngine.base_patterns self) ->
    In k (PyDict.keys (BeliefEngine.add_base_pattern (py_set all_input) c b p)) ->
    In k (PyDict.keys b) \/ backed_by self db all_input c k.
Proof.
  intros self db all_input c b p k Hp H.
  unfold BeliefEngine.add_base_pattern in H.
  destruct (p_category p) as [c'|] eqn:Hc; [|left; exact H].
  destruct (String.eqb c' c) eqn:E; [|left; exact H].
  apply String.eqb_eq in E. subst c'.
  destruct (set_inter (py_set (p_symptoms p)) (py_set all_input)) as [|s0 rest] eqn:Hov;
    [left; exact H|].
  apply fold_add_to_keys in H. destruct H as [H|H]; [left; exact H|].
  right. left. exists p. repeat split; auto.
  apply overlap_shared. rewrite Hov. discriminate.
Qed.

Lemma add_base_pattern_nodup :
  forall all_symptoms c b p,
    NoDup (PyDict.keys b) ->
    NoDup (PyDict.keys (BeliefEngine.add_base_pattern all_symptoms c b p)).
Proof.
  intros all_symptoms c b p Hb. unfold BeliefEngine.add_base_pattern.
  destruct (p_category p); [|exact Hb].
  destruct (String.eqb _ c); [|exact Hb].
  destruct (set_inter _ _); [exact Hb|].
  apply fold_add_to_nodup. exact Hb.
Qed.

Lemma add_learned_pattern_keys :
  forall math_exp self db all_input c b lp k,
    In lp (BeliefEngine.fetch_learned_patterns db c) ->
    In k (PyDict.keys
            (BeliefEngine.add_learned_pattern math_exp (py_set all_input) b lp)) ->
    In k (PyDict.keys b) \/ backed_by self db all_input c k.
Proof.
  intros math_exp self db all_input c b lp k Hlp H.
  unfold BeliefEngine.add_learned_pattern in H.
  destruct (set_inter (py_set (lp_symptom_combination lp)) (py_set all_input))
    as [|s0 rest] eqn:Hov; [left; exact H|].
  apply add_to_keys in H. destruct H as [H|H]; [left; exact H|].
  right. right. exists lp.
  unfold BeliefEngine.fetch_learned_patterns in Hlp.
  apply filter_In in Hlp. destruct Hlp as [Hin Hf].
  apply andb_true_iff in Hf. destruct Hf as [Happ Hcat].
  apply String.eqb_eq in Hcat.
  repeat split; auto.
  apply overlap_shared. rewrite Hov. discriminate.
Qed.

Lemma add_learned_pattern_nodup :
  forall math_exp all_symptoms b lp,
    NoDup (PyDict.keys b) ->
    NoDup (PyDict.keys (BeliefEngine.add_learned_pattern math_exp all_symptoms b lp)).
Proof.
  intros math_exp all_symptoms b lp Hb. unfold BeliefEngine.add_learned_pattern.
  destruct (set_inter _ _); [exact Hb|].
  apply add_to_nodup. exact Hb.
Qed.

Lemma fold_left_invariant {A B : Type} (f : A -> B -> A) (P : A -> Prop) :
  forall (l : list B) (a : A),
    P a -> (forall a x, In x l -> P a -> P (f a x)) -> P (fold_left f l a).
Proof.
  induction l as [|x l IH]; intros a Ha Hstep; cbn [fold_left]; [exact Ha|].
  apply IH.
  - apply Hstep; [left; reflexivity|exact Ha].
  - intros a' y Hy. apply Hstep. right. exact Hy.
Qed.

Lemma accumulate_beliefs_keys :
  forall math_exp self db symptoms visual c k,
    In k (PyDict.keys
            (BeliefEngine.accumulate_beliefs math_exp self db symptoms visual c)) ->
    backed_by self db (symptoms ++ visual) c k.
Proof.
  intros math_exp self db symptoms visual c k.
  unfold BeliefEngine.accumulate_beliefs.
  set (P := fun b : beliefs =>
              forall k, In k (PyDict.keys b) -> backed_by self db (symptoms ++ visual) c k).
  assert (HP : P (fold_left (BeliefEngine.add_learned_pattern math_exp
                               (py_set (symptoms ++ visual)))
                    (BeliefEngine.fetch_learned_patterns db c)
                    (fold_left (BeliefEngine.add_base_pattern
                                  (py_set (symptoms ++ visual)) c)
                       (BeliefEngine.base_patterns self) []))).
  { apply fold_left_invariant.
    - apply fold_left_invariant.
      + intros k' [].
      + intros b p Hp Hb k' Hk'.
        destruct (add_base_pattern_keys self db _ c b p k' Hp Hk'); auto.
    - intros b lp Hlp Hb k' Hk'.
      destruct (add_learned_pattern_keys math_exp self db _ c b lp k' Hlp Hk'); auto. }
  exact (HP k).
Qed.

Lemma accumulate_beliefs_nodup :
  forall math_exp self db symptoms visual c,
    NoDup (PyDict.keys
             (BeliefEngine.accumulate_beliefs math_exp self db symptoms visual c)).
Proof.
  intros. unfold BeliefEngine.accumulate_beliefs.
  apply fold_left_invariant.
  - apply fold_left_invariant; [constructor|].
    intros b p _ Hb. apply add_base_pattern_nodup. exact Hb.
  - intros b lp _ Hb. apply add_learned_pattern_nodup. exact Hb.
Qed.

(** X2: every cause of the vector [initialize_beliefs] returns is backed by
    a base pattern of the requested category, or by an approved learned
    pattern of it, that shares a symptom with the input. *)
Theorem initialize_beliefs_causes_backed :
  forall (math_exp : Q -> Q) (self : BeliefEngine.self_t) (db : Database)
         (symptoms visual_symptoms : list string) (c : string)
         (brand : option string) (cause : string),
    In cause (PyDict.keys
                (BeliefEngine.initialize_beliefs math_exp self db
                   symptoms visual_symptoms c brand)) ->
    backed_by self db (symptoms ++ visual_symptoms) c cause.
Proof.
  intros math_exp self db symptoms visual c brand cause H.
  unfold BeliefEngine.initialize_beliefs in H.
  apply (Permutation_in _ (sort_normalize_keys _)) in H.
  exact (accumulate_beliefs_keys _ _ _ _ _ _ _ H).
Qed.

Lemma initialize_beliefs_causes_backed_witness :
  backed_by Examples.engine_a Examples.empty_db (["no_power"; "led_off"] ++ [])
    "laptop" "battery".
Proof.
  apply (initialize_beliefs_causes_backed (fun _ => 0) Examples.engine_a
           Examples.empty_db ["no_power"; "led_off"] [] "laptop" None "battery").
  vm_compute. right. left. reflexivity.
Defined.

(** X3: without any symptom, textual or visual, [initialize_beliefs]
    returns the empty vector, whatever the patterns are. *)
Theorem initialize_beliefs_no_symptoms :
  forall (math_exp : Q -> Q) (self : BeliefEngine.self_t) (db : Database)
         (c : string) (brand : option string),
    BeliefEngine.initialize_beliefs math_exp self db [] [] c brand = [].
Proof.
  intros math_exp self db c brand.
  destruct (BeliefEngine.initialize_beliefs math_exp self db [] [] c brand)
    as [|[k v] rest] eqn:E; [reflexivity|].
  assert (Hk : In k (PyDict.keys
                       (BeliefEngine.initialize_beliefs math_exp self db [] [] c brand)))
    by (rewrite E; left; reflexivity).
  unfold BeliefEngine.initialize_beliefs in Hk.
  apply (Permutation_in _ (sort_normalize_keys _)) in Hk.
  apply accumulate_beliefs_keys in Hk.
  destruct Hk as [(p & _ & _ & _ & s & _ & [])|(lp & _ & _ & _ & _ & s & _ & [])].
Qed.

(** X4: the vector [initialize_beliefs] returns names no cause twice and is
    in descending order of probability. *)
Theorem initialize_beliefs_well_formed :
  forall (math_exp : Q -> Q) (self : BeliefEngine.self_t) (db : Database)
         (symptoms visual_symptoms : list string) (c : string)
         (brand : option string),
    NoDup (PyDict.keys
             (BeliefEngine.initialize_beliefs math_exp self db
                symptoms visual_symptoms c brand))
    /\ sorted_descending
         (BeliefEngine.initialize_beliefs math_exp self db
            symptoms visual_symptoms c brand).
Proof.
  intros. unfold BeliefEngine.initialize_beliefs. split.
  - apply (Permutation_NoDup (Permutation_sym (sort_normalize_keys _))).
    apply accumulate_beliefs_nodup.
  - apply sort_by_confidence_sorted.
Qed.

(** ** [update_beliefs]: the empty vector, a malformed multiplier, and the
    range of the probabilities *)

Lemma apply_updates_nil_beliefs :
  forall py_float updates,
    BeliefEngine.apply_updates py_float [] updates = Ok [].
Proof.
  intros py_float updates. induction updates as [|[c m] updates IH];
    cbn [BeliefEngine.apply_updates]; [reflexivity|].
  unfold BeliefEngine.apply_update. cbn [PyDict.get bind]. exact IH.
Qed.

Lemma update_beliefs_nil_cases :
  forall py_float self db qid answer,
    snd (BeliefEngine.update_beliefs py_float self db [] qid answer) = Ok []
    \/ (snd (BeliefEngine.find_updates self db qid answer) = Raise AttributeError
        /\ snd (BeliefEngine.update_beliefs py_float self db [] qid answer)
           = Raise AttributeError).
Proof.
  intros py_float self db qid answer.
  destruct (update_beliefs_cases py_float self db [] qid answer)
    as [H|[(e & Hfind & H)|(updates & _ & _ & H)]].
  - left. exact H.
  - right.
    pose proof (proj1 (find_updates_raises self db qid answer e) Hfind) as [He _].
    subst e. auto.
  - left. rewrite H. unfold BeliefEngine.apply_normalize_sort.
    rewrite apply_updates_nil_beliefs. reflexivity.
Qed.

(** X5: on the empty vector [update_beliefs] never reaches [float].  For a
    base question it returns the empty vector, whatever multipliers the
    update table holds.  For every question it returns the empty vector or
    raises AttributeError, and it raises exactly when the question is not a
    base question and is an approved learned question whose document comes
    back as a non-empty text. *)
Theorem update_beliefs_empty_vector :
  forall (py_float : string -> option Q) (self : BeliefEngine.self_t)
         (db : Database) (qid answer : string),
    (forall q,
        PyDict.get (BeliefEngine.base_questions self) qid = Some q ->
        snd (BeliefEngine.update_beliefs py_float self db [] qid answer) = Ok [])
    /\ (snd (BeliefEngine.update_beliefs py_float self db [] qid answer) = Ok []
        \/ snd (BeliefEngine.update_beliefs py_float self db [] qid answer)
           = Raise AttributeError)
    /\ (snd (BeliefEngine.update_beliefs py_float self db [] qid answer)
        = Raise AttributeError
        <-> PyDict.get (BeliefEngine.base_questions self) qid = None
            /\ exists lq c s,
                 BeliefEngine.fetch_learned_question db qid = Some lq
                 /\ lq_belief_updates_json lq = Some (JsonText (String c s))).
Proof.
  intros py_float self db qid answer.
  pose proof (update_beliefs_nil_cases py_float self db qid answer) as Hcases.
  split; [|split].
  - intros q Hq.
    destruct Hcases as [H|[Hfind _]]; [exact H|].
    rewrite (find_updates_base _ _ _ _ _ Hq) in Hfind. discriminate.
  - destruct Hcases as [H|[_ H]]; auto.
  - split.
    + intro Hraise.
      destruct Hcases as [H|[Hfind _]]; [congruence|].
      apply (proj1 (find_updates_raises self db qid answer AttributeError)) in Hfind.
      tauto.
    + intros (Hbase & lq & c & s & Hlq & Hjson).
      apply update_beliefs_raises.
      rewrite (find_updates_learned_text _ _ _ _ _ _ _ Hbase Hlq Hjson).
      reflexivity.
Qed.

Section StoreFacts.
Variable py_float : string -> option Q.

Lemma apply_updates_store_ok :
  forall updates current b,
    BeliefEngine.apply_updates py_float current updates = Ok b ->
    InPlace.apply_updates_store py_float current updates = (b, None).
Proof.
  induction updates as [|[c m] updates IH]; intros current b H;
    cbn [BeliefEngine.apply_updates InPlace.apply_updates_store] in *.
  - inversion H. reflexivity.
  - destruct (BeliefEngine.apply_update py_float current c m) as [b0|e];
      cbn [bind] in H; [|discriminate].
    apply IH. exact H.
Qed.

Lemma apply_updates_store_app :
  forall pre rest current b0,
    BeliefEngine.apply_updates py_float current pre = Ok b0 ->
    InPlace.apply_updates_store py_float current (pre ++ rest)
    = InPlace.apply_updates_store py_float b0 rest.
Proof.
  induction pre as [|[c m] pre IH]; intros rest current b0 H;
    cbn [BeliefEngine.apply_updates InPlace.apply_updates_store app] in *.
  - inversion H. reflexivity.
  - destruct (BeliefEngine.apply_update py_float current c m) as [b1|e];
      cbn [bind] in H; [|discriminate].
    apply IH. exact H.
Qed.

(** The store model returns what [update_beliefs] returns. *)
Lemma update_beliefs_store_result :
  forall self db current qid answer,
    snd (InPlace.update_beliefs_store py_float self db current qid answer)
    = snd (BeliefEngine.update_beliefs py_float self db current qid answer).
Proof.
  intros self db current qid answer.
  unfold InPlace.update_beliefs_store, BeliefEngine.update_beliefs.
  destruct (BeliefEngine.find_updates self db qid answer)
    as [log [[[|u updates]|]|e0]]; cbn [snd]; try reflexivity.
  unfold BeliefEngine.apply_normalize_sort.
  generalize (u :: updates). intro us. revert current.
  induction us as [|[c m] us IH]; intro current;
    cbn [BeliefEngine.apply_updates InPlace.apply_updates_store].
  - reflexivity.
  - destruct (BeliefEngine.apply_update py_float current c m) as [b|e]; cbn [bind].
    + apply IH.
    + reflexivity.
Qed.

(** The dict after a call that applied a table is the vector the loop
    left. *)
Lemma update_beliefs_store_on_table :
  forall self db current qid answer updates b1,
    snd (BeliefEngine.find_updates self db qid answer) = Ok (Some updates) ->
    updates <> [] ->
    BeliefEngine.apply_updates py_float current updates = Ok b1 ->
    InPlace.update_beliefs_store py_float self db current qid answer
    = (b1, Ok (BeliefEngine.sort_by_confidence (BeliefEngine.normalize b1))).
Proof.
  intros self db current qid answer updates b1 Hfind Hne Hloop.
  unfold InPlace.update_beliefs_store. rewrite Hfind.
  destruct updates as [|u us]; [congruence|].
  rewrite (apply_updates_store_ok _ _ _ Hloop). reflexivity.
Qed.

(** The dict after a call that applied no table is the dict before. *)
Lemma update_beliefs_store_no_table :
  forall self db current qid answer,
    InPlace.update_beliefs_returns_argument self db qid answer = true ->
    InPlace.update_beliefs_store py_float self db current qid answer
    = (current, Ok current).
Proof.
  intros self db current qid answer H.
  unfold InPlace.update_beliefs_returns_argument in H.
  unfold InPlace.update_beliefs_store.
  destruct (snd (BeliefEngine.find_updates self db qid answer))
    as [[[|u us]|]|e]; try discriminate; reflexivity.
Qed.
End StoreFacts.

(** X6: when the update table of the question for the answer holds, for a
    cause that is in the vector, a star-string that [float] rejects, and
    the entries before it are applied without error, [update_beliefs]
    raises ValueError, and the dict it was given keeps the products of the
    entries before that one: nothing is rolled back. *)
Theorem update_beliefs_malformed_multiplier :
  forall (py_float : string -> option Q) (self : BeliefEngine.self_t)
         (db : Database) (current : beliefs) (qid answer : string)
         (pre post : PyDict.t multiplier) (cause s : string) (b0 : beliefs),
    snd (BeliefEngine.find_updates self db qid answer)
    = Ok (Some (pre ++ (cause, MStr s) :: post)) ->
    BeliefEngine.apply_updates py_float current pre = Ok b0 ->
    In cause (PyDict.keys current) ->
    startswith_star s = true ->
    py_float (drop_first s) = None ->
    snd (BeliefEngine.update_beliefs py_float self db current qid answer)
    = Raise ValueError
    /\ InPlace.update_beliefs_store py_float self db current qid answer
       = (b0, Raise ValueError).
Proof.
  intros py_float self db current qid answer pre post cause s b0
         Hfind Hpre Hin Hstar Hfloat.
  assert (Hstore : InPlace.update_beliefs_store py_float self db current qid answer
                   = (b0, Raise ValueError)).
  { unfold InPlace.update_beliefs_store. rewrite Hfind.
    destruct (pre ++ (cause, MStr s) :: post) as [|u us] eqn:E;
      [destruct pre; discriminate|].
    rewrite <- E.
    rewrite (apply_updates_store_app py_float pre _ current b0 Hpre).
    cbn [InPlace.apply_updates_store].
    unfold BeliefEngine.apply_update.
    rewrite <- (apply_updates_keys py_float pre current b0 Hpre) in Hin.
    apply in_keys_get in Hin. destruct Hin as [old Hold].
    rewrite Hold, Hstar, Hfloat. reflexivity. }
  split; [|exact Hstore].
  rewrite <- update_beliefs_store_result, Hstore. reflexivity.
Qed.

(** ** Probabilities stay between 0 and 1 *)

Lemma py_sum_nonneg (xs : list Q) :
  Forall (fun x => 0 <= x) xs -> 0 <= py_sum xs.
Proof.
  induction 1 as [|x xs Hx Hxs IH].
  - apply Qle_refl.
  - rewrite py_sum_cons.
    rewrite <- (Qplus_0_l 0). apply Qplus_le_compat; assumption.
Qed.

Lemma py_sum_ge_each (xs : list Q) :
  Forall (fun x => 0 <= x) xs -> forall x, In x xs -> x <= py_sum xs.
Proof.
  induction 1 as [|y xs Hy Hxs IH]; intros x Hin; [destruct Hin|].
  destruct Hin as [Hx|Hx].
  - subst y. rewrite py_sum_cons.
    rewrite <- (Qplus_0_r x) at 1. apply Qplus_le_compat; [apply Qle_refl|].
    apply py_sum_nonneg. exact Hxs.
  - rewrite py_sum_cons.
    rewrite <- (Qplus_0_l x). apply Qplus_le_compat; [exact Hy|].
    apply IH. exact Hx.
Qed.

Lemma div_in_unit (v t : Q) : 0 <= v -> v <= t -> 0 < t -> in_unit (v / t).
Proof.
  intros Hv Hvt Ht. split.
  - apply Qle_shift_div_l; [exact Ht|]. rewrite Qmult_0_l. exact Hv.
  - apply Qle_shift_div_r; [exact Ht|]. rewrite Qmult_1_l. exact Hvt.
Qed.

Lemma normalize_in_unit (b : beliefs) :
  Forall (fun x => 0 <= x) (PyDict.values b) ->
  Forall in_unit (PyDict.values (BeliefEngine.normalize b)).
Proof.
  intro Hnn. unfold BeliefEngine.normalize.
  pose proof (py_sum_ge_each _ Hnn) as Hge.
  destruct (Qlt_bool 0 (py_sum (PyDict.values b))) eqn:E.
  - apply Qlt_bool_iff in E.
    unfold PyDict.values in *. rewrite map_map. cbn [snd].
    apply Forall_forall. intros x Hx.
    apply in_map_iff in Hx. destruct Hx as (kv & Hx & Hin). subst x.
    assert (Hv : In (snd kv) (map snd b)) by (apply in_map; exact Hin).
    apply div_in_unit; [|apply Hge; exact Hv|exact E].
    rewrite Forall_forall in Hnn. apply Hnn. exact Hv.
  - apply Qlt_bool_false_iff in E.
    apply Forall_forall. intros x Hx. split.
    + rewrite Forall_forall in Hnn. apply Hnn. exact Hx.
    + apply Qle_trans with (py_sum (PyDict.values b)); [apply Hge; exact Hx|].
      apply Qle_trans with 0; [exact E|]. discriminate.
Qed.

Lemma sort_by_confidence_values (P : Q -> Prop) (b : beliefs) :
  Forall P (PyDict.values b) ->
  Forall P (PyDict.values (BeliefEngine.sort_by_confidence b)).
Proof.
  intro H. unfold PyDict.values, BeliefEngine.sort_by_confidence in *.
  rewrite Forall_forall in *. intros x Hx. apply H.
  apply (Permutation_in _ (Permutation_map snd (sorted_desc_perm snd b))).
  exact Hx.
Qed.

Lemma set_values_forall (P : Q -> Prop) (d : beliefs) (k : string) (v : Q) :
  Forall P (PyDict.values d) -> P v -> Forall P (PyDict.values (PyDict.set d k v)).
Proof.
  intros Hd Hv. unfold PyDict.values in *.
  induction d as [|[k' v'] d IH]; cbn [PyDict.set map snd] in *.
  - repeat constructor. exact Hv.
  - inversion Hd as [|? ? Hv' Hd']; subst.
    destruct (String.eqb k' k); cbn [map snd]; constructor; auto.
Qed.

Lemma get_value_forall (P : Q -> Prop) (d : beliefs) (k : string) (v : Q) :
  Forall P (PyDict.values d) -> PyDict.get d k = Some v -> P v.
Proof.
  intros Hd Hget. rewrite Forall_forall in Hd. apply Hd.
  unfold PyDict.values. apply in_map_iff. exists (k, v). split; [reflexivity|].
  apply get_in. exact Hget.
Qed.

(** Multipliers that are not negative. *)
Lemma apply_updates_nonneg :
  forall py_float updates current b,
    (forall c s f, In (c, MStr s) updates ->
                   py_float (drop_first s) = Some f -> 0 <= f) ->
    Forall (fun x => 0 <= x) (PyDict.values current) ->
    BeliefEngine.apply_updates py_float current updates = Ok b ->
    Forall (fun x => 0 <= x) (PyDict.values b).
Proof.
  intros py_float. induction updates as [|[c m] updates IH];
    intros current b Hf Hnn H; cbn [BeliefEngine.apply_updates] in H.
  - inversion H; subst. exact Hnn.
  - destruct (BeliefEngine.apply_update py_float current c m) as [b0|e] eqn:H0;
      cbn [bind] in H; [|discriminate].
    apply (IH b0 b); [intros c' s f Hin; apply (Hf c' s f); right; exact Hin| |exact H].
    unfold BeliefEngine.apply_update in H0.
    destruct (PyDict.get current c) as [old|] eqn:Hget;
      [|inversion H0; subst; exact Hnn].
    destruct m as [s| | |]; try (inversion H0; subst; exact Hnn).
    destruct (startswith_star s); [|inversion H0; subst; exact Hnn].
    destruct (py_float (drop_first s)) as [f|] eqn:Hp; inversion H0; subst.
    apply set_values_forall; [exact Hnn|].
    apply Qmult_le_0_compat.
    + exact (get_value_forall _ _ _ _ Hnn Hget).
    + apply (Hf c s f); [left; reflexivity|exact Hp].
Qed.

(** X7: when no probability of the vector is negative and no factor of
    the update table of the question for the answer is negative, every
    probability of the vector [update_beliefs] computes from the table
    lies between 0 and 1. *)
Theorem update_beliefs_probabilities_in_unit :
  forall (py_float : string -> option Q) (self : BeliefEngine.self_t)
         (db : Database) (current : beliefs) (qid answer : string)
         (updates : PyDict.t multiplier) (b' : beliefs),
    snd (BeliefEngine.find_updates self db qid answer) = Ok (Some updates) ->
    updates <> [] ->
    Forall (fun p => 0 <= p) (PyDict.values current) ->
    (forall c s f, In (c, MStr s) updates ->
                   py_float (drop_first s) = Some f -> 0 <= f) ->
    snd (BeliefEngine.update_beliefs py_float self db current qid answer) = Ok b' ->
    Forall in_unit (PyDict.values b').
Proof.
  intros py_float self db current qid answer updates b' Hfind Hne Hnn Hf Hres.
  rewrite (update_beliefs_on_table _ _ _ _ _ _ _ Hfind Hne) in Hres.
  unfold BeliefEngine.apply_normalize_sort in Hres.
  destruct (BeliefEngine.apply_updates py_float current updates) as [b1|e] eqn:Hloop;
    cbn [bind] in Hres; [|discriminate].
  inversion Hres; subst b'.
  apply sort_by_confidence_values. apply normalize_in_unit.
  exact (apply_updates_nonneg _ _ _ _ Hf Hnn Hloop).
Qed.

(** ** [get_diagnosis] and [get_confidence] *)

Lemma max_from_map {A : Type} (f : A -> Q) :
  forall (l : list A) (best : A),
    max_from (fun x => x) (f best) (map f l) = f (max_from f best l).
Proof.
  induction l as [|x l IH]; intro best; cbn [map max_from]; [reflexivity|].
  destruct (Qlt_bool (f best) (f x)); apply IH.
Qed.

Lemma get_confidence_of_diagnosis (b : beliefs) :
  snd (BeliefEngine.get_diagnosis b) = BeliefEngine.get_confidence b.
Proof.
  unfold BeliefEngine.get_diagnosis, BeliefEngine.get_confidence, PyDict.values.
  destruct b as [|x b]; cbn [py_max_by map]; [reflexivity|].
  rewrite max_from_map. destruct (max_from snd x b). reflexivity.
Qed.

Lemma get_confidence_upper_bound (b : beliefs) :
  forall c p, In (c, p) b -> p <= BeliefEngine.get_confidence b.
Proof.
  intros c p Hin. rewrite <- get_confidence_of_diagnosis.
  unfold BeliefEngine.get_diagnosis.
  destruct b as [|x b]; [destruct Hin|]. cbn [py_max_by].
  destruct (max_from_first_greatest snd b x) as (pre & post & Heq & Hpre & Hpost).
  rewrite Heq in Hin.
  destruct (max_from snd x b) as [c0 p0] eqn:E. cbn [snd] in *.
  apply in_app_or in Hin. destruct Hin as [Hin|[Hin|Hin]].
  - apply Qlt_le_weak. exact (Hpre _ Hin).
  - inversion Hin; subst. apply Qle_refl.
  - exact (Hpost _ Hin).
Qed.

Lemma get_diagnosis_in (b : beliefs) :
  b <> [] -> In (BeliefEngine.get_diagnosis b) b.
Proof.
  intro Hne. unfold BeliefEngine.get_diagnosis.
  destruct b as [|x b]; [congruence|]. cbn [py_max_by].
  destruct (max_from_first_greatest snd b x) as (pre & post & Heq & _ & _).
  destruct (max_from snd x b) as [c0 p0] eqn:E.
  rewrite Heq. apply in_or_app. right. left. reflexivity.
Qed.

(** X8: on a non-empty vector [get_diagnosis] returns an entry of the
    vector, its probability is the value [get_confidence] returns, and no
    entry has a greater one. *)
Theorem diagnosis_is_most_probable :
  forall (b : beliefs),
    b <> [] ->
    In (BeliefEngine.get_diagnosis b) b
    /\ snd (BeliefEngine.get_diagnosis b) = BeliefEngine.get_confidence b
    /\ forall c p, In (c, p) b -> p <= BeliefEngine.get_confidence b.
Proof.
  intros b Hne. split; [|split].
  - apply get_diagnosis_in. exact Hne.
  - apply get_confidence_of_diagnosis.
  - apply get_confidence_upper_bound.
Qed.

Lemma diagnosis_is_most_probable_witness :
  In (BeliefEngine.get_diagnosis Examples.beliefs_fan) Examples.beliefs_fan
  /\ snd (BeliefEngine.get_diagnosis Examples.beliefs_fan)
     = BeliefEngine.get_confidence Examples.beliefs_fan
  /\ forall c p, In (c, p) Examples.beliefs_fan ->
                 p <= BeliefEngine.get_confidence Examples.beliefs_fan.
Proof.
  apply (diagnosis_is_most_probable Examples.beliefs_fan). discriminate.
Defined.

Lemma max_from_head {A : Type} (key : A -> Q) :
  forall (rest : list A) (x : A),
    (forall y, In y rest -> key y <= key x) -> max_from key x rest = x.
Proof.
  induction rest as [|y rest IH]; intros x H; cbn [max_from]; [reflexivity|].
  assert (E : Qlt_bool (key x) (key y) = false).
  { apply Qlt_bool_false_iff. apply H. left. reflexivity. }
  rewrite E. apply IH. intros z Hz. apply H. right. exact Hz.
Qed.

(** X9: after the sort that ends [initialize_beliefs] and [update_beliefs]
    the top diagnosis is the first entry of the vector, also among equal
    probabilities, and the confidence is its probability. *)
Theorem diagnosis_of_sorted_is_first :
  forall (b : beliefs),
    BeliefEngine.get_diagnosis (BeliefEngine.sort_by_confidence b)
    = hd ("unknown", 0) (BeliefEngine.sort_by_confidence b)
    /\ BeliefEngine.get_confidence (BeliefEngine.sort_by_confidence b)
       = snd (hd ("unknown", 0) (BeliefEngine.sort_by_confidence b)).
Proof.
  intro b.
  assert (H : BeliefEngine.get_diagnosis (BeliefEngine.sort_by_confidence b)
              = hd ("unknown", 0) (BeliefEngine.sort_by_confidence b)).
  { pose proof (sort_by_confidence_sorted b) as Hs.
    destruct (BeliefEngine.sort_by_confidence b) as [|x rest]; [reflexivity|].
    unfold BeliefEngine.get_diagnosis. cbn [py_max_by hd].
    destruct Hs as [Hx _]. rewrite (max_from_head snd rest x Hx).
    destruct x. reflexivity. }
  split; [exact H|].
  rewrite <- get_confidence_of_diagnosis, H. reflexivity.
Qed.

(** ** What [select_next_question] returns *)

Lemma should_ask_true_inv :
  forall py_float self qid b pin asked,
    BeliefEngine.should_ask_question py_float self qid b pin asked = Ok (true, None) ->
    exists base,
      PyDict.get (BeliefEngine.base_questions self) qid = Some base
      /\ str_in qid asked = false
      /\ BeliefEngine.check_brand_confidence py_float (skip_if base) pin = Ok None
      /\ BeliefEngine.check_symptoms (skip_if base) pin = None
      /\ BeliefEngine.check_symptoms_absent (skip_if base) pin = None
      /\ BeliefEngine.check_visual (skip_if base) pin = None
      /\ BeliefEngine.check_gain base = None
      /\ BeliefEngine.affects_top_causes base b = true
      /\ BeliefEngine.check_saturation b = None.
Proof.
  intros py_float self qid b pin asked H.
  unfold BeliefEngine.should_ask_question in H.
  destruct (PyDict.get (BeliefEngine.base_questions self) qid) as [base|];
    [|discriminate].
  exists base. split; [reflexivity|].
  destruct (str_in qid asked); [discriminate|]. split; [reflexivity|].
  destruct (BeliefEngine.check_brand_confidence py_float (skip_if base) pin)
    as [brand|e]; cbn [bind] in H; [|discriminate].
  cbn [BeliefEngine.first_reason fold_right] in H.
  destruct brand; [discriminate|].
  destruct (BeliefEngine.check_symptoms (skip_if base) pin); [discriminate|].
  destruct (BeliefEngine.check_symptoms_absent (skip_if base) pin); [discriminate|].
  destruct (BeliefEngine.check_visual (skip_if base) pin); [discriminate|].
  destruct (BeliefEngine.check_gain base); [discriminate|].
  destruct (BeliefEngine.affects_top_causes base b); [|discriminate].
  destruct (BeliefEngine.check_saturation b); [discriminate|].
  repeat split; reflexivity.
Qed.

Lemma selected_in_valid :
  forall py_float self db b pin asked c q,
    BeliefEngine.select_next_question py_float self db b pin asked c = Ok (Some q) ->
    exists best valid,
      BeliefEngine.valid_questions py_float self b pin asked
        (BeliefEngine.candidate_questions self db asked c) = Ok valid
      /\ In best valid
      /\ q = BeliefEngine.fill_required self best.
Proof.
  intros py_float self db b pin asked c q H.
  unfold BeliefEngine.select_next_question in H.
  destruct (BeliefEngine.candidate_questions self db asked c) as [|q0 cands];
    [discriminate|].
  destruct (BeliefEngine.valid_questions py_float self b pin asked (q0 :: cands))
    as [valid|e] eqn:Hv; cbn [bind] in H; [|discriminate].
  destruct valid as [|v valid]; cbn [py_max_by] in H; [discriminate|].
  inversion H as [Hq].
  exists (max_from BeliefEngine.gain_key v valid), (v :: valid).
  split; [reflexivity|]. split; [|reflexivity].
  destruct (max_from_first_greatest BeliefEngine.gain_key valid v)
    as (pre & post & Heq & _ & _).
  rewrite Heq. apply in_or_app. right. left. reflexivity.
Qed.

Lemma fill_required_category :
  forall self q, category (BeliefEngine.fill_required self q) = category q.
Proof.
  intros self q. unfold BeliefEngine.fill_required.
  destruct (expected_signal q); [reflexivity|].
  destruct (PyDict.get (BeliefEngine.base_questions self) (id q)); reflexivity.
Qed.

(** X10: a question [select_next_question] returns has not been asked and
    is of the requested category. *)
Theorem selected_question_fresh_and_in_category :
  forall (py_float : string -> option Q) (self : BeliefEngine.self_t)
         (db : Database) (b : beliefs) (pin : processed_input_t)
         (asked : list string) (c : string) (q : question),
    BeliefEngine.select_next_question py_float self db b pin asked c = Ok (Some q) ->
    ~ In (id q) asked /\ category q = Some c.
Proof.
  intros py_float self db b pin asked c q H.
  destruct (selected_in_valid _ _ _ _ _ _ _ _ H) as (best & valid & Hv & Hin & Hq).
  subst q. rewrite fill_required_id, fill_required_category.
  destruct (valid_questions_in _ _ _ _ _ _ _ Hv _ Hin) as [Hcand Hask].
  split.
  - destruct (should_ask_true_inv _ _ _ _ _ _ Hask) as (base & _ & Hasked & _).
    intro Hx. apply str_in_true_iff in Hx. congruence.
  - apply candidate_questions_union in Hcand.
    destruct Hcand as [(k & _ & Hc & _)|(lq & _ & _ & Hc & _ & Hq)].
    + exact Hc.
    + subst best. cbn [BeliefEngine.learned_candidate category]. congruence.
Qed.

Lemma affects_top_causes_inv :
  forall base b,
    BeliefEngine.affects_top_causes base b = true ->
    exists answer updates cause,
      In (answer, updates) (belief_updates base)
      /\ In cause (PyDict.keys updates)
      /\ In cause (firstn 3 (PyDict.keys b)).
Proof.
  intros base b H. unfold BeliefEngine.affects_top_causes in H.
  apply existsb_exists in H. destruct H as ([answer updates] & Hin & H).
  apply existsb_exists in H. destruct H as (cause & Hc & H).
  apply str_in_true_iff in H. cbn [snd] in Hc.
  exists answer, updates, cause. auto.
Qed.

(** X11: a question [select_next_question] returns is stored as a base
    question whose gain estimate is at least 0.6 and whose update tables
    name one of the first three causes of the vector, and the confidence
    of the vector is at most 0.9; so the empty vector and a vector above
    0.9 get no question. *)
Theorem selected_question_passed_filters :
  forall (py_float : string -> option Q) (self : BeliefEngine.self_t)
         (db : Database) (b : beliefs) (pin : processed_input_t)
         (asked : list string) (c : string) (q : question),
    BeliefEngine.select_next_question py_float self db b pin asked c = Ok (Some q) ->
    exists base g,
      PyDict.get (BeliefEngine.base_questions self) (id q) = Some base
      /\ information_gain_estimate base = Some g /\ 0.6 <= g
      /\ (exists answer updates cause,
             In (answer, updates) (belief_updates base)
             /\ In cause (PyDict.keys updates)
             /\ In cause (firstn 3 (PyDict.keys b)))
      /\ BeliefEngine.get_confidence b <= 0.9
      /\ b <> [].
Proof.
  intros py_float self db b pin asked c q H.
  destruct (selected_in_valid _ _ _ _ _ _ _ _ H) as (best & valid & Hv & Hin & Hq).
  subst q. rewrite fill_required_id.
  destruct (valid_questions_in _ _ _ _ _ _ _ Hv _ Hin) as [_ Hask].
  destruct (should_ask_true_inv _ _ _ _ _ _ Hask)
    as (base & Hbase & _ & _ & _ & _ & _ & Hgain & Haff & Hsat).
  unfold BeliefEngine.check_gain in Hgain.
  destruct (information_gain_estimate base) as [g|] eqn:Hg.
  - exists base, g.
    destruct (Qlt_bool g 0.6) eqn:E; [discriminate|].
    apply Qlt_bool_false_iff in E.
    unfold BeliefEngine.check_saturation in Hsat.
    destruct (Qlt_bool 0.9 (BeliefEngine.get_confidence b)) eqn:E2; [discriminate|].
    apply Qlt_bool_false_iff in E2.
    pose proof (affects_top_causes_inv _ _ Haff) as Hrel.
    repeat split; auto.
    intro Hb. subst b.
    destruct Hrel as (_ & _ & cause & _ & _ & []).
  - exfalso. revert Hgain.
    change (Qlt_bool 0 0.6) with true. discriminate.
Qed.

Lemma unasked_shrinks (asked : list string) (k : string) :
  forall (ks : list string),
    (length (filter (fun x => negb (str_in x (asked ++ [k]))) ks)
     <= length (filter (fun x => negb (str_in x asked)) ks))%nat.
Proof.
  induction ks as [|x ks IH]; cbn [filter]; [apply le_n|].
  destruct (str_in x asked) eqn:E.
  - assert (E' : str_in x (asked ++ [k]) = true).
    { apply str_in_true_iff. apply in_or_app. left.
      apply str_in_true_iff. exact E. }
    rewrite E'. cbn [negb]. exact IH.
  - cbn [negb]. destruct (str_in x (asked ++ [k])); cbn [negb length]; lia.
Qed.

Lemma unasked_shrinks_strictly (asked : list string) (k : string) :
  forall (ks : list string),
    In k ks -> ~ In k asked ->
    (length (filter (fun x => negb (str_in x (asked ++ [k]))) ks)
     < length (filter (fun x => negb (str_in x asked)) ks))%nat.
Proof.
  induction ks as [|x ks IH]; intros Hin Hnot; [destruct Hin|].
  cbn [filter].
  destruct (string_dec x k) as [Heq|Hne].
  - subst x.
    assert (E : str_in k asked = false).
    { destruct (str_in k asked) eqn:E; [|reflexivity].
      apply str_in_true_iff in E. contradiction. }
    assert (E' : str_in k (asked ++ [k]) = true).
    { apply str_in_true_iff. apply in_or_app. right. left. reflexivity. }
    rewrite E, E'. cbn [negb length].
    pose proof (unasked_shrinks asked k ks). lia.
  - destruct Hin as [Hx|Hin]; [congruence|].
    specialize (IH Hin Hnot).
    destruct (str_in x asked) eqn:E.
    + assert (E' : str_in x (asked ++ [k]) = true).
      { apply str_in_true_iff. apply in_or_app. left.
        apply str_in_true_iff. exact E. }
      rewrite E'. cbn [negb]. exact IH.
    + cbn [negb]. destruct (str_in x (asked ++ [k])); cbn [negb length]; lia.
Qed.

(** X12: each question [select_next_question] returns, once added to the
    asked questions, leaves strictly fewer unasked base questions: asking
    what it returns comes to an end. *)
Theorem selecting_exhausts_base_questions :
  forall (py_float : string -> option Q) (self : BeliefEngine.self_t)
         (db : Database) (b : beliefs) (pin : processed_input_t)
         (asked : list string) (c : string) (q : question),
    BeliefEngine.select_next_question py_float self db b pin asked c = Ok (Some q) ->
    (length (unasked_base self (asked ++ [id q]))
     < length (unasked_base self asked))%nat.
Proof.
  intros py_float self db b pin asked c q H.
  unfold unasked_base. apply unasked_shrinks_strictly.
  - pose proof (selected_question_is_base _ _ _ _ _ _ _ _ H) as Hbase.
    destruct (PyDict.get (BeliefEngine.base_questions self) (id q)) as [base|] eqn:E;
      [|congruence].
    apply get_in_keys with base. exact E.
  - destruct (selected_in_valid _ _ _ _ _ _ _ _ H) as (best & valid & Hv & Hin & Hq).
    subst q. rewrite fill_required_id.
    destruct (valid_questions_in _ _ _ _ _ _ _ Hv _ Hin) as [_ Hask].
    destruct (should_ask_true_inv _ _ _ _ _ _ Hask) as (base & _ & Hasked & _).
    intro Hx. apply str_in_true_iff in Hx. congruence.
Qed.

(** ** [generate_text_question] *)

Lemma general_question_inv :
  forall asked qtext gain q,
    BeliefEngine.general_question asked qtext gain = Some q ->
    ~ In (id q) asked /\ expected_signal q = Some "text".
Proof.
  intros asked qtext gain q H. unfold BeliefEngine.general_question in H.
  cbv zeta in H.
  destruct (str_in _ asked) eqn:E; [discriminate|].
  inversion H; subst q. unfold BeliefEngine.text_question. cbn [id expected_signal].
  split; [|reflexivity].
  intro Hx. apply str_in_true_iff in Hx.
  exact (diff_true_false (eq_trans (eq_sym Hx) E)).
Qed.

Lemma general_question_fresh :
  forall asked qtext gain,
    ~ In ("text_general_" ++ str_of_nat (length asked))%string asked ->
    exists q, BeliefEngine.general_question asked qtext gain = Some q
              /\ expected_signal q = Some "text".
Proof.
  intros asked qtext gain Hfresh. unfold BeliefEngine.general_question.
  cbv zeta.
  destruct (str_in _ asked) eqn:E.
  - apply str_in_true_iff in E. contradiction.
  - eexists. split; reflexivity.
Qed.

(** X13: a question [generate_text_question] returns has an ID that is
    not among the asked ones and expects a text answer. *)
Theorem text_question_is_fresh :
  forall (b : beliefs) (asked : list string) (q : question),
    BeliefEngine.generate_text_question b asked = Some q ->
    ~ In (id q) asked /\ expected_signal q = Some "text".
Proof.
  intros b asked q H. unfold BeliefEngine.generate_text_question in H.
  destruct (BeliefEngine.sort_by_confidence b) as [|[tc tp] [|[sc sp] rest]];
    try (apply general_question_inv in H; exact H).
  destruct (Qlt_bool 0.75 tp); [discriminate|].
  match type of H with
  | match find ?f ?l with _ => _ end = _ => destruct (find f l) as [[[c1 c2] qtext]|] eqn:Hf
  end.
  - apply find_some in Hf. destruct Hf as [_ Hf].
    apply andb_true_iff in Hf. destruct Hf as [_ Hf].
    apply negb_true_iff in Hf.
    inversion H; subst q. unfold BeliefEngine.text_question. cbn [id expected_signal].
    split; [|reflexivity].
    intro Hx. apply str_in_true_iff in Hx.
    exact (diff_true_false (eq_trans (eq_sym Hx) Hf)).
  - apply general_question_inv in H. exact H.
Qed.

Lemma sort_by_confidence_in (b : beliefs) (x : string * Q) :
  In x (BeliefEngine.sort_by_confidence b) <-> In x b.
Proof.
  unfold BeliefEngine.sort_by_confidence. split; intro H.
  - exact (Permutation_in _ (sorted_desc_perm snd b) H).
  - exact (Permutation_in _ (Permutation_sym (sorted_desc_perm snd b)) H).
Qed.

Lemma text_question_when_low :
  forall (b : beliefs) (asked : list string),
    ~ In ("text_general_" ++ str_of_nat (length asked))%string asked ->
    (forall c p, In (c, p) b -> p <= 0.75) ->
    exists q, BeliefEngine.generate_text_question b asked = Some q
              /\ expected_signal q = Some "text".
Proof.
  intros b asked Hfresh Hlow. unfold BeliefEngine.generate_text_question.
  destruct (BeliefEngine.sort_by_confidence b) as [|[tc tp] [|[sc sp] rest]] eqn:Hs;
    try (apply general_question_fresh; exact Hfresh).
  assert (Htp : Qlt_bool 0.75 tp = false).
  { apply Qlt_bool_false_iff. apply (Hlow tc).
    apply sort_by_confidence_in. rewrite Hs. left. reflexivity. }
  rewrite Htp.
  match goal with
  | |- exists q, match find ?f ?l with _ => _ end = _ /\ _ =>
      destruct (find f l) as [[[c1 c2] qtext]|]
  end.
  - eexists. split; reflexivity.
  - apply general_question_fresh. exact Hfresh.
Qed.

Lemma low_confidence_entries (b : beliefs) (bound : Q) :
  BeliefEngine.get_confidence b <= bound ->
  forall c p, In (c, p) b -> p <= bound.
Proof.
  intros Hconf c p Hin.
  apply Qle_trans with (BeliefEngine.get_confidence b); [|exact Hconf].
  apply get_confidence_upper_bound with c. exact Hin.
Qed.

(** X14: when the general ID for the number of asked questions has not
    been asked and the confidence is at most 0.75, [generate_text_question]
    returns a question. *)
Theorem text_question_available :
  forall (b : beliefs) (asked : list string),
    ~ In ("text_general_" ++ str_of_nat (length asked))%string asked ->
    BeliefEngine.get_confidence b <= 0.75 ->
    exists q, BeliefEngine.generate_text_question b asked = Some q
              /\ expected_signal q = Some "text".
Proof.
  intros b asked Hfresh Hconf.
  apply text_question_when_low; [exact Hfresh|].
  intros c p Hin.
  apply Qle_trans with (BeliefEngine.get_confidence b); [|exact Hconf].
  apply get_confidence_upper_bound with c. exact Hin.
Qed.

(** X15: with two causes or more and a confidence above 0.75,
    [generate_text_question] returns no question. *)
Theorem text_question_none_when_confident :
  forall (b : beliefs) (asked : list string),
    (2 <= length b)%nat ->
    0.75 < BeliefEngine.get_confidence b ->
    BeliefEngine.generate_text_question b asked = None.
Proof.
  intros b asked Hlen Hconf. unfold BeliefEngine.generate_text_question.
  pose proof (sort_by_confidence_sorted b) as Hsorted.
  pose proof (Permutation_length (sorted_desc_perm snd b)) as Hl.
  fold (BeliefEngine.sort_by_confidence b) in Hl.
  destruct (BeliefEngine.sort_by_confidence b) as [|[tc tp] [|[sc sp] rest]] eqn:Hs;
    cbn [length] in Hl; try lia.
  assert (Htp : Qlt_bool 0.75 tp = true).
  { apply Qlt_bool_iff.
    apply Qlt_le_trans with (BeliefEngine.get_confidence b); [exact Hconf|].
    assert (Hne : b <> []) by (intro Hb; subst b; cbn in Hlen; lia).
    pose proof (get_diagnosis_in b Hne) as Hin.
    rewrite <- get_confidence_of_diagnosis.
    apply sort_by_confidence_in in Hin. rewrite Hs in Hin.
    destruct Hsorted as [Hx _].
    destruct Hin as [Hin|Hin].
    - rewrite <- Hin. apply Qle_refl.
    - exact (Hx _ Hin). }
  rewrite Htp. reflexivity.
Qed.

(** ** The two handlers *)

(** X16: [start_enhanced_diagnosis] stores a session and answers without
    error: "complete" with 5 tutorials when the initial confidence is at
    least 0.75, and otherwise "questioning" with a text question; its
    binary-question fallback and its "uncertain" answer are never
    reached. *)
Theorem start_is_complete_or_text_question :
  forall (py_float : string -> option Q) (math_exp : Q -> Q)
         (engine : BeliefEngine.self_t) (db : Database) (pin : processed_input_t),
    let b := BeliefEngine.initialize_beliefs math_exp engine db
               (pi_symptoms pin) (pi_visual_symptoms pin) (pi_category pin)
               (pi_brand pin) in
    exists s r,
      StartSession.start_enhanced_diagnosis py_float math_exp engine db pin
      = (Some s, Ok r)
      /\ Orchestrator.current_belief s = b
      /\ Orchestrator.asked_questions s = []
      /\ ((0.75 <= BeliefEngine.get_confidence b
           /\ Orchestrator.state r = Orchestrator.Complete
           /\ Orchestrator.tutorial_limit r = Some 5%nat)
          \/ (BeliefEngine.get_confidence b < 0.75
              /\ Orchestrator.state r = Orchestrator.Questioning
              /\ Orchestrator.confidence_history s
                 = Some [BeliefEngine.get_confidence b]
              /\ exists q, Orchestrator.next_question r = Some q
                           /\ expected_signal q = Some "text")).
Proof.
  intros py_float math_exp engine db pin b.
  unfold StartSession.start_enhanced_diagnosis. fold b.
  destruct (Qle_bool 0.75 (BeliefEngine.get_confidence b)) eqn:E.
  - apply Qle_bool_iff in E.
    eexists. eexists. split; [reflexivity|].
    repeat split. left. repeat split. exact E.
  - assert (Hlt : BeliefEngine.get_confidence b < 0.75).
    { apply Qlt_bool_iff. unfold Qlt_bool. rewrite E. reflexivity. }
    destruct (text_question_when_low b [] (fun H => H)
                (low_confidence_entries b 0.75 (Qlt_le_weak _ _ Hlt)))
      as (q & Hq & Hsig).
    rewrite Hq.
    eexists. eexists. split; [reflexivity|].
    repeat split. right. repeat split; [exact Hlt|].
    exists q. split; [reflexivity|exact Hsig].
Qed.

(** What the update returned, against the dict it was given as the call
    left it: the same vector, or that vector normalized and sorted. *)
Lemma update_beliefs_store_relation :
  forall py_float self db current qid answer updated,
    snd (BeliefEngine.update_beliefs py_float self db current qid answer)
    = Ok updated ->
    updated = fst (InPlace.update_beliefs_store py_float self db current qid answer)
    \/ updated
       = BeliefEngine.sort_by_confidence
           (BeliefEngine.normalize
              (fst (InPlace.update_beliefs_store py_float self db current qid answer))).
Proof.
  intros py_float self db current qid answer updated.
  rewrite <- update_beliefs_store_result.
  unfold InPlace.update_beliefs_store.
  destruct (snd (BeliefEngine.find_updates self db qid answer))
    as [[[|u us]|]|e]; cbn [fst snd]; try (intro H; inversion H; auto; fail).
  destruct (InPlace.apply_updates_store py_float current (u :: us)) as [store [e|]];
    cbn [fst snd]; intro H; inversion H; auto.
Qed.

Lemma update_store_relation :
  forall py_float engine db session a updated,
    Orchestrator.updated_belief_of py_float engine db session a = Ok updated ->
    updated = Orchestrator.update_store py_float engine db session a
    \/ updated
       = BeliefEngine.sort_by_confidence
           (BeliefEngine.normalize
              (Orchestrator.update_store py_float engine db session a)).
Proof.
  intros py_float engine db session a updated.
  unfold Orchestrator.updated_belief_of, Orchestrator.update_store.
  assert (Hsem :
    forall current q,
      Ok (BeliefEngine.update_beliefs_semantic current q (Orchestrator.answer a))
      = Ok updated ->
      updated = InPlace.update_beliefs_semantic_store current (Orchestrator.answer a)
      \/ updated
         = BeliefEngine.sort_by_confidence
             (BeliefEngine.normalize
                (InPlace.update_beliefs_semantic_store current
                   (Orchestrator.answer a)))).
  { intros current q H. inversion H.
    unfold BeliefEngine.update_beliefs_semantic,
      InPlace.update_beliefs_semantic_store.
    destruct (BeliefEngine.keyword_scores (lower (Orchestrator.answer a)));
      [left|right]; reflexivity. }
  destruct (Orchestrator.response_type a) as [rt|].
  - destruct (String.eqb rt "text" && _).
    + apply Hsem.
    + apply update_beliefs_store_relation.
  - apply update_beliefs_store_relation.
Qed.

(** The session the handler leaves after a recorded answer. *)
Lemma handle_answer_session :
  forall py_float engine db session a updated,
    Orchestrator.is_bypass (Orchestrator.answer a) = false ->
    Orchestrator.updated_belief_of py_float engine db session a = Ok updated ->
    let s' := fst (Orchestrator.handle_answer py_float engine db session a) in
    Orchestrator.asked_questions s'
    = Orchestrator.asked_questions session ++ [Orchestrator.question_id a]
    /\ Orchestrator.current_belief s' = updated
    /\ Orchestrator.confidence_history s'
       = Some (match Orchestrator.confidence_history session with
               | Some h => h | None => [] end
               ++ [BeliefEngine.get_confidence updated])
    /\ Orchestrator.initial_belief s'
       = (if Orchestrator.same_dict session
          then Orchestrator.update_store py_float engine db session a
          else Orchestrator.initial_belief session)
    /\ Orchestrator.same_dict s'
       = Orchestrator.same_dict session
         && Orchestrator.update_returns_argument engine db a.
Proof.
  intros py_float engine db session a updated Hbypass Hupd s'. subst s'.
  unfold Orchestrator.handle_answer. rewrite Hbypass, Hupd.
  cbv zeta.
  destruct (Orchestrator.confidence_stagnating _ && _); [repeat split|].
  destruct (Qle_bool 0.75 _); [repeat split|].
  destruct (Orchestrator.choose_next _ _ _ _) as [[q|]|e]; repeat split.
Qed.

(** X17: an answer that is not a bypass request and whose belief update
    succeeds is recorded in the session whatever the handler then answers,
    an error included: the question ID is appended to the asked questions,
    the confidence to the history, and the returned vector becomes the
    current belief.  The initial belief is kept only in a session whose
    two belief keys hold different dicts.  Where they hold one dict, as in
    every new session, the initial belief becomes the dict as the update
    left it, products included, and the current belief is that vector
    normalized and sorted, or that vector itself after a no-op. *)
Theorem answer_is_recorded :
  forall (py_float : string -> option Q) (engine : BeliefEngine.self_t)
         (db : Database) (session : Orchestrator.session_t)
         (a : Orchestrator.AnswerQuestionInput) (updated : beliefs),
    Orchestrator.is_bypass (Orchestrator.answer a) = false ->
    Orchestrator.updated_belief_of py_float engine db session a = Ok updated ->
    let s' := fst (Orchestrator.handle_answer py_float engine db session a) in
    Orchestrator.asked_questions s'
    = Orchestrator.asked_questions session ++ [Orchestrator.question_id a]
    /\ Orchestrator.current_belief s' = updated
    /\ Orchestrator.confidence_history s'
       = Some (match Orchestrator.confidence_history session with
               | Some h => h | None => [] end
               ++ [BeliefEngine.get_confidence updated])
    /\ (Orchestrator.same_dict session = false ->
        Orchestrator.initial_belief s' = Orchestrator.initial_belief session)
    /\ (Orchestrator.same_dict session = true ->
        Orchestrator.initial_belief s'
        = Orchestrator.update_store py_float engine db session a
        /\ (Orchestrator.current_belief s' = Orchestrator.initial_belief s'
            \/ Orchestrator.current_belief s'
               = BeliefEngine.sort_by_confidence
                   (BeliefEngine.normalize (Orchestrator.initial_belief s')))).
Proof.
  intros py_float engine db session a updated Hbypass Hupd s'.
  destruct (handle_answer_session py_float engine db session a updated Hbypass Hupd)
    as (Hasked & Hcur & Hhist & Hinit & _).
  fold s' in Hasked, Hcur, Hhist, Hinit.
  split; [exact Hasked|]. split; [exact Hcur|]. split; [exact Hhist|].
  split.
  - intro Hsame. rewrite Hinit, Hsame. reflexivity.
  - intro Hsame. rewrite Hsame in Hinit. split; [exact Hinit|].
    rewrite Hcur, Hinit. apply update_store_relation. exact Hupd.
Qed.

(** X18: as long as the general ID for the number of asked questions has
    not been asked, a recorded answer is followed by the stagnation escape,
    by "complete", or by a text question: the handler then raises nothing,
    never answers "no more questions" and never asks a binary question. *)
Theorem answer_is_followed_by_text_question :
  forall (py_float : string -> option Q) (engine : BeliefEngine.self_t)
         (db : Database) (session : Orchestrator.session_t)
         (a : Orchestrator.AnswerQuestionInput) (updated : beliefs),
    Orchestrator.is_bypass (Orchestrator.answer a) = false ->
    Orchestrator.updated_belief_of py_float engine db session a = Ok updated ->
    let asked := Orchestrator.asked_questions session ++ [Orchestrator.question_id a] in
    ~ In ("text_general_" ++ str_of_nat (length asked))%string asked ->
    exists r,
      snd (Orchestrator.handle_answer py_float engine db session a) = Ok r
      /\ ((Orchestrator.state r = Orchestrator.Uncertain
           /\ Orchestrator.action r = "confidence_stagnating_escape")
          \/ (Orchestrator.state r = Orchestrator.Complete
              /\ 0.75 <= BeliefEngine.get_confidence updated)
          \/ (Orchestrator.state r = Orchestrator.Questioning
              /\ exists q, Orchestrator.next_question r = Some q
                           /\ expected_signal q = Some "text")).
Proof.
  intros py_float engine db session a updated Hbypass Hupd asked Hfresh.
  unfold Orchestrator.handle_answer. rewrite Hbypass, Hupd.
  destruct (Orchestrator.confidence_stagnating _ && _).
  - eexists. split; [reflexivity|]. left. split; reflexivity.
  - destruct (Qle_bool 0.75 (BeliefEngine.get_confidence updated)) eqn:E.
    + apply Qle_bool_iff in E.
      eexists. split; [reflexivity|]. right. left. split; [reflexivity|exact E].
    + assert (Hlt : BeliefEngine.get_confidence updated < 0.75).
      { apply Qlt_bool_iff. unfold Qlt_bool. rewrite E. reflexivity. }
      unfold Orchestrator.choose_next.
      cbn [Orchestrator.record_answer Orchestrator.with_same_dict
           Orchestrator.after_update_call Orchestrator.current_belief
           Orchestrator.asked_questions].
      destruct (text_question_when_low updated asked Hfresh
                  (low_confidence_entries updated 0.75 (Qlt_le_weak _ _ Hlt)))
        as (q & Hq & Hsig).
      fold asked. rewrite Hq.
      eexists. split; [reflexivity|]. right. right. split; [reflexivity|].
      exists q. split; [reflexivity|exact Hsig].
Qed.

(** ** Descending lists *)

Section Descending.
Context {A : Type} (key : A -> Q).

Lemma insert_desc_descending (x : A) (l : list A) :
  descending_by key l -> descending_by key (insert_desc key x l).
Proof.
  induction l as [|y l IH]; cbn [insert_desc descending_by].
  - intros _. split; [intros z []|exact I].
  - intros [Hy Hl].
    destruct (Qlt_bool (key x) (key y)) eqn:E; cbn [descending_by].
    + apply Qlt_bool_iff in E. split; [|auto].
      intros z Hz.
      apply (Permutation_in _ (insert_desc_perm key x l)) in Hz.
      destruct Hz as [Hz|Hz]; [subst z; apply Qlt_le_weak; assumption|auto].
    + apply Qlt_bool_false_iff in E. repeat split; auto.
      intros z [Hz|Hz]; [subst z; assumption|].
      apply Qle_trans with (key y); auto.
Qed.

Lemma sorted_desc_descending (l : list A) :
  descending_by key (sorted_desc key l).
Proof.
  induction l as [|x l IH]; cbn [sorted_desc]; [exact I|].
  apply insert_desc_descending. exact IH.
Qed.

Lemma in_firstn (n : nat) (l : list A) (y : A) : In y (firstn n l) -> In y l.
Proof.
  revert n. induction l as [|z l IH]; intros [|n] Hy; cbn [firstn In] in *;
    try contradiction.
  destruct Hy as [Hy|Hy]; [left; exact Hy|right; exact (IH n Hy)].
Qed.

End Descending.

(** ** Lengths as numbers *)

Lemma len_nat_nonneg (n : nat) : 0 <= len_nat n.
Proof.
  unfold len_nat. change 0 with (inject_Z 0). rewrite <- Zle_Qle. lia.
Qed.

Lemma len_nat_le (n m : nat) : (n <= m)%nat -> len_nat n <= len_nat m.
Proof.
  intro H. unfold len_nat. rewrite <- Zle_Qle. lia.
Qed.

Lemma len_nat_pos (n : nat) : (0 < n)%nat -> 0 < len_nat n.
Proof.
  intro H. unfold len_nat. change 0 with (inject_Z 0). rewrite <- Zlt_Qlt. lia.
Qed.

(** ** The keyword stage *)

Lemma set_inter_le_union (a b : list string) :
  (length (set_inter a b) <= length (set_union a b))%nat.
Proof.
  unfold set_inter, set_union. rewrite length_app.
  pose proof (filter_length_le (fun x => str_in x b) a). lia.
Qed.

Lemma jaccard_in_unit (tk sk : list string) :
  in_unit (TutorialMatcher.jaccard tk sk).
Proof.
  unfold TutorialMatcher.jaccard, len.
  destruct (Qlt_bool 0 _) eqn:E.
  - apply Qlt_bool_iff in E.
    apply div_in_unit; [apply len_nat_nonneg| |exact E].
    apply len_nat_le. apply set_inter_le_union.
  - split; discriminate.
Qed.

Lemma jaccard_positive (tk sk : list string) :
  (exists kw, In kw tk /\ In kw sk) -> 0 < TutorialMatcher.jaccard tk sk.
Proof.
  unfold TutorialMatcher.jaccard, len. intros (kw & Ht & Hs).
  assert (Hin : In kw (set_inter (py_set tk) (py_set sk))).
  { apply set_inter_in. rewrite !py_set_in. auto. }
  assert (Hpos : (0 < length (set_inter (py_set tk) (py_set sk)))%nat).
  { destruct (set_inter (py_set tk) (py_set sk)); [destruct Hin|cbn; lia]. }
  assert (Hu : 0 < len_nat (length (set_union (py_set tk) (py_set sk)))).
  { apply len_nat_pos. pose proof (set_inter_le_union (py_set tk) (py_set sk)). lia. }
  rewrite (proj2 (Qlt_bool_iff _ _) Hu).
  apply Qlt_shift_div_l; [exact Hu|]. rewrite Qmult_0_l.
  apply len_nat_pos. exact Hpos.
Qed.

(** X20: the Jaccard score of two keyword lists lies between 0 and 1, is
    0 when the query has no keyword, and is positive when the lists share
    a keyword. *)
Theorem jaccard_range :
  forall (tutorial_keywords search_keywords : list string),
    in_unit (TutorialMatcher.jaccard tutorial_keywords search_keywords)
    /\ TutorialMatcher.jaccard tutorial_keywords [] == 0
    /\ ((exists kw, In kw tutorial_keywords /\ In kw search_keywords) ->
        0 < TutorialMatcher.jaccard tutorial_keywords search_keywords).
Proof.
  intros tk sk. split; [apply jaccard_in_unit|]. split; [|apply jaccard_positive].
  unfold TutorialMatcher.jaccard, len.
  assert (Hi : set_inter (py_set tk) (py_set []) = []).
  { unfold set_inter. cbn [py_set nodup].
    induction (py_set tk) as [|x l IH]; cbn [filter]; [reflexivity|].
    rewrite str_in_nil. exact IH. }
  rewrite Hi. cbn [length].
  destruct (Qlt_bool 0 _); [|reflexivity].
  unfold len_nat. cbn [Z.of_nat]. unfold Qdiv. ring.
Qed.

Lemma jaccard_range_witness :
  0 < TutorialMatcher.jaccard ["screen"; "cracked"] ["screen"].
Proof.
  apply (proj2 (proj2 (jaccard_range ["screen"; "cracked"] ["screen"]))).
  exists "screen". split; [left; reflexivity|left; reflexivity].
Defined.

Lemma keyword_query_row :
  forall db keywords brand limit r,
    In r (TutorialMatcher.keyword_query db keywords brand limit) ->
    In r (tutorials db)
    /\ (forall b, TutorialMatcher.truthy_brand brand = Some b -> t_brand r = b)
    /\ (keywords <> [] ->
        exists kw, In kw (t_keywords r) /\ In kw keywords).
Proof.
  intros db keywords brand limit r H.
  unfold TutorialMatcher.keyword_query in H.
  apply in_firstn in H. apply filter_In in H. destruct H as [Hin Hf].
  apply andb_true_iff in Hf. destruct Hf as [Hb Hk].
  split; [exact Hin|]. split.
  - intros b Hbrand. rewrite Hbrand in Hb. apply String.eqb_eq. exact Hb.
  - intro Hne. destruct keywords as [|k ks]; [congruence|].
    apply existsb_exists in Hk. destruct Hk as (kw & Hkw & Hs).
    apply str_in_true_iff in Hs. eauto.
Qed.

(** X21: the keyword stage returns at most [limit] results; each has the
    requested brand when a brand is given, shares a keyword with a
    non-empty query and then has a positive score, and has a score between
    0 and 1; a failing store gives no result. *)
Theorem keyword_search_results :
  forall (self : TutorialMatcher.self_t) (keywords : list string)
         (category : string) (brand : option string) (limit : nat),
    (length (TutorialMatcher._keyword_search self keywords category brand limit)
     <= limit)%nat
    /\ (TutorialMatcher.db_pool self = None ->
        TutorialMatcher._keyword_search self keywords category brand limit = [])
    /\ forall r,
         In r (TutorialMatcher._keyword_search self keywords category brand limit) ->
         (forall b, TutorialMatcher.truthy_brand brand = Some b ->
                    TutorialMatcher.brand (TutorialMatcher.k_info r) = b)
         /\ (keywords <> [] ->
             (exists kw, In kw (TutorialMatcher.keywords (TutorialMatcher.k_info r))
                         /\ In kw keywords)
             /\ 0 < TutorialMatcher.keyword_score r)
         /\ in_unit (TutorialMatcher.keyword_score r).
Proof.
  intros self keywords category brand limit.
  unfold TutorialMatcher._keyword_search.
  destruct (TutorialMatcher.db_pool self) as [db|].
  - split; [|split; [discriminate|]].
    + rewrite length_map. unfold TutorialMatcher.keyword_query.
      apply firstn_le_length.
    + intros r Hr. apply in_map_iff in Hr. destruct Hr as (row & Hr & Hrow).
      subst r. cbn [TutorialMatcher.k_info TutorialMatcher.keyword_score
                    TutorialMatcher.info_of_row TutorialMatcher.brand
                    TutorialMatcher.keywords].
      destruct (keyword_query_row _ _ _ _ _ Hrow) as (_ & Hbrand & Hkw).
      split; [exact Hbrand|]. split.
      * intro Hne. specialize (Hkw Hne). split; [exact Hkw|].
        apply jaccard_positive. exact Hkw.
      * apply jaccard_in_unit.
  - split; [cbn; lia|]. split; [reflexivity|]. intros r [].
Qed.

(** ** The vector stage *)

Lemma clamp0_nonneg (x : Q) : 0 <= TutorialMatcher.clamp0 x.
Proof.
  unfold TutorialMatcher.clamp0. destruct (Qlt_bool 0 x) eqn:E.
  - apply Qlt_le_weak. apply Qlt_bool_iff. exact E.
  - apply Qle_refl.
Qed.

Lemma weaviate_query_hit :
  forall w search_text where_brand k od,
    In od (TutorialMatcher.weaviate_query w search_text where_brand k) ->
    In (fst od) (TutorialMatcher.objects w)
    /\ snd od = TutorialMatcher.near_text_distance w search_text (fst od)
    /\ (forall b, where_brand = Some b ->
                  TutorialMatcher.brand (TutorialMatcher.w_info (fst od)) = b).
Proof.
  intros w search_text where_brand k od H.
  unfold TutorialMatcher.weaviate_query in H.
  apply in_firstn in H.
  apply (Permutation_in _ (sorted_desc_perm _ _)) in H.
  apply in_map_iff in H. destruct H as (o & Ho & Hin). subst od.
  apply filter_In in Hin. destruct Hin as [Hin Hf]. cbn [fst snd].
  repeat split; auto.
  intros b Hb. subst where_brand. apply String.eqb_eq. exact Hf.
Qed.

(** X22: the vector stage returns at most [k] results; each has the
    requested brand when a brand is given and a score that is not negative,
    and at most 1 when its distance is not negative; a failing index gives
    no result. *)
Theorem vector_search_results :
  forall (self : TutorialMatcher.self_t) (search_text category : string)
         (brand : option string) (k : nat),
    (length (TutorialMatcher._vector_search self search_text category brand k)
     <= k)%nat
    /\ (TutorialMatcher.weaviate_client self = None ->
        TutorialMatcher._vector_search self search_text category brand k = [])
    /\ forall r,
         In r (TutorialMatcher._vector_search self search_text category brand k) ->
         (forall b, TutorialMatcher.truthy_brand brand = Some b ->
                    TutorialMatcher.brand (TutorialMatcher.v_info r) = b)
         /\ 0 <= TutorialMatcher.vector_score r
         /\ ((forall w o, TutorialMatcher.weaviate_client self = Some w ->
                          0 <= TutorialMatcher.near_text_distance w search_text o) ->
             TutorialMatcher.vector_score r <= 1).
Proof.
  intros self search_text category brand k.
  unfold TutorialMatcher._vector_search.
  destruct (TutorialMatcher.weaviate_client self) as [w|].
  - split; [|split; [discriminate|]].
    + rewrite length_map. unfold TutorialMatcher.weaviate_query.
      apply firstn_le_length.
    + intros r Hr. apply in_map_iff in Hr. destruct Hr as (od & Hr & Hod).
      subst r. cbn [TutorialMatcher.v_info TutorialMatcher.vector_score].
      destruct (weaviate_query_hit _ _ _ _ _ Hod) as (_ & Hd & Hbrand).
      split; [exact Hbrand|]. split; [apply clamp0_nonneg|].
      intro Hdist. specialize (Hdist w (fst od) eq_refl). rewrite <- Hd in Hdist.
      unfold TutorialMatcher.clamp0.
      destruct (Qlt_bool 0 (1 - snd od)); [|discriminate].
      rewrite <- (Qplus_0_r 1) at 2. unfold Qminus.
      apply Qplus_le_compat; [apply Qle_refl|].
      change 0 with (- 0). apply Qopp_le_compat. exact Hdist.
  - split; [cbn; lia|]. split; [reflexivity|]. intros r [].
Qed.

(** ** Feedback re-ranking *)

Lemma len_nat_succ (n : nat) : len_nat (S n) == len_nat n + 1.
Proof.
  unfold len_nat. rewrite Nat2Z.inj_succ. unfold Z.succ.
  rewrite inject_Z_plus. reflexivity.
Qed.

Lemma py_sum_le_len (xs : list Q) :
  Forall in_unit xs -> py_sum xs <= len xs.
Proof.
  unfold len. induction 1 as [|x xs [_ Hx] Hxs IH].
  - apply Qle_refl.
  - rewrite py_sum_cons. cbn [length]. rewrite len_nat_succ. lra.
Qed.

Lemma avg_in_unit (xs : list Q) :
  Forall in_unit xs -> xs <> [] -> in_unit (py_sum xs / len xs).
Proof.
  intros H Hne. apply div_in_unit.
  - apply py_sum_nonneg. apply Forall_impl with (2 := H). intros x [Hx _]. exact Hx.
  - apply py_sum_le_len. exact H.
  - unfold len. apply len_nat_pos. destruct xs; [congruence|cbn; lia].
Qed.

Lemma avg_map_in_unit {A : Type} (g : A -> Q) (l : list A) :
  l <> [] -> (forall x, In x l -> in_unit (g x)) ->
  in_unit (py_sum (map g l) / len l).
Proof.
  intros Hne Hg.
  replace (len l) with (len (map g l))
    by (unfold len; rewrite length_map; reflexivity).
  apply avg_in_unit.
  - apply Forall_forall. intros x Hx. apply in_map_iff in Hx.
    destruct Hx as (y & Hy & Hin). subst x. apply Hg. exact Hin.
  - destruct l; [congruence|discriminate].
Qed.

Lemma py_or_in_unit (x : option Q) (default : Q) :
  (forall v, x = Some v -> in_unit v) -> in_unit default ->
  in_unit (TutorialMatcher.py_or x default).
Proof.
  intros Hx Hd. unfold TutorialMatcher.py_or.
  destruct x as [v|]; [|exact Hd].
  destruct (Qeq_bool v 0); [exact Hd|]. apply Hx. reflexivity.
Qed.

Lemma feedback_query_in_unit :
  forall db tid count success rating,
    ratings_in_range db ->
    TutorialMatcher.feedback_query db tid = (count, success, rating) ->
    (forall v, success = Some v -> in_unit v)
    /\ (forall v, rating = Some v -> in_unit v).
Proof.
  intros db tid count success rating Hrange H.
  unfold TutorialMatcher.feedback_query in H.
  destruct (filter _ (user_feedback db)) as [|f rows] eqn:Hrows.
  - inversion H; subst. split; intros v Hv; discriminate.
  - assert (Hin : forall x, In x (f :: rows) -> In x (user_feedback db)).
    { intros x Hx. rewrite <- Hrows in Hx. apply filter_In in Hx. tauto. }
    pose proof (f_equal (fun t => snd (fst t)) H) as Hs.
    pose proof (f_equal snd H) as Hr.
    cbn [fst snd] in Hs, Hr. subst success rating.
    split; intros v Hv; injection Hv as <-.
    + apply (avg_map_in_unit (fun f0 => if f_solved_problem f0 then 1 else 0)
               (f :: rows)); [discriminate|].
      intros y _. destruct (f_solved_problem y); split; discriminate.
    + apply (avg_map_in_unit
               (fun f0 => (f_clarity_rating f0 + f_accuracy_rating f0) / 10)
               (f :: rows)); [discriminate|].
      intros y Hyin.
      destruct (Hrange y (Hin y Hyin)) as [[Hc0 Hc5] [Ha0 Ha5]].
      apply div_in_unit; [lra|lra|reflexivity].
Qed.

Lemma rerank_one_bounds :
  forall self db r,
    ratings_in_range db ->
    0 <= TutorialMatcher.gamma self ->
    0 <= TutorialMatcher.hybrid_score r ->
    TutorialMatcher.hybrid_score (TutorialMatcher.rerank_one self db r)
    = TutorialMatcher.hybrid_score r
    /\ TutorialMatcher.r_info (TutorialMatcher.rerank_one self db r)
       = TutorialMatcher.r_info r
    /\ exists f,
         TutorialMatcher.final_score (TutorialMatcher.rerank_one self db r) = Some f
         /\ TutorialMatcher.hybrid_score r <= f
         /\ f <= TutorialMatcher.hybrid_score r * (1 + TutorialMatcher.gamma self).
Proof.
  intros self db r Hrange Hg Hh. unfold TutorialMatcher.rerank_one.
  destruct (TutorialMatcher.feedback_query db _) as [[count success] rating] eqn:Hq.
  destruct (feedback_query_in_unit _ _ _ _ _ Hrange Hq) as [Hs Hr].
  assert (H1 : in_unit (TutorialMatcher.py_or success 0)).
  { apply py_or_in_unit; [exact Hs|]. split; discriminate. }
  assert (H2 : in_unit (TutorialMatcher.py_or rating 0.5)).
  { apply py_or_in_unit; [exact Hr|]. split; discriminate. }
  destruct H1 as [H1a H1b]. destruct H2 as [H2a H2b].
  destruct (0 <? count)%Z; cbn [TutorialMatcher.hybrid_score TutorialMatcher.r_info
                                TutorialMatcher.final_score].
  - split; [reflexivity|]. split; [reflexivity|].
    eexists. split; [reflexivity|].
    set (h := TutorialMatcher.hybrid_score r) in *.
    set (g := TutorialMatcher.gamma self) in *.
    set (fs := (TutorialMatcher.py_or success 0 + TutorialMatcher.py_or rating 0.5) / 2).
    assert (Hfs : 0 <= fs /\ fs <= 1).
    { unfold fs. split.
      - apply Qle_shift_div_l; [reflexivity|]. lra.
      - apply Qle_shift_div_r; [reflexivity|]. lra. }
    destruct Hfs as [Hf0 Hf1].
    assert (H3 : 0 <= g * fs) by (apply Qmult_le_0_compat; assumption).
    assert (H4 : 0 <= h * (g * fs)) by (apply Qmult_le_0_compat; assumption).
    assert (H5 : 0 <= g * (1 - fs)) by (apply Qmult_le_0_compat; [assumption|lra]).
    assert (H6 : 0 <= h * (g * (1 - fs))) by (apply Qmult_le_0_compat; assumption).
    split; lra.
  - split; [reflexivity|]. split; [reflexivity|].
    eexists. split; [reflexivity|].
    set (h := TutorialMatcher.hybrid_score r) in *.
    set (g := TutorialMatcher.gamma self) in *.
    assert (H3 : 0 <= h * g) by (apply Qmult_le_0_compat; assumption).
    split; lra.
Qed.

Lemma feedback_reranking_origin :
  forall self results r',
    In r' (TutorialMatcher._feedback_reranking self results) ->
    exists r, In r results
              /\ ((exists db, TutorialMatcher.db_pool self = Some db
                              /\ r' = TutorialMatcher.rerank_one self db r)
                  \/ (TutorialMatcher.db_pool self = None
                      /\ r' = TutorialMatcher.keep_original r)).
Proof.
  intros self results r' H. unfold TutorialMatcher._feedback_reranking in H.
  destruct (TutorialMatcher.db_pool self) as [db|].
  - apply (Permutation_in _ (sorted_desc_perm _ _)) in H.
    apply in_map_iff in H. destruct H as (r & Hr & Hin).
    exists r. split; [exact Hin|]. left. exists db. auto.
  - apply in_map_iff in H. destruct H as (r & Hr & Hin).
    exists r. split; [exact Hin|]. right. auto.
Qed.

(** X23: with ratings between 0 and 5, a weight gamma that is not
    negative and hybrid scores that are not negative, every result of
    [_feedback_reranking] has a final score between its hybrid score and
    its hybrid score times (1 + gamma), also when the feedback store
    fails. *)
Theorem feedback_amplification_bounds :
  forall (self : TutorialMatcher.self_t) (results : list TutorialMatcher.ranked)
         (r' : TutorialMatcher.ranked),
    (forall db, TutorialMatcher.db_pool self = Some db -> ratings_in_range db) ->
    0 <= TutorialMatcher.gamma self ->
    (forall r, In r results -> 0 <= TutorialMatcher.hybrid_score r) ->
    In r' (TutorialMatcher._feedback_reranking self results) ->
    exists f,
      TutorialMatcher.final_score r' = Some f
      /\ TutorialMatcher.hybrid_score r' <= f
      /\ f <= TutorialMatcher.hybrid_score r' * (1 + TutorialMatcher.gamma self).
Proof.
  intros self results r' Hrange Hg Hh Hin.
  destruct (feedback_reranking_origin _ _ _ Hin)
    as (r & Hr & [(db & Hdb & Heq)|(Hdb & Heq)]); subst r'.
  - destruct (rerank_one_bounds self db r (Hrange db Hdb) Hg (Hh r Hr))
      as (Hhy & _ & f & Hf & Hlo & Hhi).
    exists f. rewrite Hhy. auto.
  - cbn [TutorialMatcher.keep_original TutorialMatcher.final_score
         TutorialMatcher.hybrid_score].
    eexists. split; [reflexivity|].
    specialize (Hh r Hr).
    set (h := TutorialMatcher.hybrid_score r) in *.
    set (g := TutorialMatcher.gamma self) in *.
    assert (H3 : 0 <= h * g) by (apply Qmult_le_0_compat; assumption).
    split; lra.
Qed.

Lemma rerank_one_keeps :
  forall self db r,
    (TutorialMatcher.r_info (TutorialMatcher.rerank_one self db r),
     TutorialMatcher.hybrid_score (TutorialMatcher.rerank_one self db r))
    = (TutorialMatcher.r_info r, TutorialMatcher.hybrid_score r).
Proof.
  intros self db r. unfold TutorialMatcher.rerank_one.
  destruct (TutorialMatcher.feedback_query db _) as [[count success] rating].
  destruct (0 <? count)%Z; reflexivity.
Qed.

(** X24: [_feedback_reranking] returns the results it was given, each
    with its tutorial and its hybrid score, in another order at most, and
    in the given order when the feedback store fails. *)
Theorem feedback_reranking_reorders :
  forall (self : TutorialMatcher.self_t) (results : list TutorialMatcher.ranked),
    let kept := fun r : TutorialMatcher.ranked =>
                  (TutorialMatcher.r_info r, TutorialMatcher.hybrid_score r) in
    Permutation (map kept (TutorialMatcher._feedback_reranking self results))
                (map kept results)
    /\ (TutorialMatcher.db_pool self = None ->
        map kept (TutorialMatcher._feedback_reranking self results)
        = map kept results).
Proof.
  intros self results kept. unfold TutorialMatcher._feedback_reranking.
  destruct (TutorialMatcher.db_pool self) as [db|].
  - split; [|congruence].
    rewrite (Permutation_map kept (sorted_desc_perm _ _)).
    rewrite map_map.
    rewrite (map_ext _ kept (rerank_one_keeps self db)). reflexivity.
  - assert (H : map kept (map TutorialMatcher.keep_original results)
                = map kept results).
    { rewrite map_map. apply map_ext. intro r. reflexivity. }
    split; [rewrite H; reflexivity|]. intros _. exact H.
Qed.

(** ** Hybrid scoring and the whole search *)

Lemma find_rev_some {A : Type} (p : A -> bool) (l : list A) (x : A) :
  find p (rev l) = Some x -> In x l /\ p x = true.
Proof.
  intro H. apply find_some in H. destruct H as [Hin Hp].
  split; [apply in_rev; exact Hin|exact Hp].
Qed.

Lemma find_rev_found {A : Type} (p : A -> bool) (l : list A) (x : A) :
  In x l -> p x = true -> exists y, find p (rev l) = Some y.
Proof.
  intros Hin Hp. destruct (find p (rev l)) as [y|] eqn:E; [eauto|].
  exfalso. apply in_rev in Hin.
  pose proof (find_none _ _ E x Hin) as Hf. congruence.
Qed.

Section HybridFacts.
Variable set_iter : list Z -> list Z.
Variable self : TutorialMatcher.self_t.
Variable vr : list TutorialMatcher.vector_result.
Variable kr : list TutorialMatcher.keyword_result.

Let vids := map (fun r => TutorialMatcher.tutorial_id (TutorialMatcher.v_info r)) vr.
Let kids := map (fun r => TutorialMatcher.tutorial_id (TutorialMatcher.k_info r)) kr.

Lemma hybrid_one_inv :
  forall t r,
    HybridSearch.hybrid_one self vr kr t = Some r ->
    tid_of r = t
    /\ ((exists v, In v vr /\ TutorialMatcher.r_info r = TutorialMatcher.v_info v)
        \/ (exists k, In k kr /\ TutorialMatcher.r_info r = TutorialMatcher.k_info k))
    /\ (TutorialMatcher.r_vector_score r = 0
        \/ exists v, In v vr
                     /\ TutorialMatcher.r_vector_score r = TutorialMatcher.vector_score v)
    /\ (TutorialMatcher.r_keyword_score r = 0
        \/ exists k, In k kr
                     /\ TutorialMatcher.r_keyword_score r
                        = TutorialMatcher.keyword_score k)
    /\ TutorialMatcher.hybrid_score r
       = TutorialMatcher.beta self * TutorialMatcher.r_vector_score r
         + (1 - TutorialMatcher.beta self) * TutorialMatcher.r_keyword_score r.
Proof.
  intros t r H. unfold HybridSearch.hybrid_one in H. unfold tid_of.
  destruct (HybridSearch.vector_lookup vr t) as [v|] eqn:Hv;
    destruct (HybridSearch.keyword_lookup kr t) as [k|] eqn:Hk;
    try discriminate; inversion H; subst r; clear H;
    unfold HybridSearch.mk_ranked;
    cbn [TutorialMatcher.r_info TutorialMatcher.r_vector_score
         TutorialMatcher.r_keyword_score TutorialMatcher.hybrid_score].
  - apply find_rev_some in Hv. destruct Hv as [Hv Hvt].
    apply find_rev_some in Hk. destruct Hk as [Hk Hkt].
    apply Z.eqb_eq in Hvt.
    repeat split; eauto.
  - apply find_rev_some in Hv. destruct Hv as [Hv Hvt].
    apply Z.eqb_eq in Hvt.
    repeat split; eauto.
  - apply find_rev_some in Hk. destruct Hk as [Hk Hkt].
    apply Z.eqb_eq in Hkt.
    repeat split; eauto.
Qed.

Lemma hybrid_one_found :
  forall t, In t vids \/ In t kids ->
            exists r, HybridSearch.hybrid_one self vr kr t = Some r.
Proof.
  intros t Ht. unfold HybridSearch.hybrid_one.
  destruct (HybridSearch.vector_lookup vr t) as [v|] eqn:Hv; [eauto|].
  destruct (HybridSearch.keyword_lookup kr t) as [k|] eqn:Hk; [eauto|].
  exfalso. destruct Ht as [Ht|Ht]; apply in_map_iff in Ht;
    destruct Ht as (x & Hx & Hin).
  - destruct (find_rev_found
                (fun r => Z.eqb (TutorialMatcher.tutorial_id (TutorialMatcher.v_info r)) t)
                vr x Hin (proj2 (Z.eqb_eq _ _) Hx)) as [y Hy].
    unfold HybridSearch.vector_lookup in Hv. congruence.
  - destruct (find_rev_found
                (fun r => Z.eqb (TutorialMatcher.tutorial_id (TutorialMatcher.k_info r)) t)
                kr x Hin (proj2 (Z.eqb_eq _ _) Hx)) as [y Hy].
    unfold HybridSearch.keyword_lookup in Hk. congruence.
Qed.

Let scored (t : Z) : list TutorialMatcher.ranked :=
  match HybridSearch.hybrid_one self vr kr t with
  | Some r => [r]
  | None => []
  end.

Lemma scored_ids :
  forall ids, (forall t, In t ids -> In t vids \/ In t kids) ->
              map tid_of (flat_map scored ids) = ids.
Proof.
  induction ids as [|t ids IH]; intro H; cbn [flat_map map]; [reflexivity|].
  rewrite map_app, IH by (intros t' Ht'; apply H; right; exact Ht').
  destruct (hybrid_one_found t (H t (or_introl eq_refl))) as [r Hr].
  unfold scored at 1. rewrite Hr. cbn [map app].
  destruct (hybrid_one_inv t r Hr) as [Ht _]. rewrite Ht. reflexivity.
Qed.

Hypothesis set_iter_is_a_set :
  forall l, NoDup (set_iter l) /\ forall x, In x (set_iter l) <-> In x l.

Lemma hybrid_scoring_ids :
  Permutation (map tid_of (HybridSearch._hybrid_scoring set_iter self vr kr))
              (set_iter (vids ++ kids)).
Proof.
  unfold HybridSearch._hybrid_scoring.
  rewrite (Permutation_map tid_of (sorted_desc_perm _ _)).
  fold scored. unfold HybridSearch.all_ids. fold vids kids.
  rewrite scored_ids; [reflexivity|].
  intros t Ht. apply (proj1 (proj2 (set_iter_is_a_set _) t)) in Ht.
  apply in_app_or. exact Ht.
Qed.

Lemma hybrid_scoring_in :
  forall r, In r (HybridSearch._hybrid_scoring set_iter self vr kr) ->
            exists t, HybridSearch.hybrid_one self vr kr t = Some r.
Proof.
  intros r Hr. unfold HybridSearch._hybrid_scoring in Hr.
  apply (Permutation_in _ (sorted_desc_perm _ _)) in Hr.
  apply in_flat_map in Hr. destruct Hr as (t & _ & Hr).
  exists t. destruct (HybridSearch.hybrid_one self vr kr t) as [r0|];
    [|destruct Hr].
  destruct Hr as [Hr|[]]. congruence.
Qed.
End HybridFacts.

Lemma convex_in_unit (beta v k : Q) :
  in_unit beta -> in_unit v -> in_unit k -> in_unit (beta * v + (1 - beta) * k).
Proof.
  intros [Hb0 Hb1] [Hv0 Hv1] [Hk0 Hk1].
  assert (H1 : 0 <= beta * v) by (apply Qmult_le_0_compat; assumption).
  assert (H2 : 0 <= beta * (1 - v)) by (apply Qmult_le_0_compat; [assumption|lra]).
  assert (H3 : 0 <= (1 - beta) * k) by (apply Qmult_le_0_compat; [lra|assumption]).
  assert (H4 : 0 <= (1 - beta) * (1 - k)) by (apply Qmult_le_0_compat; lra).
  split; lra.
Qed.

(** X25: whatever order Python iterates over the set of IDs in,
    [_hybrid_scoring] returns one result for each tutorial ID of the two
    stages and no other, in descending order of hybrid score; with a
    weight beta and stage scores between 0 and 1, each hybrid score lies
    between 0 and 1. *)
Theorem hybrid_scoring_results :
  forall (set_iter : list Z -> list Z) (self : TutorialMatcher.self_t)
         (vr : list TutorialMatcher.vector_result)
         (kr : list TutorialMatcher.keyword_result),
    (forall l, NoDup (set_iter l) /\ forall x, In x (set_iter l) <-> In x l) ->
    let out := HybridSearch._hybrid_scoring set_iter self vr kr in
    NoDup (map tid_of out)
    /\ (forall t,
          In t (map tid_of out)
          <-> In t (map (fun r => TutorialMatcher.tutorial_id (TutorialMatcher.v_info r)) vr)
              \/ In t (map (fun r => TutorialMatcher.tutorial_id (TutorialMatcher.k_info r)) kr))
    /\ descending_by TutorialMatcher.hybrid_score out
    /\ (in_unit (TutorialMatcher.beta self) ->
        (forall v, In v vr -> in_unit (TutorialMatcher.vector_score v)) ->
        (forall k, In k kr -> in_unit (TutorialMatcher.keyword_score k)) ->
        forall r, In r out -> in_unit (TutorialMatcher.hybrid_score r)).
Proof.
  intros set_iter self vr kr Hset out. subst out.
  pose proof (hybrid_scoring_ids set_iter self vr kr Hset) as Hperm.
  split; [|split; [|split]].
  - apply (Permutation_NoDup (Permutation_sym Hperm)). apply Hset.
  - intro t. split; intro H.
    + apply (Permutation_in _ Hperm) in H.
      apply (proj1 (proj2 (Hset _) t)) in H.
      apply in_app_or. exact H.
    + apply (Permutation_in _ (Permutation_sym Hperm)).
      apply (proj2 (proj2 (Hset _) t)).
      apply in_or_app. exact H.
  - unfold HybridSearch._hybrid_scoring. apply sorted_desc_descending.
  - intros Hbeta Hv Hk r Hr.
    destruct (hybrid_scoring_in _ _ _ _ _ Hr) as [t Ht].
    destruct (hybrid_one_inv self vr kr t r Ht) as (_ & _ & Hvs & Hks & Heq).
    rewrite Heq. apply convex_in_unit; [exact Hbeta| |].
    + destruct Hvs as [H0|(v & Hin & Hs)]; rewrite ?H0, ?Hs;
        [split; discriminate|auto].
    + destruct Hks as [H0|(k & Hin & Hs)]; rewrite ?H0, ?Hs;
        [split; discriminate|auto].
Qed.

Lemma NoDup_firstn {A : Type} (n : nat) (l : list A) :
  NoDup l -> NoDup (firstn n l).
Proof.
  revert n. induction l as [|x l IH]; intros [|n] H; cbn [firstn];
    try constructor.
  - inversion H as [|? ? Hx Hl]; subst. intro Hin. apply Hx.
    exact (in_firstn n l x Hin).
  - inversion H; subst. apply IH. assumption.
Qed.

Lemma feedback_reranking_ids :
  forall self results,
    Permutation (map tid_of (TutorialMatcher._feedback_reranking self results))
                (map tid_of results).
Proof.
  intros self results. unfold TutorialMatcher._feedback_reranking.
  destruct (TutorialMatcher.db_pool self) as [db|].
  - rewrite (Permutation_map tid_of (sorted_desc_perm _ _)).
    rewrite map_map.
    rewrite (map_ext _ tid_of
               (fun r => f_equal (fun p : TutorialMatcher.tutorial_info * Q =>
                                    TutorialMatcher.tutorial_id (fst p))
                                 (rerank_one_keeps self db r))).
    reflexivity.
  - rewrite map_map. reflexivity.
Qed.

Lemma vector_search_brand :
  forall self search_text category brand k v b,
    In v (TutorialMatcher._vector_search self search_text category brand k) ->
    TutorialMatcher.truthy_brand brand = Some b ->
    TutorialMatcher.brand (TutorialMatcher.v_info v) = b.
Proof.
  intros self search_text category brand k v b Hv Hb.
  unfold TutorialMatcher._vector_search in Hv.
  destruct (TutorialMatcher.weaviate_client self) as [w|]; [|destruct Hv].
  apply in_map_iff in Hv. destruct Hv as (od & Hv & Hod). subst v.
  destruct (weaviate_query_hit _ _ _ _ _ Hod) as (_ & _ & Hbrand).
  exact (Hbrand b Hb).
Qed.

Lemma keyword_search_brand :
  forall self keywords category brand limit k b,
    In k (TutorialMatcher._keyword_search self keywords category brand limit) ->
    TutorialMatcher.truthy_brand brand = Some b ->
    TutorialMatcher.brand (TutorialMatcher.k_info k) = b.
Proof.
  intros self keywords category brand limit k b Hk Hb.
  unfold TutorialMatcher._keyword_search in Hk.
  destruct (TutorialMatcher.db_pool self) as [db|]; [|destruct Hk].
  apply in_map_iff in Hk. destruct Hk as (row & Hk & Hrow). subst k.
  destruct (keyword_query_row _ _ _ _ _ Hrow) as (_ & Hbrand & _).
  exact (Hbrand b Hb).
Qed.

(** X26: the whole search returns at most [limit] results; when a brand
    is given every result is a tutorial of that brand; and, whatever order
    Python iterates over the set of IDs in, no tutorial is returned
    twice. *)
Theorem search_tutorials_hybrid_results :
  forall (set_iter : list Z -> list Z) (self : TutorialMatcher.self_t)
         (diagnosis : string) (symptoms keywords : list string)
         (category : string) (brand : option string) (limit : nat),
    let out := HybridSearch.search_tutorials_hybrid set_iter self diagnosis
                 symptoms keywords category brand limit in
    (length out <= limit)%nat
    /\ (forall r b, In r out ->
                    TutorialMatcher.truthy_brand brand = Some b ->
                    TutorialMatcher.brand (TutorialMatcher.r_info r) = b)
    /\ ((forall l, NoDup (set_iter l) /\ forall x, In x (set_iter l) <-> In x l) ->
        NoDup (map tid_of out)).
Proof.
  intros set_iter self diagnosis symptoms keywords category brand limit out.
  subst out. unfold HybridSearch.search_tutorials_hybrid.
  split; [apply firstn_le_length|]. split.
  - intros r b Hr Hb. apply in_firstn in Hr.
    destruct (feedback_reranking_origin _ _ _ Hr) as (r0 & Hr0 & Horigin).
    assert (Hinfo : TutorialMatcher.r_info r = TutorialMatcher.r_info r0).
    { destruct Horigin as [(db & _ & Heq)|(_ & Heq)]; subst r.
      - exact (f_equal fst (rerank_one_keeps self db r0)).
      - reflexivity. }
    rewrite Hinfo.
    destruct (hybrid_scoring_in _ _ _ _ _ Hr0) as [t Ht].
    destruct (hybrid_one_inv _ _ _ _ _ Ht) as (_ & [(v & Hv & Hi)|(k & Hk & Hi)] & _);
      rewrite Hi.
    + unfold TutorialMatcher.retrieval_stages in Hv. cbn [fst] in Hv.
      exact (vector_search_brand _ _ _ _ _ _ _ Hv Hb).
    + unfold TutorialMatcher.retrieval_stages in Hk. cbn [snd] in Hk.
      exact (keyword_search_brand _ _ _ _ _ _ _ Hk Hb).
  - intro Hset. rewrite <- firstn_map. apply NoDup_firstn.
    apply (Permutation_NoDup (Permutation_sym (feedback_reranking_ids _ _))).
    apply (Permutation_NoDup
             (Permutation_sym (hybrid_scoring_ids set_iter self _ _ Hset))).
    apply Hset.
Qed.

(** ** The free-text update *)

Lemma semantic_update_keys :
  forall (b : beliefs) (cs : string * nat) (k : string),
    (In k (PyDict.keys b) -> In k (PyDict.keys (BeliefEngine.semantic_update b cs)))
    /\ (In k (PyDict.keys (BeliefEngine.semantic_update b cs)) ->
        In k (PyDict.keys b) \/ (k = fst cs /\ (2 <= snd cs)%nat)).
Proof.
  intros b [cause score] k. unfold BeliefEngine.semantic_update. cbn [fst snd].
  destruct (PyDict.get b cause) as [old|] eqn:Hget.
  - rewrite (keys_set_present b cause _ old Hget). auto.
  - destruct (2 <=? score)%nat eqn:E; [|auto].
    apply Nat.leb_le in E. split.
    + intro H. apply in_set_keys. left. exact H.
    + intro H. apply in_set_keys in H. destruct H as [H|H]; auto.
Qed.

Lemma keyword_scores_in :
  forall answer_lower cause score,
    In (cause, score) (BeliefEngine.keyword_scores answer_lower) ->
    exists kws, In (cause, kws) BeliefEngine.symptom_keywords
                /\ score = length (filter (fun kw => contains kw answer_lower) kws).
Proof.
  intros answer_lower cause score H. unfold BeliefEngine.keyword_scores in H.
  apply filter_In in H. destruct H as [H _].
  apply in_map_iff in H. destruct H as ([c kws] & Heq & Hin).
  cbn [fst snd] in Heq. inversion Heq; subst. eauto.
Qed.

(** X27: [update_beliefs_semantic] drops no cause, and a cause it adds is
    a cause of its keyword table of which the lower-cased answer contains
    at least two keywords. *)
Theorem semantic_update_causes :
  forall (current : beliefs) (question_text answer_text : string) (k : string),
    (In k (PyDict.keys current) ->
     In k (PyDict.keys
             (BeliefEngine.update_beliefs_semantic current question_text answer_text)))
    /\ (In k (PyDict.keys
                (BeliefEngine.update_beliefs_semantic current question_text answer_text)) ->
        In k (PyDict.keys current)
        \/ exists kws,
             In (k, kws) BeliefEngine.symptom_keywords
             /\ (2 <= length (filter (fun kw => contains kw (lower answer_text)) kws))%nat).
Proof.
  intros current question_text answer_text k.
  unfold BeliefEngine.update_beliefs_semantic.
  set (scores := BeliefEngine.keyword_scores (lower answer_text)).
  assert (Hfold :
    forall (l : list (string * nat)) (b : beliefs),
      (forall cs, In cs l -> In cs scores) ->
      (In k (PyDict.keys b) ->
       In k (PyDict.keys (fold_left BeliefEngine.semantic_update l b)))
      /\ (In k (PyDict.keys (fold_left BeliefEngine.semantic_update l b)) ->
          In k (PyDict.keys b)
          \/ exists kws,
               In (k, kws) BeliefEngine.symptom_keywords
               /\ (2 <= length (filter (fun kw => contains kw (lower answer_text)) kws))%nat)).
  { induction l as [|cs l IH]; intros b Hl; cbn [fold_left]; [auto|].
    destruct (IH (BeliefEngine.semantic_update b cs)
                 (fun x Hx => Hl x (or_intror Hx))) as [IH1 IH2].
    destruct (semantic_update_keys b cs k) as [H1 H2].
    split; [auto|].
    intro H. apply IH2 in H. destruct H as [H|H]; [|right; exact H].
    apply H2 in H. destruct H as [H|[Hk Hscore]]; [left; exact H|].
    right. destruct cs as [cause score]. cbn [fst snd] in *. subst cause.
    destruct (keyword_scores_in _ _ _ (Hl _ (or_introl eq_refl))) as (kws & Hin & Hs).
    exists kws. split; [exact Hin|]. rewrite <- Hs. exact Hscore. }
  assert (Hsorted :
    forall b, In k (PyDict.keys (BeliefEngine.sort_by_confidence (BeliefEngine.normalize b)))
              <-> In k (PyDict.keys b)).
  { intro b. split; intro H.
    - exact (Permutation_in _ (sort_normalize_keys b) H).
    - exact (Permutation_in _ (Permutation_sym (sort_normalize_keys b)) H). }
  destruct scores as [|s0 rest] eqn:Hs; [auto|].
  rewrite Hsorted. apply (Hfold (s0 :: rest) current). auto.
Qed.

(** ** The properties above on concrete data *)

Lemma update_beliefs_empty_vector_witness :
  snd (BeliefEngine.update_beliefs decimal_float MoreExamples.engine_bad
         Examples.empty_db [] "q_bad" "yes") = Ok []
  /\ snd (BeliefEngine.update_beliefs decimal_float Examples.engine_empty
            MoreExamples.db_learned_text [] "lq_fan_noise" "yes")
     = Raise AttributeError.
Proof.
  split.
  - apply (proj1 (update_beliefs_empty_vector decimal_float MoreExamples.engine_bad
                    Examples.empty_db "q_bad" "yes") MoreExamples.q_bad).
    reflexivity.
  - apply (proj2 (proj2 (proj2 (update_beliefs_empty_vector decimal_float
                                  Examples.engine_empty MoreExamples.db_learned_text
                                  "lq_fan_noise" "yes")))).
    split; [reflexivity|].
    eexists. eexists. eexists. split; reflexivity.
Defined.

Lemma update_beliefs_malformed_multiplier_witness :
  snd (BeliefEngine.update_beliefs decimal_float MoreExamples.engine_bad
         Examples.empty_db MoreExamples.beliefs_abc "q_bad" "yes")
  = Raise ValueError
  /\ InPlace.update_beliefs_store decimal_float MoreExamples.engine_bad
       Examples.empty_db MoreExamples.beliefs_abc "q_bad" "yes"
     = ([("a", 0.5 * 2); ("b", 0.3); ("c", 0.2)], Raise ValueError).
Proof.
  apply (update_beliefs_malformed_multiplier decimal_float MoreExamples.engine_bad
           Examples.empty_db MoreExamples.beliefs_abc "q_bad" "yes"
           [("a", MStr "*2")] [("c", MStr "*3")] "b" "*oops").
  - reflexivity.
  - reflexivity.
  - simpl. right. left. reflexivity.
  - reflexivity.
  - reflexivity.
Defined.

Lemma update_beliefs_probabilities_in_unit_witness :
  Forall in_unit
    (PyDict.values [("power_supply", 900000 # 1200000); ("battery", 300000 # 1200000)]).
Proof.
  apply (update_beliefs_probabilities_in_unit decimal_float Examples.engine_b
           Examples.empty_db Examples.beliefs_b "battery_led" "no"
           [("power_supply", MStr "*1.8"); ("battery", MStr "*0.6")]).
  - reflexivity.
  - discriminate.
  - repeat constructor; discriminate.
  - intros c s f [H|[H|[]]] Hf; inversion H; subst; vm_compute in Hf;
      inversion Hf; subst; discriminate.
  - vm_compute. reflexivity.
Defined.

Lemma selected_question_fresh_and_in_category_witness :
  ~ In (id Examples.fan_noise_base) [] /\ category Examples.fan_noise_base = Some "laptop".
Proof.
  apply (selected_question_fresh_and_in_category decimal_float Examples.engine_fan
           Examples.empty_db Examples.beliefs_fan Examples.no_input [] "laptop").
  vm_compute. reflexivity.
Defined.

Lemma selected_question_passed_filters_witness :
  exists base g,
    PyDict.get (BeliefEngine.base_questions Examples.engine_fan)
      (id Examples.fan_noise_base) = Some base
    /\ information_gain_estimate base = Some g /\ 0.6 <= g
    /\ (exists answer updates cause,
           In (answer, updates) (belief_updates base)
           /\ In cause (PyDict.keys updates)
           /\ In cause (firstn 3 (PyDict.keys Examples.beliefs_fan)))
    /\ BeliefEngine.get_confidence Examples.beliefs_fan <= 0.9
    /\ Examples.beliefs_fan <> [].
Proof.
  apply (selected_question_passed_filters decimal_float Examples.engine_fan
           Examples.empty_db Examples.beliefs_fan Examples.no_input [] "laptop").
  vm_compute. reflexivity.
Defined.

Lemma selecting_exhausts_base_questions_witness :
  (length (unasked_base Examples.engine_fan ([] ++ [id Examples.fan_noise_base]))
   < length (unasked_base Examples.engine_fan []))%nat.
Proof.
  apply (selecting_exhausts_base_questions decimal_float Examples.engine_fan
           Examples.empty_db Examples.beliefs_fan Examples.no_input [] "laptop").
  vm_compute. reflexivity.
Defined.

Lemma text_question_is_fresh_witness :
  ~ In (id MoreExamples.text_general_0) []
  /\ expected_signal MoreExamples.text_general_0 = Some "text".
Proof.
  apply (text_question_is_fresh Examples.beliefs_fan []).
  vm_compute. reflexivity.
Defined.

Lemma text_question_available_witness :
  exists q, BeliefEngine.generate_text_question Examples.beliefs_fan [] = Some q
            /\ expected_signal q = Some "text".
Proof.
  apply (text_question_available Examples.beliefs_fan []).
  - simpl. intros [].
  - vm_compute. discriminate.
Defined.

Lemma text_question_none_when_confident_witness :
  BeliefEngine.generate_text_question MoreExamples.beliefs_confident ["q1"] = None.
Proof.
  apply (text_question_none_when_confident MoreExamples.beliefs_confident ["q1"]).
  - simpl. lia.
  - vm_compute. reflexivity.
Defined.

Lemma answer_is_recorded_witness :
  let s' := fst (Orchestrator.handle_answer decimal_float Examples.engine_b
                   Examples.empty_db MoreExamples.session_b MoreExamples.answer_b) in
  (Orchestrator.asked_questions s' = [] ++ ["battery_led"]
   /\ Orchestrator.current_belief s'
      = [("power_supply", 900000 # 1200000); ("battery", 300000 # 1200000)]
   /\ Orchestrator.confidence_history s'
      = Some ([0.5]
              ++ [BeliefEngine.get_confidence
                    [("power_supply", 900000 # 1200000);
                     ("battery", 300000 # 1200000)]])
   /\ (Orchestrator.same_dict MoreExamples.session_b = false ->
       Orchestrator.initial_belief s'
       = Orchestrator.initial_belief MoreExamples.session_b)
   /\ (Orchestrator.same_dict MoreExamples.session_b = true ->
       Orchestrator.initial_belief s'
       = Orchestrator.update_store decimal_float Examples.engine_b
           Examples.empty_db MoreExamples.session_b MoreExamples.answer_b
       /\ (Orchestrator.current_belief s' = Orchestrator.initial_belief s'
           \/ Orchestrator.current_belief s'
              = BeliefEngine.sort_by_confidence
                  (BeliefEngine.normalize (Orchestrator.initial_belief s')))))
  /\ Orchestrator.initial_belief MoreExamples.session_b
     = [("battery", 0.5); ("power_supply", 0.5)]
  /\ beliefs_eq (Orchestrator.initial_belief s')
       [("battery", 0.3); ("power_supply", 0.9)].
Proof.
  split.
  - apply (answer_is_recorded decimal_float Examples.engine_b Examples.empty_db
             MoreExamples.session_b MoreExamples.answer_b
             [("power_supply", 900000 # 1200000); ("battery", 300000 # 1200000)]).
    + reflexivity.
    + vm_compute. reflexivity.
  - split; [reflexivity|].
    vm_compute. repeat constructor.
Defined.

Lemma answer_is_followed_by_text_question_witness :
  exists r,
    snd (Orchestrator.handle_answer decimal_float Examples.engine_empty
           Examples.empty_db Examples.session_d Examples.answer_d) = Ok r
    /\ ((Orchestrator.state r = Orchestrator.Uncertain
         /\ Orchestrator.action r = "confidence_stagnating_escape")
        \/ (Orchestrator.state r = Orchestrator.Complete
            /\ 0.75 <= BeliefEngine.get_confidence [("a", 0.44); ("b", 0.30); ("c", 0.26)])
        \/ (Orchestrator.state r = Orchestrator.Questioning
            /\ exists q, Orchestrator.next_question r = Some q
                         /\ expected_signal q = Some "text")).
Proof.
  apply (answer_is_followed_by_text_question decimal_float Examples.engine_empty
           Examples.empty_db Examples.session_d Examples.answer_d
           [("a", 0.44); ("b", 0.30); ("c", 0.26)]).
  - reflexivity.
  - reflexivity.
  - vm_compute. intros [H|[H|[H|[]]]]; discriminate H.
Defined.

Lemma keyword_search_results_witness :
  TutorialMatcher.brand (TutorialMatcher.k_info MoreExamples.keyword_hit) = "apple"
  /\ 0 < TutorialMatcher.keyword_score MoreExamples.keyword_hit.
Proof.
  destruct (proj2 (proj2 (keyword_search_results Examples.matcher_phone ["screen"]
                            "PC" (Some "apple") 50))
              MoreExamples.keyword_hit (or_introl eq_refl))
    as (Hbrand & Hscore & _).
  split.
  - apply Hbrand. reflexivity.
  - apply Hscore. discriminate.
Defined.

Lemma vector_search_results_witness :
  TutorialMatcher.brand (TutorialMatcher.v_info MoreExamples.vector_hit) = "apple"
  /\ TutorialMatcher.vector_score MoreExamples.vector_hit <= 1.
Proof.
  destruct (proj2 (proj2
              (vector_search_results Examples.matcher_phone "apple screen" "PC"
                 (Some "apple") 50))
              MoreExamples.vector_hit (or_introl eq_refl))
    as (Hbrand & _ & Hscore).
  split.
  - apply Hbrand. reflexivity.
  - apply Hscore. intros w o Hw. inversion Hw; subst. simpl. discriminate.
Defined.

Lemma feedback_amplification_bounds_witness :
  exists f,
    TutorialMatcher.final_score
      (TutorialMatcher.rerank_one MoreExamples.matcher_feedback
         MoreExamples.db_feedback Examples.candidate_c) = Some f
    /\ TutorialMatcher.hybrid_score
         (TutorialMatcher.rerank_one MoreExamples.matcher_feedback
            MoreExamples.db_feedback Examples.candidate_c) <= f
    /\ f <= TutorialMatcher.hybrid_score
              (TutorialMatcher.rerank_one MoreExamples.matcher_feedback
                 MoreExamples.db_feedback Examples.candidate_c)
            * (1 + TutorialMatcher.gamma MoreExamples.matcher_feedback).
Proof.
  apply (feedback_amplification_bounds MoreExamples.matcher_feedback
           [Examples.candidate_c]).
  - intros db Hdb. inversion Hdb; subst. intros f [Hf|[]]. subst f.
    simpl. repeat split; discriminate.
  - simpl. discriminate.
  - intros r [Hr|[]]. subst r. simpl. discriminate.
  - left. reflexivity.
Defined.

Lemma feedback_reranking_reorders_witness :
  map (fun r => (TutorialMatcher.r_info r, TutorialMatcher.hybrid_score r))
      (TutorialMatcher._feedback_reranking MoreExamples.matcher_offline
         [Examples.candidate_c])
  = map (fun r => (TutorialMatcher.r_info r, TutorialMatcher.hybrid_score r))
        [Examples.candidate_c].
Proof.
  apply (proj2 (feedback_reranking_reorders MoreExamples.matcher_offline
                  [Examples.candidate_c])).
  reflexivity.
Defined.

Lemma ids_in_order_is_a_set :
  forall l, NoDup (MoreExamples.ids_in_order l)
            /\ forall x, In x (MoreExamples.ids_in_order l) <-> In x l.
Proof.
  intro l. split; [apply NoDup_nodup|]. intro x. apply nodup_In.
Qed.

Lemma hybrid_scoring_results_witness :
  NoDup (map tid_of
           (HybridSearch._hybrid_scoring MoreExamples.ids_in_order
              Examples.matcher_phone [MoreExamples.vector_hit]
              [MoreExamples.keyword_hit])).
Proof.
  apply (proj1 (hybrid_scoring_results MoreExamples.ids_in_order
                  Examples.matcher_phone [MoreExamples.vector_hit]
                  [MoreExamples.keyword_hit] ids_in_order_is_a_set)).
Defined.

Lemma search_tutorials_hybrid_results_witness :
  NoDup (map tid_of
           (HybridSearch.search_tutorials_hybrid MoreExamples.ids_in_order
              MoreExamples.matcher_feedback "screen_broken" ["cracked_screen"]
              ["screen"] "PC" (Some "apple") 5)).
Proof.
  apply (proj2 (proj2 (search_tutorials_hybrid_results MoreExamples.ids_in_order
                         MoreExamples.matcher_feedback "screen_broken"
                         ["cracked_screen"] ["screen"] "PC" (Some "apple") 5))).
  exact ids_in_order_is_a_set.
Defined.

Lemma semantic_update_causes_witness :
  In "fan_failure"
     (PyDict.keys
        (BeliefEngine.update_beliefs_semantic Examples.beliefs_fan "q"
           "The laptop gets hot and the fan is loud when it starts to overheat")).
Proof.
  apply (proj1 (semantic_update_causes Examples.beliefs_fan "q"
                  "The laptop gets hot and the fan is loud when it starts to overheat"
                  "fan_failure")).
  simpl. left. reflexivity.
Defined.

(** ** A skip rule that [float] rejects *)

Lemma should_ask_raises_value_error :
  forall py_float self qid b pin asked e,
    BeliefEngine.should_ask_question py_float self qid b pin asked = Raise e ->
    e = ValueError.
Proof.
  intros py_float self qid b pin asked e H.
  unfold BeliefEngine.should_ask_question in H.
  destruct (PyDict.get (BeliefEngine.base_questions self) qid) as [q|]; [|discriminate].
  destruct (str_in qid asked); [discriminate|].
  unfold BeliefEngine.check_brand_confidence in H.
  destruct (brand_confidence_rule (skip_if q)) as [s|]; cbn [bind] in H;
    [|discriminate].
  destruct (py_float _); cbn [bind] in H.
  - destruct (_ && _); cbn [bind] in H; discriminate.
  - inversion H. reflexivity.
Qed.

Lemma valid_questions_raises :
  forall py_float self b pin asked cands q e,
    In q cands ->
    BeliefEngine.should_ask_question py_float self (id q) b pin asked = Raise e ->
    BeliefEngine.valid_questions py_float self b pin asked cands = Raise ValueError.
Proof.
  intros py_float self b pin asked cands q e Hin Hq.
  induction cands as [|c cands IH]; [destruct Hin|].
  cbn [BeliefEngine.valid_questions].
  destruct (BeliefEngine.should_ask_question py_float self (id c) b pin asked)
    as [v|e'] eqn:Hc; cbn [bind].
  - destruct Hin as [Hin|Hin]; [subst c; congruence|].
    rewrite (IH Hin). reflexivity.
  - rewrite (should_ask_raises_value_error _ _ _ _ _ _ _ Hc). reflexivity.
Qed.

(** X28: one candidate base question whose [brand_confidence] rule is not
    a number for [float] makes [select_next_question] raise ValueError,
    whatever the other questions and the beliefs are. *)
Theorem malformed_skip_rule_breaks_selection :
  forall (py_float : string -> option Q) (self : BeliefEngine.self_t)
         (db : Database) (b : beliefs) (pin : processed_input_t)
         (asked : list string) (c : string) (q base : question) (rule : string),
    In q (BeliefEngine.candidate_questions self db asked c) ->
    PyDict.get (BeliefEngine.base_questions self) (id q) = Some base ->
    ~ In (id q) asked ->
    brand_confidence_rule (skip_if base) = Some rule ->
    py_float (remove_char "<" (remove_char ">" rule)) = None ->
    BeliefEngine.select_next_question py_float self db b pin asked c
    = Raise ValueError.
Proof.
  intros py_float self db b pin asked c q base rule Hin Hbase Hasked Hrule Hfloat.
  assert (Hq : BeliefEngine.should_ask_question py_float self (id q) b pin asked
               = Raise ValueError).
  { unfold BeliefEngine.should_ask_question. rewrite Hbase.
    destruct (str_in (id q) asked) eqn:E.
    - apply str_in_true_iff in E. contradiction.
    - unfold BeliefEngine.check_brand_confidence. rewrite Hrule, Hfloat.
      reflexivity. }
  unfold BeliefEngine.select_next_question.
  destruct (BeliefEngine.candidate_questions self db asked c) as [|q0 cands] eqn:Hc;
    [destruct Hin|].
  rewrite (valid_questions_raises _ _ _ _ _ _ _ _ Hin Hq). reflexivity.
Qed.

Lemma malformed_skip_rule_breaks_selection_witness :
  BeliefEngine.select_next_question decimal_float MoreExamples.engine_rule
    Examples.empty_db Examples.beliefs_fan Examples.no_input [] "laptop"
  = Raise ValueError.
Proof.
  apply (malformed_skip_rule_breaks_selection decimal_float MoreExamples.engine_rule
           Examples.empty_db Examples.beliefs_fan Examples.no_input [] "laptop"
           MoreExamples.q_rule MoreExamples.q_rule ">high").
  - simpl. right. left. reflexivity.
  - reflexivity.
  - simpl. intros [].
  - reflexivity.
  - reflexivity.
Defined.
